(** * SKAI example-generation orchestration: a shallow embedding

    The two command-line drivers of the repository,
    [generate_examples_main.py] and [create_cloud_labeling_task.py], are
    embedded here as Rocq functions.  Flags are a record, Python
    exceptions are an error type, and every call to a collaborator
    (geopandas, the [skai] package, the clock, the interpreter version)
    goes through a record of oracles and is logged in an event trace, so
    that statements about which effects happened, and in which order, can
    be made. *)

From Stdlib Require Import ZArith String Ascii List Lia Bool.
From Stdlib Require Import Floats.SpecFloat DecimalString DecimalNat.
From stdpp Require Import gmap strings sorting.

Local Open Scope string_scope.
Local Open Scope Z_scope.

(** ** Python exceptions and results *)

Inductive exn : Type :=
| ValueError (msg : string)
| KeyError
| AttributeError
| OverflowError
| CollaboratorError (msg : string).

Inductive result (A : Type) : Type :=
| Ok (a : A)
| Raise (e : exn).
Arguments Ok {A} a.
Arguments Raise {A} e.

Definition is_ok {A} (r : result A) : bool :=
  match r with Ok _ => true | Raise _ => false end.

(** ** Strings *)

(** [s.startswith(p)] *)
Definition startswith (s p : string) : bool := String.prefix p s.

(** [s[:n]] for a non-negative literal [n] *)
Definition str_take (n : nat) (s : string) : string := String.substring 0 n s.

(** ['=' in s] *)
Fixpoint contains_char (c : ascii) (s : string) : bool :=
  match s with
  | EmptyString => false
  | String a s' => if Ascii.eqb a c then true else contains_char c s'
  end.

(** [s.partition(c)] for a one-character separator: the text before the
    first occurrence, whether the separator was found, the text after it. *)
Fixpoint partition_char (c : ascii) (s : string) : string * bool * string :=
  match s with
  | EmptyString => (EmptyString, false, EmptyString)
  | String a s' =>
      if Ascii.eqb a c then (EmptyString, true, s')
      else let '(b, found, r) := partition_char c s' in (String a b, found, r)
  end.

(** The double-quote character, for messages that quote a flag name. *)
Definition dq : string := String (ascii_of_nat 34) EmptyString.

(** Truthiness of an optional string ([None] and [''] are falsy). *)
Definition truthy_str (o : option string) : bool :=
  match o with
  | Some (String _ _) => true
  | _ => false
  end.

(** Truthiness of an optional list ([None] and [[]] are falsy). *)
Definition truthy_list {A} (o : option (list A)) : bool :=
  match o with
  | Some (_ :: _) => true
  | _ => false
  end.

(** Truthiness of an optional integer ([None] and [0] are falsy). *)
Definition truthy_int (o : option Z) : bool :=
  match o with
  | Some z => negb (z =? 0)
  | None => false
  end.

(** [o is None] *)
Definition is_none {A} (o : option A) : bool :=
  match o with
  | None => true
  | Some _ => false
  end.

(** [f'{o}'] for a flag that is a string or [None]. *)
Definition format_opt (o : option string) : string :=
  match o with
  | Some s => s
  | None => "None"
  end.

(** [l[:n]] with Python's treatment of a negative bound. *)
Definition py_slice_to {A} (l : list A) (n : Z) : list A :=
  if n <? 0 then firstn (Z.to_nat (Z.of_nat (length l) + n)) l
  else firstn (Z.to_nat n) l.

(** [posixpath.join(a, b)] for a relative component [b]. *)
Definition ends_with_slash (a : string) : bool :=
  match String.length a with
  | O => false
  | S n => match String.get n a with
           | Some c => Ascii.eqb c "/"
           | None => false
           end
  end.

Definition path_join (a b : string) : string :=
  if startswith b "/" then b
  else if orb (String.eqb a EmptyString) (ends_with_slash a) then a +:+ b
  else a +:+ "/" +:+ b.

(** ** Floats and dynamically typed field values *)

(** Python floats are IEEE binary64 values. *)
Definition float : Type := spec_float.

Definition Zfloat (z : Z) : float := binary_normalize 53 1024 z 0 false.

(** [float(z)] for a Python integer: correctly rounded, and
    [OverflowError] when the integer is too large for a double. *)
Definition float_of_int (z : Z) : result float :=
  match Zfloat z with
  | S754_infinity _ => Raise OverflowError
  | f => Ok f
  end.

(** The values a field of a GeoDataFrame row can hold. *)
Inductive py_value : Type :=
| PyStr (s : string)
| PyInt (z : Z)
| PyBool (b : bool)
| PyFloat (f : float)
| PyNone
| PyOther (cls : string).

(** [isinstance(v, str)], with the string when it holds. *)
Definition as_str (v : py_value) : option string :=
  match v with PyStr s => Some s | _ => None end.

(** [isinstance(v, (int, float))]; [bool] is a subclass of [int]. *)
Definition isinstance_int_float (v : py_value) : bool :=
  match v with
  | PyInt _ | PyBool _ | PyFloat _ => true
  | _ => false
  end.

(** [type(v)] as an f-string prints it. *)
Definition type_repr (v : py_value) : string :=
  "<class '" +:+
  match v with
  | PyStr _ => "str"
  | PyInt _ => "int"
  | PyBool _ => "bool"
  | PyFloat _ => "float"
  | PyNone => "NoneType"
  | PyOther cls => cls
  end +:+ "'>".

(** [float(v)] on a number. *)
Definition py_float (v : py_value) : result float :=
  match v with
  | PyInt z => float_of_int z
  | PyBool b => float_of_int (if b then 1 else 0)
  | PyFloat f => Ok f
  | _ => Raise (ValueError "float() argument must be a string or a real number")
  end.

(** [l.index(x)]: position of the first element equal to [x], or
    [ValueError]. *)
Fixpoint list_index (x : string) (l : list string) : result Z :=
  match l with
  | [] => Raise (ValueError "x not in list")
  | y :: l' =>
      if String.eqb y x then Ok 0
      else match list_index x l' with
           | Ok i => Ok (i + 1)
           | Raise e => Raise e
           end
  end.

(** ** Geometry, rows and the generation request *)

Definition Coordinate : Type := float * float.
Definition LabeledCoordinate : Type := float * float * float.
Definition Polygon : Type := list Coordinate.

(** A geometry of the labels GeoDataFrame after reprojection, as far as
    the driver looks at it: its centroid, as [(x, y)]. *)
Record Geometry : Type := {
  centroid : Coordinate
}.

(** A row of the labels GeoDataFrame: its geometry, [None] for a feature
    without geometry, and its attribute fields. *)
Record Row : Type := {
  geometry : option Geometry;
  fields : gmap string py_value
}.

(** [row[key]] *)
Definition row_getitem (row : Row) (key : option string) : result py_value :=
  match key with
  | Some k => match fields row !! k with
              | Some v => Ok v
              | None => Raise KeyError
              end
  | None => Raise KeyError
  end.

(** The arguments of [generate_examples.generate_examples_pipeline], in
    call order. *)
Record GenerationRequest : Type := {
  req_before_image_path : string;
  req_after_image_path : string;
  req_example_patch_size : Z;
  req_alignment_patch_size : Z;
  req_labeling_patch_size : Z;
  req_resolution : float;
  req_output_dir : string;
  req_output_shards : Z;
  req_building_centroids : list Coordinate;
  req_labeled_coordinates : list LabeledCoordinate;
  req_use_dataflow : bool;
  req_num_labeling_examples : Z;
  req_gdal_env : gmap string string;
  req_dataflow_container_image : option string;
  req_cloud_project : option string;
  req_cloud_region : option string;
  req_worker_service_account : option string
}.

(** ** Time *)

(** The broken-down local time that [time.strftime] formats. *)
Record struct_time : Type := {
  tm_year : nat;
  tm_mon : nat;
  tm_mday : nat;
  tm_hour : nat;
  tm_min : nat;
  tm_sec : nat
}.

Definition valid_time (t : struct_time) : Prop :=
  (1 <= tm_mon t <= 12 /\ 1 <= tm_mday t <= 31 /\ tm_hour t <= 23 /\
   tm_min t <= 59 /\ tm_sec t <= 61)%nat.

Definition digit_char (d : nat) : ascii := ascii_of_nat (48 + d).

(** [%m], [%d], [%H], [%M], [%S]: two digits, zero padded. *)
Definition two_digits (n : nat) : string :=
  String (digit_char (n / 10)) (String (digit_char (n mod 10)) EmptyString).

(** [%Y]: the year in decimal. *)
Definition decimal (n : nat) : string := NilEmpty.string_of_uint (Nat.to_uint n).

(** [time.strftime('%Y%m%d_%H%M%S')] *)
Definition strftime_Ymd_HMS (t : struct_time) : string :=
  decimal (tm_year t) +:+ two_digits (tm_mon t) +:+ two_digits (tm_mday t) +:+ "_" +:+
  two_digits (tm_hour t) +:+ two_digits (tm_min t) +:+ two_digits (tm_sec t).

(** ** Effects: collaborators, events and the driver monad *)

(** Every call that leaves the driver. *)
Inductive event : Type :=
| EvReadAois (path : option string)
| EvReadBuildingsFile (path : option string) (regions : list Polygon)
| EvOverpassQuery (regions : list Polygon) (url : string)
| EvReadLabelsFile (path : string)
| EvGenerateExamplesPipeline (req : GenerationRequest)
| EvCreateLabelingImages (pattern : string) (max_images : Z) (images_dir : string)
| EvCreateSpecialistPool (project : option string) (region : option string)
    (display_name : string) (manager_emails member_emails : list string)
| EvCreateCloudLabelingJob (project : option string) (region : string)
    (dataset_name : string) (labeler_pool : string) (import_file_uri : string)
    (instructions_uri : string) (inputs_schema_uri : string).

(** What a collaborator answers: it returns, or an exception leaves it.
    Exceptions that come out of a collaborator are kept apart from the
    ones the drivers raise themselves. *)
Inductive answer (A : Type) : Type :=
| Returns (a : A)
| Fails (msg : string).
Arguments Returns {A} a.
Arguments Fails {A} msg.

(** The collaborators, each a function of its arguments, together with
    the interpreter version and the local time of the run. *)
Record World : Type := {
  python_version : string;
  localtime : struct_time;
  read_aois : option string -> answer (list Polygon);
  read_buildings_file : option string -> list Polygon -> answer (list Coordinate);
  get_building_centroids_in_regions : list Polygon -> string -> answer (list Coordinate);
  gpd_read_file_to_crs : string -> answer (list Row);
  generate_examples_pipeline : GenerationRequest -> answer unit;
  create_labeling_images : string -> Z -> string -> answer (Z * string);
  create_specialist_pool :
    option string -> option string -> string -> list string -> list string -> answer string;
  create_cloud_labeling_job :
    option string -> string -> string -> string -> string -> string -> string -> answer unit
}.

(** A computation reads and extends the trace of events and either
    returns or raises. *)
Definition M (A : Type) : Type := list event -> result A * list event.

Definition ret {A} (a : A) : M A := fun t => (Ok a, t).

Definition raise {A} (e : exn) : M A := fun t => (Raise e, t).

Definition bind {A B} (m : M A) (k : A -> M B) : M B :=
  fun t => match m t with
           | (Ok a, t') => k a t'
           | (Raise e, t') => (Raise e, t')
           end.

(** A pure computation that may raise. *)
Definition lift {A} (r : result A) : M A := fun t => (r, t).

(** A call to a collaborator: the call is logged, then it answers. *)
Definition call {A} (ev : event) (a : answer A) : M A :=
  fun t => (match a with
            | Returns v => Ok v
            | Fails msg => Raise (CollaboratorError msg)
            end, (t ++ [ev])%list).

Definition run {A} (m : M A) : result A * list event := m [].

Notation "'let!' x ':=' c 'in' k" := (bind c (fun x => k))
  (at level 10, x binder, c at level 200, k at level 200).
Notation "'do!' c 'in' k" := (bind c (fun _ => k))
  (at level 10, c at level 200, k at level 200).

(** ** The messages of the drivers' own exceptions *)

Definition msg_invalid_buildings_method : string :=
  "Invalid value for " +:+ dq +:+ "buildings_method" +:+ dq +:+ " flag.".

Definition msg_unrecognized_label (label : py_value) : string :=
  "Unrecognized label property type " +:+ type_repr label.

Definition msg_gdal_env : string :=
  "Each element in the gdal_env flag should have the form " +:+
  dq +:+ "var=value" +:+ dq +:+ ".".

Definition msg_dataflow_container_image : string :=
  "dataflow_container_image must be specified when using " +:+
  "Dataflow and your Python version != 3.7, 3.8, or 3.9.".

Definition msg_no_sources : string :=
  "At least labels_file (for labeled examples extraction) " +:+
  "or buildings_method != none (for unlabeled data) should " +:+
  "be specified.".

Definition msg_dataset_name : string :=
  "Dataset name must be specified with " +:+ dq +:+ "--dataset_name" +:+ dq.

Definition msg_labeler_email : string := "Must provide at least one labeler email.".

(** ** generate_examples_main.py *)

Module GenerateExamplesMain.

Inductive BuildingsMethod : Type := BM_file | BM_open_street_map | BM_none.

Definition is_none_method (m : BuildingsMethod) : bool :=
  match m with BM_none => true | _ => false end.

(** The flags of the script, with the types [absl] gives them. *)
Record Flags : Type := {
  cloud_project : option string;
  cloud_region : option string;
  use_dataflow : bool;
  worker_service_account : option string;
  dataset_name : option string;
  before_image_path : string;
  after_image_path : string;
  aoi_path : option string;
  output_dir : string;
  example_patch_size : Z;
  alignment_patch_size : Z;
  resolution : float;
  output_shards : Z;
  dataflow_container_image : option string;
  gdal_env : list string;
  buildings_method : BuildingsMethod;
  buildings_file : option string;
  overpass_url : string;
  labels_file : option string;
  label_property : option string;
  label_classes : list string;
  num_keep_labeled_examples : option Z;
  create_cloud_labeling_task : bool;
  labeling_patch_size : Z;
  num_labeling_examples : Z;
  cloud_labeler_pool : option string;
  cloud_labeler_emails : option (list string);
  labeler_instructions_uri : string;
  label_inputs_schema_uri : string
}.

Section Driver.

Variable FLAGS : Flags.
Variable W : World.

(** [get_building_centroids], lines 136-156. *)
Definition get_building_centroids (regions : list Polygon) : M (list Coordinate) :=
  match buildings_method FLAGS with
  | BM_file =>
      call (EvReadBuildingsFile (buildings_file FLAGS) regions)
           (read_buildings_file W (buildings_file FLAGS) regions)
  | BM_open_street_map =>
      call (EvOverpassQuery regions (overpass_url FLAGS))
           (get_building_centroids_in_regions W regions (overpass_url FLAGS))
  | BM_none =>
      raise (ValueError msg_invalid_buildings_method)
  end.

(** [row.geometry.centroid], line 184: [None] has no attribute
    [centroid]. *)
Definition row_centroid (row : Row) : result Coordinate :=
  match geometry row with
  | Some g => Ok (centroid g)
  | None => Raise AttributeError
  end.

(** The body of the loop of [_read_labels_file], lines 184-197: what one
    row does.  [Ok None] is [continue], [Ok (Some c)] appends [c]. *)
Definition labels_row (label_property : option string) (class_names : list string)
    (row : Row) : result (option LabeledCoordinate) :=
  match row_centroid row with
  | Raise e => Raise e
  | Ok centroid =>
      match row_getitem row label_property with
      | Raise e => Raise e
      | Ok label =>
          match as_str label with
          | Some s =>
              match match list_index s class_names with
                    | Ok i => float_of_int i
                    | Raise e => Raise e
                    end with
              | Ok float_label => Ok (Some (fst centroid, snd centroid, float_label))
              | Raise (ValueError _) => Ok None
              | Raise e => Raise e
              end
          | None =>
              if isinstance_int_float label then
                match py_float label with
                | Ok float_label => Ok (Some (fst centroid, snd centroid, float_label))
                | Raise e => Raise e
                end
              else Raise (ValueError (msg_unrecognized_label label))
          end
      end
  end.

(** The loop of [_read_labels_file], lines 182-197. *)
Fixpoint labels_loop (label_property : option string) (class_names : list string)
    (rows : list Row) (coordinates : list LabeledCoordinate)
    : result (list LabeledCoordinate) :=
  match rows with
  | [] => Ok coordinates
  | row :: rest =>
      match labels_row label_property class_names row with
      | Raise e => Raise e
      | Ok None => labels_loop label_property class_names rest coordinates
      | Ok (Some c) =>
          labels_loop label_property class_names rest (coordinates ++ [c])%list
      end
  end.

(** [_read_labels_file], lines 159-203. *)
Definition _read_labels_file (path : string) (label_property : option string)
    (class_names : list string) : M (list LabeledCoordinate) :=
  let! df := call (EvReadLabelsFile path) (gpd_read_file_to_crs W path) in
  let! coordinates := lift (labels_loop label_property class_names df []) in
  let coordinates :=
    if truthy_int (num_keep_labeled_examples FLAGS) then
      match num_keep_labeled_examples FLAGS with
      | Some n => py_slice_to coordinates n
      | None => coordinates
      end
    else coordinates in
  ret coordinates.

(** [_get_labeling_dataset_region], lines 206-222. *)
Definition _get_labeling_dataset_region (project_region : string) : string :=
  if startswith project_region "europe-" then "europe-west4" else "us-central1".

(** The loop of [_get_gdal_env], lines 227-232. *)
Fixpoint gdal_env_loop (settings : list string) (gdal_env : gmap string string)
    : result (gmap string string) :=
  match settings with
  | [] => Ok gdal_env
  | setting :: rest =>
      if negb (contains_char "=" setting) then
        Raise (ValueError msg_gdal_env)
      else
        let '(var, _, value) := partition_char "=" setting in
        gdal_env_loop rest (<[var := value]> gdal_env)
  end.

(** [_get_gdal_env], lines 225-233. *)
Definition _get_gdal_env : result (gmap string string) :=
  gdal_env_loop (gdal_env FLAGS) ∅.

(** [main], lines 239-251: the Dataflow container image. *)
Definition main_dataflow_container_image : result (option string) :=
  let dataflow_container_image := dataflow_container_image FLAGS in
  let py_version := str_take 3 (python_version W) in
  if use_dataflow FLAGS && is_none dataflow_container_image then
    if String.eqb py_version "3.7" then
      Ok (Some "gcr.io/disaster-assessment/dataflow_3.7_image:latest")
    else if String.eqb py_version "3.8" then
      Ok (Some "gcr.io/disaster-assessment/dataflow_3.8_image:latest")
    else if String.eqb py_version "3.9" then
      Ok (Some "gcr.io/disaster-assessment/dataflow_3.9_image:latest")
    else
      Raise (ValueError msg_dataflow_container_image)
  else Ok dataflow_container_image.

(** [main], lines 253-256: something to work on. *)
Definition main_check_sources : result unit :=
  if negb (truthy_str (labels_file FLAGS)) && is_none_method (buildings_method FLAGS) then
    Raise (ValueError msg_no_sources)
  else Ok tt.

(** [main], lines 257-264: the building centroids. *)
Definition main_building_centroids : M (list Coordinate) :=
  if negb (is_none_method (buildings_method FLAGS)) then
    let! aoi := call (EvReadAois (aoi_path FLAGS)) (read_aois W (aoi_path FLAGS)) in
    get_building_centroids aoi
  else ret [].

(** [main], lines 266-271: the labeled coordinates. *)
Definition main_labeled_coordinates : M (list LabeledCoordinate) :=
  match labels_file FLAGS with
  | Some path =>
      if truthy_str (Some path) then
        _read_labels_file path (label_property FLAGS) (label_classes FLAGS)
      else ret []
  | None => ret []
  end.

(** The request of lines 274-291. *)
Definition generation_request (building_centroids : list Coordinate)
    (labeled_coordinates : list LabeledCoordinate) (gdal_env : gmap string string)
    (dataflow_container_image : option string) : GenerationRequest :=
  {| req_before_image_path := before_image_path FLAGS;
     req_after_image_path := after_image_path FLAGS;
     req_example_patch_size := example_patch_size FLAGS;
     req_alignment_patch_size := alignment_patch_size FLAGS;
     req_labeling_patch_size := labeling_patch_size FLAGS;
     req_resolution := resolution FLAGS;
     req_output_dir := output_dir FLAGS;
     req_output_shards := output_shards FLAGS;
     req_building_centroids := building_centroids;
     req_labeled_coordinates := labeled_coordinates;
     req_use_dataflow := use_dataflow FLAGS;
     req_num_labeling_examples := num_labeling_examples FLAGS;
     req_gdal_env := gdal_env;
     req_dataflow_container_image := dataflow_container_image;
     req_cloud_project := cloud_project FLAGS;
     req_cloud_region := cloud_region FLAGS;
     req_worker_service_account := worker_service_account FLAGS |}.

(** [main], lines 298-308: the labeler pool. *)
Definition main_labeler_pool (timestamped_dataset : string) : M string :=
  match cloud_labeler_pool FLAGS with
  | Some pool => ret pool
  | None =>
      if negb (truthy_list (cloud_labeler_emails FLAGS)) then
        raise (ValueError msg_labeler_email)
      else
        let emails := default [] (cloud_labeler_emails FLAGS) in
        let pool_display_name := timestamped_dataset +:+ "_pool" in
        call (EvCreateSpecialistPool (cloud_project FLAGS) (cloud_region FLAGS)
                pool_display_name (firstn 1 emails) emails)
             (create_specialist_pool W (cloud_project FLAGS) (cloud_region FLAGS)
                pool_display_name (firstn 1 emails) emails)
  end.

(** [main], lines 293-319: the labeling task. *)
Definition main_labeling_task : M unit :=
  if create_cloud_labeling_task FLAGS then
    if negb (truthy_str (dataset_name FLAGS)) then
      raise (ValueError msg_dataset_name)
    else
      let timestamp := strftime_Ymd_HMS (localtime W) in
      let timestamped_dataset := format_opt (dataset_name FLAGS) +:+ "_" +:+ timestamp in
      let! labeler_pool := main_labeler_pool timestamped_dataset in
      let import_file_uri :=
        path_join (path_join (path_join (output_dir FLAGS) "examples") "labeling_images")
                  "import_file.csv" in
      match cloud_region FLAGS with
      | None => raise AttributeError
      | Some region =>
          let job_region := _get_labeling_dataset_region region in
          call (EvCreateCloudLabelingJob (cloud_project FLAGS) job_region
                  timestamped_dataset labeler_pool import_file_uri
                  (labeler_instructions_uri FLAGS) (label_inputs_schema_uri FLAGS))
               (create_cloud_labeling_job W (cloud_project FLAGS) job_region
                  timestamped_dataset labeler_pool import_file_uri
                  (labeler_instructions_uri FLAGS) (label_inputs_schema_uri FLAGS))
      end
  else ret tt.

(** [main], lines 236-319. *)
Definition main : M unit :=
  let! dataflow_container_image := lift main_dataflow_container_image in
  do! lift main_check_sources in
  let! building_centroids := main_building_centroids in
  let! labeled_coordinates := main_labeled_coordinates in
  let! gdal_env := lift _get_gdal_env in
  let req := generation_request building_centroids labeled_coordinates gdal_env
                                dataflow_container_image in
  do! call (EvGenerateExamplesPipeline req) (generate_examples_pipeline W req) in
  main_labeling_task.

End Driver.

End GenerateExamplesMain.

(** ** create_cloud_labeling_task.py *)

Module CreateCloudLabelingTask.

Record Flags : Type := {
  cloud_project : string;
  cloud_location : string;
  examples_pattern : string;
  images_dir : string;
  max_images : Z;
  randomize : bool;
  dataset_name : option string;
  cloud_labeler_pool : option string;
  cloud_labeler_emails : option (list string);
  labeler_instructions_uri : string;
  label_inputs_schema_uri : string
}.

Section Driver.

Variable FLAGS : Flags.
Variable W : World.

(** [_get_labeling_dataset_region], lines 77-93. *)
Definition _get_labeling_dataset_region (project_region : string) : string :=
  if startswith project_region "europe-" then "europe-west4" else "us-central1".

(** [main], lines 105-116: the labeler pool. *)
Definition main_labeler_pool (timestamped_dataset : string) : M string :=
  match cloud_labeler_pool FLAGS with
  | Some pool => ret pool
  | None =>
      if negb (truthy_list (cloud_labeler_emails FLAGS)) then
        raise (ValueError msg_labeler_email)
      else
        let emails := default [] (cloud_labeler_emails FLAGS) in
        let pool_display_name := timestamped_dataset +:+ "_pool" in
        call (EvCreateSpecialistPool (Some (cloud_project FLAGS))
                (Some (cloud_location FLAGS)) pool_display_name (firstn 1 emails) emails)
             (create_specialist_pool W (Some (cloud_project FLAGS))
                (Some (cloud_location FLAGS)) pool_display_name (firstn 1 emails) emails)
  end.

(** [main], lines 96-125. *)
Definition main : M unit :=
  let timestamp := strftime_Ymd_HMS (localtime W) in
  let timestamped_dataset := format_opt (dataset_name FLAGS) +:+ "_" +:+ timestamp in
  let! images :=
    call (EvCreateLabelingImages (examples_pattern FLAGS) (max_images FLAGS)
            (images_dir FLAGS))
         (create_labeling_images W (examples_pattern FLAGS) (max_images FLAGS)
            (images_dir FLAGS)) in
  let import_file_path := snd images in
  let! labeler_pool := main_labeler_pool timestamped_dataset in
  let job_region := _get_labeling_dataset_region (cloud_location FLAGS) in
  call (EvCreateCloudLabelingJob (Some (cloud_project FLAGS)) job_region
          timestamped_dataset labeler_pool import_file_path
          (labeler_instructions_uri FLAGS) (label_inputs_schema_uri FLAGS))
       (create_cloud_labeling_job W (Some (cloud_project FLAGS)) job_region
          timestamped_dataset labeler_pool import_file_path
          (labeler_instructions_uri FLAGS) (label_inputs_schema_uri FLAGS)).

End Driver.

End CreateCloudLabelingTask.

(** ** Notions the statements use *)

(** The coordinate a row contributes, if it contributes one. *)
Definition valid_coordinate (label_property : option string) (class_names : list string)
    (row : Row) : option LabeledCoordinate :=
  match GenerateExamplesMain.labels_row label_property class_names row with
  | Ok (Some c) => Some c
  | _ => None
  end.

(** The valid coordinates of a file, in the order of its rows. *)
Definition valid_coordinates (label_property : option string) (class_names : list string)
    (rows : list Row) : list LabeledCoordinate :=
  omap (valid_coordinate label_property class_names) rows.

(** The variable and the value of a [var=value] setting, as
    [setting.partition('=')] splits it. *)
Definition setting_key (setting : string) : string :=
  fst (fst (partition_char "=" setting)).

Definition setting_value (setting : string) : string :=
  snd (partition_char "=" setting).

(** The dictionary after the assignments [gdal_env[var] = value] of the
    settings, in order, starting from [env]. *)
Definition assign_settings (env : gmap string string) (settings : list string)
    : gmap string string :=
  foldl (fun env setting => <[setting_key setting := setting_value setting]> env)
        env settings.

(** The dataset name of a run: the configured name, an underscore and
    the time stamp. *)
Definition timestamped (name : option string) (W : World) : string :=
  format_opt name +:+ "_" +:+ strftime_Ymd_HMS (localtime W).

(** The events each stage of [main] can log, with what the flags say
    when it does. *)
Definition building_event (FLAGS : GenerateExamplesMain.Flags) (ev : event) : Prop :=
  (ev = EvReadAois (GenerateExamplesMain.aoi_path FLAGS) /\
   GenerateExamplesMain.buildings_method FLAGS <> GenerateExamplesMain.BM_none) \/
  (exists regions,
     ev = EvReadBuildingsFile (GenerateExamplesMain.buildings_file FLAGS) regions /\
     GenerateExamplesMain.buildings_method FLAGS = GenerateExamplesMain.BM_file) \/
  (exists regions,
     ev = EvOverpassQuery regions (GenerateExamplesMain.overpass_url FLAGS) /\
     GenerateExamplesMain.buildings_method FLAGS = GenerateExamplesMain.BM_open_street_map).

Definition labels_event (FLAGS : GenerateExamplesMain.Flags) (ev : event) : Prop :=
  exists path, ev = EvReadLabelsFile path /\
               GenerateExamplesMain.labels_file FLAGS = Some path /\
               truthy_str (GenerateExamplesMain.labels_file FLAGS) = true.

Definition pool_event (FLAGS : GenerateExamplesMain.Flags) (W : World) (ev : event) : Prop :=
  exists emails,
    ev = EvCreateSpecialistPool (GenerateExamplesMain.cloud_project FLAGS)
           (GenerateExamplesMain.cloud_region FLAGS)
           (timestamped (GenerateExamplesMain.dataset_name FLAGS) W +:+ "_pool")
           (firstn 1 emails) emails /\
    GenerateExamplesMain.cloud_labeler_pool FLAGS = None /\
    GenerateExamplesMain.cloud_labeler_emails FLAGS = Some emails /\
    emails <> [].

Definition job_event (FLAGS : GenerateExamplesMain.Flags) (W : World) (ev : event) : Prop :=
  exists region pool,
    ev = EvCreateCloudLabelingJob (GenerateExamplesMain.cloud_project FLAGS)
           (GenerateExamplesMain._get_labeling_dataset_region region)
           (timestamped (GenerateExamplesMain.dataset_name FLAGS) W) pool
           (path_join (path_join (path_join (GenerateExamplesMain.output_dir FLAGS)
                                            "examples") "labeling_images")
                      "import_file.csv")
           (GenerateExamplesMain.labeler_instructions_uri FLAGS)
           (GenerateExamplesMain.label_inputs_schema_uri FLAGS) /\
    GenerateExamplesMain.cloud_region FLAGS = Some region /\
    GenerateExamplesMain.create_cloud_labeling_task FLAGS = true /\
    truthy_str (GenerateExamplesMain.dataset_name FLAGS) = true.

Definition pipeline_event (ev : event) : Prop :=
  exists req, ev = EvGenerateExamplesPipeline req.

(** The same for the [main] of [create_cloud_labeling_task.py]. *)
Definition task_pool_event (FLAGS : CreateCloudLabelingTask.Flags) (W : World)
    (ev : event) : Prop :=
  exists emails,
    ev = EvCreateSpecialistPool (Some (CreateCloudLabelingTask.cloud_project FLAGS))
           (Some (CreateCloudLabelingTask.cloud_location FLAGS))
           (timestamped (CreateCloudLabelingTask.dataset_name FLAGS) W +:+ "_pool")
           (firstn 1 emails) emails /\
    CreateCloudLabelingTask.cloud_labeler_pool FLAGS = None /\
    CreateCloudLabelingTask.cloud_labeler_emails FLAGS = Some emails /\
    emails <> [].

Definition task_job_event (FLAGS : CreateCloudLabelingTask.Flags) (W : World)
    (ev : event) : Prop :=
  exists pool import_file_path,
    ev = EvCreateCloudLabelingJob (Some (CreateCloudLabelingTask.cloud_project FLAGS))
           (CreateCloudLabelingTask._get_labeling_dataset_region
              (CreateCloudLabelingTask.cloud_location FLAGS))
           (timestamped (CreateCloudLabelingTask.dataset_name FLAGS) W) pool
           import_file_path
           (CreateCloudLabelingTask.labeler_instructions_uri FLAGS)
           (CreateCloudLabelingTask.label_inputs_schema_uri FLAGS).

Definition task_images_event (FLAGS : CreateCloudLabelingTask.Flags) (ev : event) : Prop :=
  ev = EvCreateLabelingImages (CreateCloudLabelingTask.examples_pattern FLAGS)
         (CreateCloudLabelingTask.max_images FLAGS)
         (CreateCloudLabelingTask.images_dir FLAGS).

(** What a collaborator's answer is to the driver. *)
Definition answered {A} (a : answer A) : result A :=
  match a with
  | Returns v => Ok v
  | Fails msg => Raise (CollaboratorError msg)
  end.

(** The float [1.0] and [2.0] as IEEE doubles: mantissa [2^52] with
    exponent [-52] and [-51]. *)
Definition float_1_0 : float := S754_finite false 4503599627370496 (-52).
Definition float_2_0 : float := S754_finite false 4503599627370496 (-51).

(** ** Sample configurations and worlds *)

Module Samples.

Import GenerateExamplesMain.

(** A command line that sets the required flags and the ones named here
    and leaves every other flag at its default. *)
Definition flags (method : BuildingsMethod) (labels : option string) (keep : option Z)
    (dataflow : bool) (image : option string) (env : list string)
    (task : bool) (name : option string) (pool : option string)
    (emails : option (list string)) : Flags :=
  {| cloud_project := Some "disaster-assessment";
     cloud_region := Some "europe-west1";
     use_dataflow := dataflow;
     worker_service_account := None;
     dataset_name := name;
     before_image_path := "before.tif";
     after_image_path := "after.tif";
     aoi_path := Some "aoi.geojson";
     output_dir := "gs://bucket/out";
     example_patch_size := 64;
     alignment_patch_size := 256;
     resolution := S754_finite false 4503599627370496 (-53);
     output_shards := 20;
     dataflow_container_image := image;
     gdal_env := env;
     buildings_method := method;
     buildings_file := Some "buildings.csv";
     overpass_url := "https://lz4.overpass-api.de/api/interpreter";
     labels_file := labels;
     label_property := Some "Main_Damag";
     label_classes := ["undamaged"; "damaged"];
     num_keep_labeled_examples := keep;
     create_cloud_labeling_task := task;
     labeling_patch_size := 256;
     num_labeling_examples := 500;
     cloud_labeler_pool := pool;
     cloud_labeler_emails := emails;
     labeler_instructions_uri := "gs://skai-public/labeling_instructions.pdf";
     label_inputs_schema_uri :=
       "gs://google-cloud-aiplatform/schema/datalabelingjob/inputs/" +:+
       "image_classification_1.0.0.yaml" |}.

(** The flags of [create_cloud_labeling_task.py] the same way. *)
Definition task_flags (name : option string) (pool : option string)
    (emails : option (list string)) : CreateCloudLabelingTask.Flags :=
  {| CreateCloudLabelingTask.cloud_project := "disaster-assessment";
     CreateCloudLabelingTask.cloud_location := "us-central1";
     CreateCloudLabelingTask.examples_pattern := "gs://bucket/examples/*.tfrecord";
     CreateCloudLabelingTask.images_dir := "gs://bucket/labeling-images";
     CreateCloudLabelingTask.max_images := 1000;
     CreateCloudLabelingTask.randomize := true;
     CreateCloudLabelingTask.dataset_name := name;
     CreateCloudLabelingTask.cloud_labeler_pool := pool;
     CreateCloudLabelingTask.cloud_labeler_emails := emails;
     CreateCloudLabelingTask.labeler_instructions_uri :=
       "gs://skai-public/labeling_instructions.pdf";
     CreateCloudLabelingTask.label_inputs_schema_uri :=
       "gs://google-cloud-aiplatform/schema/datalabelingjob/inputs/" +:+
       "image_classification_1.0.0.yaml" |}.

(** A labelled point at integer coordinates. *)
Definition point (x y : Z) (label : py_value) : Row :=
  {| geometry := Some {| centroid := (Zfloat x, Zfloat y) |};
     fields := {[ "Main_Damag" := label ]} |}.

(** A labelled feature without geometry. *)
Definition no_geometry (label : py_value) : Row :=
  {| geometry := None;
     fields := {[ "Main_Damag" := label ]} |}.

Definition now : struct_time :=
  {| tm_year := 2021; tm_mon := 11; tm_mday := 3;
     tm_hour := 9; tm_min := 5; tm_sec := 59 |}.

Definition one_second_later : struct_time :=
  {| tm_year := 2021; tm_mon := 11; tm_mday := 3;
     tm_hour := 9; tm_min := 6; tm_sec := 0 |}.

(** A world in which every collaborator returns, the labels file holds
    [rows] and the interpreter reports [version]. *)
Definition world (version : string) (time : struct_time) (rows : list Row) : World :=
  {| python_version := version;
     localtime := time;
     read_aois := fun _ => Returns [];
     read_buildings_file := fun _ _ => Returns [];
     get_building_centroids_in_regions := fun _ _ => Returns [];
     gpd_read_file_to_crs := fun _ => Returns rows;
     generate_examples_pipeline := fun _ => Returns tt;
     create_labeling_images := fun _ _ dir => Returns (0, dir +:+ "/import_file.csv");
     create_specialist_pool := fun _ _ _ _ _ => Returns "projects/p/locations/l/specialistPools/1";
     create_cloud_labeling_job := fun _ _ _ _ _ _ _ => Returns tt |}.

(** Five rows with recognised labels. *)
Definition five_rows : list Row :=
  [ point 1 1 (PyStr "damaged"); point 2 2 (PyStr "undamaged"); point 3 3 (PyInt 2);
    point 4 4 (PyStr "damaged"); point 5 5 (PyInt 0) ].

End Samples.

(** ** Notions for the further properties *)

(** The message with which a collaborator failed, if it did. *)
Definition failure_of {A} (a : answer A) : option string :=
  match a with
  | Returns _ => None
  | Fails msg => Some msg
  end.

(** The failure of the call that an event records.  The collaborators
    are functions of their arguments, so the event determines it. *)
Definition call_failure (W : World) (ev : event) : option string :=
  match ev with
  | EvReadAois path => failure_of (read_aois W path)
  | EvReadBuildingsFile path regions => failure_of (read_buildings_file W path regions)
  | EvOverpassQuery regions url =>
      failure_of (get_building_centroids_in_regions W regions url)
  | EvReadLabelsFile path => failure_of (gpd_read_file_to_crs W path)
  | EvGenerateExamplesPipeline req => failure_of (generate_examples_pipeline W req)
  | EvCreateLabelingImages pattern max_images images_dir =>
      failure_of (create_labeling_images W pattern max_images images_dir)
  | EvCreateSpecialistPool project region display_name managers members =>
      failure_of (create_specialist_pool W project region display_name managers members)
  | EvCreateCloudLabelingJob project region dataset pool uri instructions schema =>
      failure_of (create_cloud_labeling_job W project region dataset pool uri
                    instructions schema)
  end.

(** Calls that all returned. *)
Definition quiet (W : World) (evs : list event) : Prop :=
  Forall (fun ev => call_failure W ev = None) evs.

(** A result fits the calls made: a collaborator's exception comes with
    a failed last call after calls that returned; any other result comes
    with calls that all returned. *)
Definition fits {A} (W : World) (r : result A) (evs : list event) : Prop :=
  match r with
  | Raise (CollaboratorError msg) =>
      exists before ev, evs = (before ++ [ev])%list /\ quiet W before /\
                        call_failure W ev = Some msg
  | _ => quiet W evs
  end.

(** A computation only appends to the trace, and its result fits what
    it appends. *)
Definition fail_stop {A} (W : World) (m : M A) : Prop :=
  forall t, exists evs, snd (m t) = (t ++ evs)%list /\ fits W (fst (m t)) evs.

(** An exception of the drivers' own. *)
Definition own_exception (e : exn) : Prop :=
  match e with
  | CollaboratorError _ => False
  | _ => True
  end.

(** The seven ways a run of [main] of [generate_examples_main.py] ends:
    at one of the six steps before the labeling task, or in the
    labeling task after the pipeline has returned. *)
Inductive main_ends (FLAGS : GenerateExamplesMain.Flags) (W : World)
    : result unit * list event -> Prop :=
| ends_image e :
    GenerateExamplesMain.main_dataflow_container_image FLAGS W = Raise e ->
    main_ends FLAGS W (Raise e, [])
| ends_sources image e :
    GenerateExamplesMain.main_dataflow_container_image FLAGS W = Ok image ->
    GenerateExamplesMain.main_check_sources FLAGS = Raise e ->
    main_ends FLAGS W (Raise e, [])
| ends_buildings image e t1 :
    GenerateExamplesMain.main_dataflow_container_image FLAGS W = Ok image ->
    GenerateExamplesMain.main_check_sources FLAGS = Ok tt ->
    GenerateExamplesMain.main_building_centroids FLAGS W [] = (Raise e, t1) ->
    main_ends FLAGS W (Raise e, t1)
| ends_labels image building_centroids t1 e t2 :
    GenerateExamplesMain.main_dataflow_container_image FLAGS W = Ok image ->
    GenerateExamplesMain.main_check_sources FLAGS = Ok tt ->
    GenerateExamplesMain.main_building_centroids FLAGS W [] = (Ok building_centroids, t1) ->
    GenerateExamplesMain.main_labeled_coordinates FLAGS W t1 = (Raise e, t2) ->
    main_ends FLAGS W (Raise e, t2)
| ends_gdal_env image building_centroids t1 labeled_coordinates t2 e :
    GenerateExamplesMain.main_dataflow_container_image FLAGS W = Ok image ->
    GenerateExamplesMain.main_check_sources FLAGS = Ok tt ->
    GenerateExamplesMain.main_building_centroids FLAGS W [] = (Ok building_centroids, t1) ->
    GenerateExamplesMain.main_labeled_coordinates FLAGS W t1 =
      (Ok labeled_coordinates, t2) ->
    GenerateExamplesMain._get_gdal_env FLAGS = Raise e ->
    main_ends FLAGS W (Raise e, t2)
| ends_pipeline image building_centroids t1 labeled_coordinates t2 env msg :
    GenerateExamplesMain.main_dataflow_container_image FLAGS W = Ok image ->
    GenerateExamplesMain.main_check_sources FLAGS = Ok tt ->
    GenerateExamplesMain.main_building_centroids FLAGS W [] = (Ok building_centroids, t1) ->
    GenerateExamplesMain.main_labeled_coordinates FLAGS W t1 =
      (Ok labeled_coordinates, t2) ->
    GenerateExamplesMain._get_gdal_env FLAGS = Ok env ->
    generate_examples_pipeline W
      (GenerateExamplesMain.generation_request FLAGS building_centroids
         labeled_coordinates env image) = Fails msg ->
    main_ends FLAGS W
      (Raise (CollaboratorError msg),
       (t2 ++ [EvGenerateExamplesPipeline
                 (GenerateExamplesMain.generation_request FLAGS building_centroids
                    labeled_coordinates env image)])%list)
| ends_task image building_centroids t1 labeled_coordinates t2 env :
    GenerateExamplesMain.main_dataflow_container_image FLAGS W = Ok image ->
    GenerateExamplesMain.main_check_sources FLAGS = Ok tt ->
    GenerateExamplesMain.main_building_centroids FLAGS W [] = (Ok building_centroids, t1) ->
    GenerateExamplesMain.main_labeled_coordinates FLAGS W t1 =
      (Ok labeled_coordinates, t2) ->
    GenerateExamplesMain._get_gdal_env FLAGS = Ok env ->
    generate_examples_pipeline W
      (GenerateExamplesMain.generation_request FLAGS building_centroids
         labeled_coordinates env image) = Returns tt ->
    main_ends FLAGS W
      (GenerateExamplesMain.main_labeling_task FLAGS W
         (t2 ++ [EvGenerateExamplesPipeline
                   (GenerateExamplesMain.generation_request FLAGS building_centroids
                      labeled_coordinates env image)])%list).

(** The place of a call in the order of the drivers' steps. *)
Definition call_rank (ev : event) : nat :=
  match ev with
  | EvReadAois _ => 0
  | EvReadBuildingsFile _ _ => 1
  | EvOverpassQuery _ _ => 1
  | EvReadLabelsFile _ => 2
  | EvGenerateExamplesPipeline _ => 3
  | EvCreateLabelingImages _ _ _ => 3
  | EvCreateSpecialistPool _ _ _ _ _ => 4
  | EvCreateCloudLabelingJob _ _ _ _ _ _ _ => 5
  end.

(** Calls in strictly increasing order of their steps: each step at
    most once, and never an earlier step after a later one. *)
Definition in_order (evs : list event) : Prop :=
  StronglySorted (fun a b => (call_rank a < call_rank b)%nat) evs.

(** A computation only appends calls of the steps from [lo] up to, and
    not including, [hi], in order. *)
Definition within (lo hi : nat) {A} (m : M A) : Prop :=
  forall t, exists evs,
    snd (m t) = (t ++ evs)%list /\ in_order evs /\
    Forall (fun ev => (lo <= call_rank ev < hi)%nat) evs.

(** The flags [F] with the region flag set to [region]. *)
Definition with_region (region : option string) (F : GenerateExamplesMain.Flags)
    : GenerateExamplesMain.Flags :=
  {| GenerateExamplesMain.cloud_project := GenerateExamplesMain.cloud_project F;
     GenerateExamplesMain.cloud_region := region;
     GenerateExamplesMain.use_dataflow := GenerateExamplesMain.use_dataflow F;
     GenerateExamplesMain.worker_service_account :=
       GenerateExamplesMain.worker_service_account F;
     GenerateExamplesMain.dataset_name := GenerateExamplesMain.dataset_name F;
     GenerateExamplesMain.before_image_path := GenerateExamplesMain.before_image_path F;
     GenerateExamplesMain.after_image_path := GenerateExamplesMain.after_image_path F;
     GenerateExamplesMain.aoi_path := GenerateExamplesMain.aoi_path F;
     GenerateExamplesMain.output_dir := GenerateExamplesMain.output_dir F;
     GenerateExamplesMain.example_patch_size := GenerateExamplesMain.example_patch_size F;
     GenerateExamplesMain.alignment_patch_size :=
       GenerateExamplesMain.alignment_patch_size F;
     GenerateExamplesMain.resolution := GenerateExamplesMain.resolution F;
     GenerateExamplesMain.output_shards := GenerateExamplesMain.output_shards F;
     GenerateExamplesMain.dataflow_container_image :=
       GenerateExamplesMain.dataflow_container_image F;
     GenerateExamplesMain.gdal_env := GenerateExamplesMain.gdal_env F;
     GenerateExamplesMain.buildings_method := GenerateExamplesMain.buildings_method F;
     GenerateExamplesMain.buildings_file := GenerateExamplesMain.buildings_file F;
     GenerateExamplesMain.overpass_url := GenerateExamplesMain.overpass_url F;
     GenerateExamplesMain.labels_file := GenerateExamplesMain.labels_file F;
     GenerateExamplesMain.label_property := GenerateExamplesMain.label_property F;
     GenerateExamplesMain.label_classes := GenerateExamplesMain.label_classes F;
     GenerateExamplesMain.num_keep_labeled_examples :=
       GenerateExamplesMain.num_keep_labeled_examples F;
     GenerateExamplesMain.create_cloud_labeling_task :=
       GenerateExamplesMain.create_cloud_labeling_task F;
     GenerateExamplesMain.labeling_patch_size := GenerateExamplesMain.labeling_patch_size F;
     GenerateExamplesMain.num_labeling_examples :=
       GenerateExamplesMain.num_labeling_examples F;
     GenerateExamplesMain.cloud_labeler_pool := GenerateExamplesMain.cloud_labeler_pool F;
     GenerateExamplesMain.cloud_labeler_emails :=
       GenerateExamplesMain.cloud_labeler_emails F;
     GenerateExamplesMain.labeler_instructions_uri :=
       GenerateExamplesMain.labeler_instructions_uri F;
     GenerateExamplesMain.label_inputs_schema_uri :=
       GenerateExamplesMain.label_inputs_schema_uri F |}.

(** The calls of the building step of [main], lines 257-264. *)
Definition discovery_calls (FLAGS : GenerateExamplesMain.Flags) (W : World) : list event :=
  match GenerateExamplesMain.buildings_method FLAGS with
  | GenerateExamplesMain.BM_none => []
  | GenerateExamplesMain.BM_file =>
      match read_aois W (GenerateExamplesMain.aoi_path FLAGS) with
      | Returns aoi =>
          [EvReadAois (GenerateExamplesMain.aoi_path FLAGS);
           EvReadBuildingsFile (GenerateExamplesMain.buildings_file FLAGS) aoi]
      | Fails _ => [EvReadAois (GenerateExamplesMain.aoi_path FLAGS)]
      end
  | GenerateExamplesMain.BM_open_street_map =>
      match read_aois W (GenerateExamplesMain.aoi_path FLAGS) with
      | Returns aoi =>
          [EvReadAois (GenerateExamplesMain.aoi_path FLAGS);
           EvOverpassQuery aoi (GenerateExamplesMain.overpass_url FLAGS)]
      | Fails _ => [EvReadAois (GenerateExamplesMain.aoi_path FLAGS)]
      end
  end.

(** The labels file of the run holds a feature without geometry, and
    the read of that file is the last call of the trace [t]. *)
Definition feature_without_geometry (FLAGS : GenerateExamplesMain.Flags) (W : World)
    (t : list event) : Prop :=
  exists path rows row before,
    GenerateExamplesMain.labels_file FLAGS = Some path /\
    gpd_read_file_to_crs W path = Returns rows /\
    row ∈ rows /\ geometry row = None /\
    t = (before ++ [EvReadLabelsFile path])%list.

(** [dataset] is the dataset name of a labeling job that a run of either
    driver, configured with the dataset name [name], creates in the
    world [W]. *)
Definition names_job (W : World) (name : option string) (dataset : string) : Prop :=
  (exists (FLAGS : GenerateExamplesMain.Flags) project region pool uri instructions schema,
     GenerateExamplesMain.dataset_name FLAGS = name /\
     EvCreateCloudLabelingJob project region dataset pool uri instructions schema
       ∈ snd (run (GenerateExamplesMain.main FLAGS W))) \/
  (exists (FLAGS : CreateCloudLabelingTask.Flags) project region pool uri instructions schema,
     CreateCloudLabelingTask.dataset_name FLAGS = name /\
     EvCreateCloudLabelingJob project region dataset pool uri instructions schema
       ∈ snd (run (CreateCloudLabelingTask.main FLAGS W))).

(** * Properties *)

(** ** Integers up to 63 bits convert to a finite double *)

Section FloatOfInt.

Lemma digits2_pos_bound (p : positive) :
  forall k, 0 <= k -> Zpos p < 2 ^ k -> Zpos (digits2_pos p) <= k.
Proof.
  induction p as [p IH | p IH |]; intros k Hk Hlt; simpl.
  - assert (k <> 0) by (intros ->; simpl in Hlt; lia).
    replace k with (Z.succ (k - 1)) in Hlt by lia.
    rewrite Z.pow_succ_r in Hlt by lia.
    specialize (IH (k - 1)). lia.
  - assert (k <> 0) by (intros ->; simpl in Hlt; lia).
    replace k with (Z.succ (k - 1)) in Hlt by lia.
    rewrite Z.pow_succ_r in Hlt by lia.
    specialize (IH (k - 1)). lia.
  - assert (k <> 0) by (intros ->; simpl in Hlt; lia). lia.
Qed.

Lemma Zdigits2_bound (m k : Z) : 0 <= k -> 0 <= m < 2 ^ k -> Zdigits2 m <= k.
Proof.
  intros Hk [Hm Hlt]. destruct m as [| p | p]; simpl; try lia.
  now apply digits2_pos_bound.
Qed.

Lemma shr_1_bound (mrs : shr_record) :
  0 <= shr_m mrs -> 0 <= shr_m (shr_1 mrs) <= shr_m mrs.
Proof.
  destruct mrs as [m r s]. simpl.
  destruct m as [| [p | p |] | p]; simpl; lia.
Qed.

Lemma iter_shr_1_bound (p : positive) :
  forall mrs, 0 <= shr_m mrs -> 0 <= shr_m (SpecFloat.iter_pos shr_1 p mrs) <= shr_m mrs.
Proof.
  induction p as [p IH | p IH |]; intros mrs Hm; simpl.
  - pose proof (shr_1_bound mrs Hm) as H1.
    pose proof (IH (shr_1 mrs) (proj1 H1)) as H2.
    pose proof (IH _ (proj1 H2)). lia.
  - pose proof (IH mrs Hm) as H2.
    pose proof (IH _ (proj1 H2)). lia.
  - now apply shr_1_bound.
Qed.

Lemma shr_fexp_bound (m e : Z) (l : location) (k : Z) :
  0 <= k -> 0 <= m < 2 ^ k ->
  0 <= shr_m (fst (shr_fexp 53 1024 m e l)) <= m /\
  snd (shr_fexp 53 1024 m e l) <= Z.max e (Z.max (k + e - 53) (-1074)).
Proof.
  intros Hk Hm. pose proof (Zdigits2_bound m k Hk Hm) as Hd.
  unfold shr_fexp, shr, fexp, emin.
  assert (Hrec : shr_m (shr_record_of_loc m l) = m) by (destruct l as [| []]; reflexivity).
  destruct (Z.max (Zdigits2 m + e - 53) (3 - 1024 - 53) - e) as [| p | p] eqn:E;
    cbn [fst snd].
  - rewrite Hrec. lia.
  - pose proof (iter_shr_1_bound p (shr_record_of_loc m l)) as Hi.
    rewrite Hrec in Hi. lia.
  - rewrite Hrec. lia.
Qed.

Lemma round_nearest_even_bound (m : Z) (l : location) :
  0 <= m -> 0 <= round_nearest_even m l <= m + 1.
Proof.
  intros Hm. unfold round_nearest_even.
  destruct l as [| []]; try destruct (Z.even m); lia.
Qed.

Lemma binary_round_aux_finite (sx : bool) (mx ex : Z) (l : location) :
  0 <= mx < 2 ^ 115 -> ex <= 0 ->
  forall s, binary_round_aux 53 1024 sx mx ex l <> S754_infinity s.
Proof.
  intros Hmx Hex s. unfold binary_round_aux.
  pose proof (shr_fexp_bound mx ex l 115 ltac:(lia) Hmx) as [Hm1 He1].
  destruct (shr_fexp 53 1024 mx ex l) as [mrs1 e1]. cbn [fst snd] in Hm1, He1.
  pose proof (round_nearest_even_bound (shr_m mrs1) (loc_of_shr_record mrs1)
                ltac:(lia)) as Hr.
  set (m2 := round_nearest_even (shr_m mrs1) (loc_of_shr_record mrs1)) in *.
  assert (Hm2 : 0 <= m2 < 2 ^ 116).
  { change (2 ^ 116) with (2 * 2 ^ 115). lia. }
  pose proof (shr_fexp_bound m2 e1 loc_Exact 116 ltac:(lia) Hm2) as [Hm3 He3].
  destruct (shr_fexp 53 1024 m2 e1 loc_Exact) as [mrs2 e2]. cbn [fst snd] in Hm3, He3.
  destruct (shr_m mrs2); try discriminate.
  destruct (Z.leb_spec e2 (1024 - 53)); [discriminate | lia].
Qed.

Lemma binary_round_finite (sx : bool) (mx : positive) :
  Zpos mx < 2 ^ 63 -> forall s, binary_round 53 1024 sx mx 0 <> S754_infinity s.
Proof.
  intros Hmx s. unfold binary_round, shl_align.
  pose proof (digits2_pos_bound mx 63 ltac:(lia) Hmx) as Hd.
  assert (Hfe : -52 <= fexp 53 1024 (Zpos (digits2_pos mx) + 0)) by (unfold fexp, emin; lia).
  destruct (fexp 53 1024 (Zpos (digits2_pos mx) + 0) - 0) as [| d | d] eqn:E.
  - apply binary_round_aux_finite; [change (2 ^ 115) with (2 ^ 63 * 2 ^ 52) | ]; lia.
  - apply binary_round_aux_finite; [change (2 ^ 115) with (2 ^ 63 * 2 ^ 52) | ]; lia.
  - apply binary_round_aux_finite; [| lia].
    change (Pos.iter xO mx d) with (shift_pos d mx).
    rewrite shift_pos_correct, Zpower_pos_nat, Zpower_nat_Z, positive_nat_Z.
    assert (Zpos d <= 52) by lia.
    assert (2 ^ Zpos d <= 2 ^ 52) by (apply Z.pow_le_mono_r; lia).
    change (2 ^ 115) with (2 ^ 52 * 2 ^ 63). nia.
Qed.

Lemma float_of_int_int64 (z : Z) :
  - 2 ^ 63 <= z < 2 ^ 63 -> float_of_int z = Ok (Zfloat z).
Proof.
  intros Hz. unfold float_of_int.
  destruct (Zfloat z) as [ | s | | ] eqn:E; try reflexivity.
  exfalso. unfold Zfloat, binary_normalize in E.
  destruct z as [| p | p]; try discriminate.
  - revert E. apply binary_round_finite. lia.
  - destruct (Z.eq_dec (Zpos p) (2 ^ 63)) as [Heq | Hne].
    + injection Heq as ->. vm_compute in E. discriminate.
    + revert E. apply binary_round_finite. lia.
Qed.

End FloatOfInt.

(** ** Strings *)

Lemma startswith_spec (p s : string) :
  startswith s p = true <-> exists rest, s = p +:+ rest.
Proof.
  unfold startswith. revert s.
  induction p as [| c p IH]; intros s; simpl.
  - split; [intros _; now exists s | intros _; now destruct s].
  - destruct s as [| d s]; simpl.
    + split; [discriminate | intros [rest Hrest]; discriminate].
    + destruct (ascii_dec c d) as [-> | Hne].
      * rewrite IH. split; intros [rest Hrest]; exists rest.
        -- now rewrite Hrest.
        -- now injection Hrest.
      * split; [discriminate | intros [rest Hrest]; injection Hrest; congruence].
Qed.

(** ** Region routing *)

(** C2. For every region identifier the two copies of
    [_get_labeling_dataset_region] agree and return "europe-west4" when
    the identifier is "europe-" followed by anything and "us-central1"
    otherwise; the two values differ, the result depends on the
    identifier only through the prefix test, and "europe-west1",
    "us-east1" and "asia-east1" go to the European, US and US region. *)
Theorem C2_region_routing (project_region : string) :
  let route := GenerateExamplesMain._get_labeling_dataset_region in
  CreateCloudLabelingTask._get_labeling_dataset_region project_region = route project_region /\
  (route project_region = "europe-west4" \/ route project_region = "us-central1") /\
  "europe-west4" <> "us-central1" /\
  (route project_region = "europe-west4" <->
     exists rest, project_region = "europe-" +:+ rest) /\
  (route project_region = "us-central1" <->
     ~ exists rest, project_region = "europe-" +:+ rest) /\
  (forall other, startswith other "europe-" = startswith project_region "europe-" ->
     route other = route project_region) /\
  route "europe-west1" = "europe-west4" /\
  route "us-east1" = "us-central1" /\
  route "asia-east1" = "us-central1".
Proof.
  cbv zeta.
  unfold GenerateExamplesMain._get_labeling_dataset_region,
    CreateCloudLabelingTask._get_labeling_dataset_region.
  pose proof (startswith_spec "europe-" project_region) as Hspec.
  repeat split; try reflexivity; try discriminate.
  - destruct (startswith project_region "europe-"); [now left | now right].
  - destruct (startswith project_region "europe-"); [tauto | discriminate].
  - intros Hex. now rewrite (proj2 Hspec Hex).
  - destruct (startswith project_region "europe-"); [discriminate |].
    intros _ Hex. apply Hspec in Hex. discriminate.
  - intros Hno. destruct (startswith project_region "europe-"); [| reflexivity].
    exfalso. apply Hno. now apply Hspec.
  - intros other ->. reflexivity.
Qed.

(** ** Label ingestion *)

Section LabelIngestion.

Import GenerateExamplesMain.

Lemma list_index_found (s : string) (l : list string) :
  forall n : nat, l !! n = Some s -> (forall j : nat, (j < n)%nat -> l !! j <> Some s) ->
  list_index s l = Ok (Z.of_nat n).
Proof.
  induction l as [| y l IH]; intros n Hn Hfirst; [discriminate |].
  simpl. destruct n as [| n].
  - injection Hn as ->. now rewrite String.eqb_refl.
  - destruct (String.eqb_spec y s) as [-> | Hne].
    + exfalso. apply (Hfirst 0%nat); [lia | reflexivity].
    + rewrite (IH n Hn).
      * f_equal. lia.
      * intros j Hj. apply (Hfirst (S j)). lia.
Qed.

Lemma list_index_absent (s : string) (l : list string) :
  s ∉ l -> exists msg, list_index s l = Raise (ValueError msg).
Proof.
  induction l as [| y l IH]; intros Hnot; simpl; [eauto |].
  apply not_elem_of_cons in Hnot as [Hne Hnot].
  destruct (String.eqb_spec y s) as [-> | _]; [congruence |].
  destruct (IH Hnot) as [msg ->]. eauto.
Qed.

Lemma list_index_bound (s : string) (l : list string) (i : Z) :
  list_index s l = Ok i -> 0 <= i < Z.of_nat (length l).
Proof.
  revert i. induction l as [| y l IH]; intros i; simpl; [discriminate |].
  destruct (String.eqb y s).
  - intros [= <-]. lia.
  - destruct (list_index s l) as [k |]; [| discriminate].
    intros [= <-]. specialize (IH k eq_refl). lia.
Qed.

Lemma labels_loop_skip (label_property : option string) (class_names : list string)
    (row : Row) (pre post : list Row) :
  labels_row label_property class_names row = Ok None ->
  forall acc, labels_loop label_property class_names (pre ++ row :: post) acc =
              labels_loop label_property class_names (pre ++ post) acc.
Proof.
  intros Hrow. induction pre as [| r pre IH]; intros acc; simpl.
  - now rewrite Hrow.
  - destruct (labels_row label_property class_names r) as [[c |] | e]; auto.
Qed.

Lemma labels_loop_raise (label_property : option string) (class_names : list string)
    (row : Row) (rows : list Row) (e : exn) :
  row ∈ rows -> labels_row label_property class_names row = Raise e ->
  forall acc, exists e', labels_loop label_property class_names rows acc = Raise e'.
Proof.
  intros Hin Hrow. induction Hin as [row rows | row r rows Hin IH]; intros acc; simpl.
  - rewrite Hrow. eauto.
  - destruct (labels_row label_property class_names r) as [[c |] | e0]; eauto.
Qed.

Lemma labels_loop_valid (label_property : option string) (class_names : list string)
    (rows : list Row) :
  Forall (fun row => is_ok (labels_row label_property class_names row) = true) rows ->
  forall acc, labels_loop label_property class_names rows acc =
              Ok (acc ++ valid_coordinates label_property class_names rows)%list.
Proof.
  unfold valid_coordinates.
  induction 1 as [| row rows Hrow _ IH]; intros acc; simpl.
  - now rewrite app_nil_r.
  - unfold valid_coordinate at 1.
    destruct (labels_row label_property class_names row) as [[c |] | e]; simpl.
    + rewrite IH. now rewrite <- app_assoc.
    + apply IH.
    + discriminate.
Qed.

End LabelIngestion.

(** C1. One row of the labels file, whose label field holds [label],
    under a schema of fewer than 2^63 names.  For a row with a
    geometry: a string that first occurs at position [n] of the schema
    gives the float of [n]; a string that is not in the schema makes the
    loop skip the row without an error; an integer (in the 64-bit range
    of a GIS integer field), a boolean, which Python counts as an
    integer, and a float give their float; a value of any other type
    raises [ValueError], and a file that holds such a row makes
    [_read_labels_file] raise.  A row without geometry raises
    [AttributeError] before its label is looked at. *)
Theorem C1_label_resolution (label_property : option string) (class_names : list string)
    (row : Row) (label : py_value) :
  Z.of_nat (length class_names) < 2 ^ 63 ->
  row_getitem row label_property = Ok label ->
  let resolve := GenerateExamplesMain.labels_row label_property class_names row in
  (geometry row = None -> resolve = Raise AttributeError) /\
  (forall g : Geometry, geometry row = Some g ->
   let labelled f := Ok (Some (fst (centroid g), snd (centroid g), f)) in
   (forall (s : string) (n : nat), label = PyStr s ->
      class_names !! n = Some s -> (forall j : nat, (j < n)%nat -> class_names !! j <> Some s) ->
      resolve = labelled (Zfloat (Z.of_nat n))) /\
   (forall s : string, label = PyStr s -> s ∉ class_names ->
      resolve = Ok None /\
      forall pre post acc,
        GenerateExamplesMain.labels_loop label_property class_names (pre ++ row :: post) acc =
        GenerateExamplesMain.labels_loop label_property class_names (pre ++ post) acc) /\
   (forall z : Z, label = PyInt z -> - 2 ^ 63 <= z < 2 ^ 63 -> resolve = labelled (Zfloat z)) /\
   (forall b : bool, label = PyBool b -> resolve = labelled (Zfloat (if b then 1 else 0))) /\
   (forall f : float, label = PyFloat f -> resolve = labelled f) /\
   (as_str label = None -> isinstance_int_float label = false ->
      resolve = Raise (ValueError (msg_unrecognized_label label)) /\
      forall FLAGS W path rows,
        row ∈ rows -> gpd_read_file_to_crs W path = Returns rows ->
        exists e, fst (run (GenerateExamplesMain._read_labels_file
                              FLAGS W path label_property class_names)) = Raise e)).
Proof.
  intros Hlen Hlabel resolve. subst resolve.
  unfold GenerateExamplesMain.labels_row, GenerateExamplesMain.row_centroid.
  split; [now intros -> |].
  intros g Hg. cbv zeta. rewrite Hg, Hlabel.
  repeat apply conj.
  - intros s n -> Hn Hfirst. simpl.
    rewrite (list_index_found s class_names n Hn Hfirst).
    apply lookup_lt_Some in Hn.
    rewrite float_of_int_int64 by lia. reflexivity.
  - intros s -> Hnot.
    assert (Hskip : GenerateExamplesMain.labels_row label_property class_names row = Ok None).
    { unfold GenerateExamplesMain.labels_row, GenerateExamplesMain.row_centroid.
      rewrite Hg, Hlabel. simpl.
      destruct (list_index_absent s class_names Hnot) as [msg ->]. reflexivity. }
    split.
    + simpl. destruct (list_index_absent s class_names Hnot) as [msg ->]. reflexivity.
    + intros pre post acc. now apply labels_loop_skip.
  - intros z -> Hz. simpl. now rewrite float_of_int_int64.
  - intros b ->. simpl. rewrite float_of_int_int64 by (destruct b; lia). reflexivity.
  - intros f ->. reflexivity.
  - intros Hstr Hnum. rewrite Hstr, Hnum. split; [reflexivity |].
    intros FLAGS W path rows Hin Hread.
    assert (Hrow : GenerateExamplesMain.labels_row label_property class_names row =
                   Raise (ValueError (msg_unrecognized_label label))).
    { unfold GenerateExamplesMain.labels_row, GenerateExamplesMain.row_centroid.
      now rewrite Hg, Hlabel, Hstr, Hnum. }
    destruct (labels_loop_raise _ _ _ _ _ Hin Hrow []) as [e He].
    exists e. unfold run, GenerateExamplesMain._read_labels_file, bind, call, lift.
    rewrite Hread, He. reflexivity.
Qed.

(** The schema ["undamaged"; "damaged"]: "damaged" yields 1.0,
    "destroyed" yields no row, the number 2 yields 2.0, and a file with
    these three rows yields the two coordinates, in order. *)
Lemma C1_schema_example :
  let schema := ["undamaged"; "damaged"] in
  let resolve := GenerateExamplesMain.labels_row (Some "Main_Damag") schema in
  resolve (Samples.point 1 1 (PyStr "damaged")) = Ok (Some (Zfloat 1, Zfloat 1, float_1_0)) /\
  resolve (Samples.point 2 2 (PyStr "destroyed")) = Ok None /\
  resolve (Samples.point 3 3 (PyInt 2)) = Ok (Some (Zfloat 3, Zfloat 3, float_2_0)) /\
  GenerateExamplesMain.labels_loop (Some "Main_Damag") schema
    [Samples.point 1 1 (PyStr "damaged"); Samples.point 2 2 (PyStr "destroyed");
     Samples.point 3 3 (PyInt 2)] [] =
  Ok [(Zfloat 1, Zfloat 1, float_1_0); (Zfloat 3, Zfloat 3, float_2_0)].
Proof.
  cbv zeta.
  split; [| split; [| split]].
  - destruct (proj2 (C1_label_resolution (Some "Main_Damag") ["undamaged"; "damaged"]
                       (Samples.point 1 1 (PyStr "damaged")) (PyStr "damaged")
                       ltac:(reflexivity) ltac:(vm_compute; reflexivity))
                _ eq_refl) as (Hfound & _).
    apply (Hfound "damaged" 1%nat); [reflexivity | reflexivity |].
    intros [| j] Hj; [discriminate | lia].
  - destruct (proj2 (C1_label_resolution (Some "Main_Damag") ["undamaged"; "damaged"]
                       (Samples.point 2 2 (PyStr "destroyed")) (PyStr "destroyed")
                       ltac:(reflexivity) ltac:(vm_compute; reflexivity))
                _ eq_refl) as (_ & Habsent & _).
    apply (Habsent "destroyed"); [reflexivity |].
    intros Hin. repeat (apply elem_of_cons in Hin as [Hin | Hin]; [discriminate |]).
    now apply elem_of_nil in Hin.
  - destruct (proj2 (C1_label_resolution (Some "Main_Damag") ["undamaged"; "damaged"]
                       (Samples.point 3 3 (PyInt 2)) (PyInt 2)
                       ltac:(reflexivity) ltac:(vm_compute; reflexivity))
                _ eq_refl) as (_ & _ & Hint & _).
    apply (Hint 2); [reflexivity | lia].
  - vm_compute. reflexivity.
Defined.

(** ** The GDAL environment *)

Lemma contains_char_spec (c : ascii) (s : string) :
  contains_char c s = true <-> exists a b, s = a +:+ String c b.
Proof.
  induction s as [| d s IH]; simpl.
  - split; [discriminate | intros ([| ? ?] & b & Heq); discriminate].
  - destruct (Ascii.eqb_spec d c) as [-> | Hne].
    + split; [intros _; now exists EmptyString, s | reflexivity].
    + rewrite IH. split.
      * intros (a & b & ->). now exists (String d a), b.
      * intros ([| d' a] & b & Heq); injection Heq as Hd Hs; [congruence |].
        now exists a, b.
Qed.

Lemma partition_char_setting (k v : string) :
  contains_char "=" k = false ->
  partition_char "=" (k +:+ String "=" v) = (k, true, v).
Proof.
  induction k as [| d k IH]; intros Hk.
  - reflexivity.
  - change (String d k +:+ String "=" v) with (String d (k +:+ String "=" v)).
    simpl in *. destruct (Ascii.eqb d "="); [discriminate |].
    now rewrite (IH Hk).
Qed.

Lemma gdal_env_loop_ok (settings : list string) :
  Forall (fun setting => contains_char "=" setting = true) settings ->
  forall env, GenerateExamplesMain.gdal_env_loop settings env =
              Ok (assign_settings env settings).
Proof.
  induction 1 as [| setting settings Hs _ IH]; intros env; simpl; [reflexivity |].
  rewrite Hs. simpl. rewrite <- IH. unfold setting_key, setting_value.
  now destruct (partition_char "=" setting) as [[var found] value].
Qed.

Lemma gdal_env_loop_raise (settings : list string) :
  Exists (fun setting => contains_char "=" setting = false) settings ->
  forall env, exists msg, GenerateExamplesMain.gdal_env_loop settings env = Raise (ValueError msg).
Proof.
  induction 1 as [setting settings Hs | setting settings _ IH]; intros env; simpl.
  - rewrite Hs. simpl. eauto.
  - destruct (contains_char "=" setting); simpl; [| eauto].
    destruct (partition_char "=" setting) as [[var found] value]. apply IH.
Qed.

Lemma settings_all_or_some (settings : list string) :
  Forall (fun setting => contains_char "=" setting = true) settings \/
  Exists (fun setting => contains_char "=" setting = false) settings.
Proof.
  induction settings as [| setting settings [IH | IH]].
  - left. constructor.
  - destruct (contains_char "=" setting) eqn:E.
    + left. now constructor.
    + right. now constructor.
  - right. now constructor 2.
Qed.

Lemma assign_settings_last (pre post : list string) (setting : string) :
  (forall later, later ∈ post -> setting_key later <> setting_key setting) ->
  forall env, assign_settings env (pre ++ setting :: post) !! setting_key setting =
              Some (setting_value setting).
Proof.
  intros Hlater env. unfold assign_settings. rewrite foldl_app. simpl.
  set (env' := <[setting_key setting := setting_value setting]> _).
  assert (Henv : env' !! setting_key setting = Some (setting_value setting))
    by apply lookup_insert_eq.
  clearbody env'. revert env' Henv.
  induction post as [| later post IH]; intros env' Henv; simpl; [exact Henv |].
  apply IH.
  - intros s Hs. apply Hlater. now right.
  - rewrite lookup_insert_ne; [exact Henv |]. apply Hlater. now left.
Qed.

Lemma assign_settings_origin (settings : list string) (k v : string) :
  forall env, assign_settings env settings !! k = Some v ->
  env !! k = Some v \/
  exists setting, setting ∈ settings /\ setting_key setting = k /\ setting_value setting = v.
Proof.
  unfold assign_settings.
  induction settings as [| setting settings IH]; intros env Hk; simpl in *; [now left |].
  destruct (IH _ Hk) as [Hhere | (s & Hin & Hkey & Hval)].
  - destruct (decide (setting_key setting = k)) as [Heq | Hne].
    + subst k. rewrite lookup_insert_eq in Hhere. injection Hhere as <-.
      right. exists setting. split; [now left | tauto].
    + rewrite lookup_insert_ne in Hhere by exact Hne. now left.
  - right. exists s. split; [now right | tauto].
Qed.

Lemma assign_settings_keeps (settings : list string) (k : string) :
  forall env, is_Some (env !! k) -> is_Some (assign_settings env settings !! k).
Proof.
  unfold assign_settings.
  induction settings as [| setting settings IH]; intros env Hk; simpl; [exact Hk |].
  apply IH. destruct (decide (setting_key setting = k)) as [<- | Hne].
  - rewrite lookup_insert_eq. eauto.
  - now rewrite lookup_insert_ne.
Qed.

Lemma assign_settings_bound (settings : list string) (setting : string) :
  setting ∈ settings ->
  forall env, is_Some (assign_settings env settings !! setting_key setting).
Proof.
  induction 1 as [setting settings | setting other settings _ IH]; intros env.
  - apply (assign_settings_keeps settings (setting_key setting)
             (<[setting_key setting := setting_value setting]> env)).
    rewrite lookup_insert_eq. eauto.
  - apply IH.
Qed.

(** C6. [_get_gdal_env] raises exactly when some entry of the flag holds
    no [=]; otherwise it returns the dictionary in which every entry's
    variable is bound, to the value of the last entry with that variable
    (so to the entry's own value when no later entry repeats the
    variable), and which holds nothing else.  An entry [k=v] whose [k]
    holds no [=] has variable [k] and value [v].  The list
    ["GDAL_CACHEMAX=512"; "FOO=bar"] gives the two bindings, and ["BAD"]
    raises [ValueError]. *)
Theorem C6_gdal_env (FLAGS : GenerateExamplesMain.Flags) :
  let settings := GenerateExamplesMain.gdal_env FLAGS in
  let parsed := GenerateExamplesMain._get_gdal_env FLAGS in
  ((exists e, parsed = Raise e) <->
     exists setting, setting ∈ settings /\ contains_char "=" setting = false) /\
  (forall e, parsed = Raise e -> exists msg, e = ValueError msg) /\
  (forall env, parsed = Ok env ->
     (forall pre setting post, settings = (pre ++ setting :: post)%list ->
        (forall later, later ∈ post -> setting_key later <> setting_key setting) ->
        env !! setting_key setting = Some (setting_value setting)) /\
     (forall setting, setting ∈ settings -> is_Some (env !! setting_key setting)) /\
     (forall k v, env !! k = Some v ->
        exists setting, setting ∈ settings /\ setting_key setting = k /\
                        setting_value setting = v)) /\
  (forall k v, contains_char "=" k = false ->
     setting_key (k +:+ "=" +:+ v) = k /\ setting_value (k +:+ "=" +:+ v) = v) /\
  GenerateExamplesMain._get_gdal_env
    (Samples.flags GenerateExamplesMain.BM_file None None false None
       ["GDAL_CACHEMAX=512"; "FOO=bar"] false None None None) =
    Ok (<["FOO" := "bar"]> {["GDAL_CACHEMAX" := "512"]}) /\
  GenerateExamplesMain._get_gdal_env
    (Samples.flags GenerateExamplesMain.BM_file None None false None
       ["BAD"] false None None None) =
    Raise (ValueError msg_gdal_env).
Proof.
  cbv zeta. unfold GenerateExamplesMain._get_gdal_env.
  set (settings := GenerateExamplesMain.gdal_env FLAGS).
  repeat apply conj.
  - intros [e He].
    destruct (settings_all_or_some settings) as [Hall | Hsome].
    + rewrite (gdal_env_loop_ok settings Hall) in He. discriminate.
    + apply Exists_exists in Hsome as (setting & Hin & Hno). eauto.
  - intros (setting & Hin & Hno).
    destruct (gdal_env_loop_raise settings) with (env := (∅ : gmap string string))
      as [msg Hmsg]; [| eauto].
    apply Exists_exists. eauto.
  - intros e He.
    destruct (settings_all_or_some settings) as [Hall | Hsome].
    + rewrite (gdal_env_loop_ok settings Hall) in He. discriminate.
    + destruct (gdal_env_loop_raise settings Hsome ∅) as [msg Hmsg].
      exists msg. congruence.
  - intros env Henv.
    assert (Hassign : env = assign_settings ∅ settings).
    { destruct (settings_all_or_some settings) as [Hall | Hsome].
      - rewrite (gdal_env_loop_ok settings Hall) in Henv. congruence.
      - destruct (gdal_env_loop_raise settings Hsome ∅) as [msg Hmsg]. congruence. }
    subst env. repeat apply conj.
    + intros pre setting post -> Hlater. now apply assign_settings_last.
    + intros setting Hin. now apply assign_settings_bound.
    + intros k v Hk.
      destruct (assign_settings_origin settings k v ∅ Hk) as [Hempty | Hfrom]; [| exact Hfrom].
      rewrite lookup_empty in Hempty. discriminate.
  - intros k v Hk. unfold setting_key, setting_value.
    change ("=" +:+ v) with (String "=" v).
    now rewrite (partition_char_setting k v Hk).
  - vm_compute. reflexivity.
  - vm_compute. reflexivity.
Qed.

(** ** The keep count *)

Lemma read_labels_file_run (FLAGS : GenerateExamplesMain.Flags) (W : World) (path : string)
    (label_property : option string) (class_names : list string) (rows : list Row) :
  gpd_read_file_to_crs W path = Returns rows ->
  Forall (fun row => is_ok (GenerateExamplesMain.labels_row label_property class_names row)
                     = true) rows ->
  run (GenerateExamplesMain._read_labels_file FLAGS W path label_property class_names) =
  (Ok (let all := valid_coordinates label_property class_names rows in
       match GenerateExamplesMain.num_keep_labeled_examples FLAGS with
       | Some n => if n =? 0 then all else py_slice_to all n
       | None => all
       end),
   [EvReadLabelsFile path]).
Proof.
  intros Hread Hrows.
  unfold run, GenerateExamplesMain._read_labels_file, bind, call, lift, ret.
  rewrite Hread, (labels_loop_valid _ _ _ Hrows). simpl.
  destruct (GenerateExamplesMain.num_keep_labeled_examples FLAGS) as [n |]; simpl;
    [destruct (n =? 0) |]; reflexivity.
Qed.

Lemma py_slice_to_prefix {A} (l : list A) (n : Z) : py_slice_to l n `prefix_of` l.
Proof.
  unfold py_slice_to. destruct (n <? 0).
  - exists (drop (Z.to_nat (Z.of_nat (length l) + n)) l). symmetry. apply take_drop.
  - exists (drop (Z.to_nat n) l). symmetry. apply take_drop.
Qed.

(** C7, as the code has it.  When no row of the file raises, the output
    of [_read_labels_file] is, for a positive keep count [n], the first
    [n] valid coordinates in the order of the rows (all of them when
    there are fewer); for a keep count of 0 or none, all of them; and in
    every case a prefix of the valid coordinates in the order of the
    rows. *)
Theorem C7_keep_count (FLAGS : GenerateExamplesMain.Flags) (W : World) (path : string)
    (label_property : option string) (class_names : list string) (rows : list Row) :
  gpd_read_file_to_crs W path = Returns rows ->
  Forall (fun row => is_ok (GenerateExamplesMain.labels_row label_property class_names row)
                     = true) rows ->
  let all := valid_coordinates label_property class_names rows in
  let keep := GenerateExamplesMain.num_keep_labeled_examples FLAGS in
  let out := fst (run (GenerateExamplesMain._read_labels_file
                         FLAGS W path label_property class_names)) in
  (forall n, keep = Some n -> 0 < n -> out = Ok (firstn (Z.to_nat n) all)) /\
  (keep = None \/ keep = Some 0 -> out = Ok all) /\
  (exists kept, out = Ok kept /\ kept `prefix_of` all).
Proof.
  intros Hread Hrows all keep out. subst out.
  rewrite (read_labels_file_run FLAGS W path label_property class_names rows Hread Hrows).
  cbv zeta. fold all. fold keep. cbn [fst].
  repeat apply conj.
  - intros n -> Hn. destruct (Z.eqb_spec n 0); [lia |].
    unfold py_slice_to. destruct (Z.ltb_spec n 0); [lia | reflexivity].
  - intros [-> | ->]; reflexivity.
  - destruct keep as [n |]; [destruct (n =? 0) |]; eexists; split; try reflexivity.
    apply py_slice_to_prefix.
Qed.

(** A keep count of 2 over five valid rows gives the first two rows. *)
Lemma C7_keep_two_of_five :
  let FLAGS := Samples.flags GenerateExamplesMain.BM_none (Some "labels.geojson") (Some 2)
                 false None [] false None None None in
  let W := Samples.world "3.8.10" Samples.now Samples.five_rows in
  length (valid_coordinates (Some "Main_Damag") ["undamaged"; "damaged"] Samples.five_rows)
    = 5%nat /\
  fst (run (GenerateExamplesMain._read_labels_file FLAGS W "labels.geojson"
              (Some "Main_Damag") ["undamaged"; "damaged"])) =
  Ok [(Zfloat 1, Zfloat 1, float_1_0); (Zfloat 2, Zfloat 2, Zfloat 0)].
Proof.
  cbv zeta. split; [vm_compute; reflexivity |].
  destruct (C7_keep_count
              (Samples.flags GenerateExamplesMain.BM_none (Some "labels.geojson") (Some 2)
                 false None [] false None None None)
              (Samples.world "3.8.10" Samples.now Samples.five_rows)
              "labels.geojson" (Some "Main_Damag") ["undamaged"; "damaged"]
              Samples.five_rows eq_refl
              ltac:(repeat constructor)) as (Hpos & _).
  apply (Hpos 2); [reflexivity | lia].
Defined.

(** C7 as stated fails on a negative keep count: with [-1] over five
    valid rows the output is the first four rows, which is not the first
    [N] of them for any reading of a negative [N]. *)
Lemma C7_negative_keep_count :
  let FLAGS := Samples.flags GenerateExamplesMain.BM_none (Some "labels.geojson") (Some (-1))
                 false None [] false None None None in
  let W := Samples.world "3.8.10" Samples.now Samples.five_rows in
  let all := valid_coordinates (Some "Main_Damag") ["undamaged"; "damaged"]
               Samples.five_rows in
  GenerateExamplesMain.num_keep_labeled_examples FLAGS = Some (-1) /\
  length all = 5%nat /\
  fst (run (GenerateExamplesMain._read_labels_file FLAGS W "labels.geojson"
              (Some "Main_Damag") ["undamaged"; "damaged"])) = Ok (firstn 4 all) /\
  firstn 4 all <> firstn (Z.to_nat (-1)) all /\
  firstn 4 all <> all.
Proof.
  cbv zeta. repeat apply conj; try (vm_compute; reflexivity); vm_compute; discriminate.
Qed.

(** ** The orchestrator: stages and their events *)

Ltac step :=
  match goal with
  | |- context [match ?x with _ => _ end] => destruct x eqn:?
  | H : context [match ?x with _ => _ end] |- _ => destruct x eqn:?
  end.

Ltac no_events := exists []; rewrite app_nil_r; split; [reflexivity | constructor].

Lemma two_events {A} (t : list A) (a b : A) : ((t ++ [a]) ++ [b] = t ++ [a; b])%list.
Proof. now rewrite <- app_assoc. Qed.

Section Orchestrator.

Import GenerateExamplesMain.

Variable FLAGS : Flags.
Variable W : World.

Lemma main_run :
  run (main FLAGS W) =
  match main_dataflow_container_image FLAGS W with
  | Raise e => (Raise e, [])
  | Ok image =>
      match main_check_sources FLAGS with
      | Raise e => (Raise e, [])
      | Ok _ =>
          match main_building_centroids FLAGS W [] with
          | (Raise e, t) => (Raise e, t)
          | (Ok building_centroids, t1) =>
              match main_labeled_coordinates FLAGS W t1 with
              | (Raise e, t) => (Raise e, t)
              | (Ok labeled_coordinates, t2) =>
                  match _get_gdal_env FLAGS with
                  | Raise e => (Raise e, t2)
                  | Ok env =>
                      let req := generation_request FLAGS building_centroids
                                   labeled_coordinates env image in
                      match generate_examples_pipeline W req with
                      | Fails msg =>
                          (Raise (CollaboratorError msg),
                           (t2 ++ [EvGenerateExamplesPipeline req])%list)
                      | Returns _ =>
                          main_labeling_task FLAGS W
                            (t2 ++ [EvGenerateExamplesPipeline req])%list
                      end
                  end
              end
          end
      end
  end.
Proof.
  unfold run, main, bind, lift, call.
  repeat step; try reflexivity; try congruence.
Qed.

Lemma building_centroids_events (t : list event) :
  exists evs, snd (main_building_centroids FLAGS W t) = (t ++ evs)%list /\
              Forall (building_event FLAGS) evs.
Proof.
  assert (Haoi : buildings_method FLAGS <> BM_none ->
                 building_event FLAGS (EvReadAois (aoi_path FLAGS))) by (now left).
  unfold main_building_centroids, get_building_centroids, bind, call, ret, raise.
  destruct (buildings_method FLAGS) eqn:Hm; simpl; [| | no_events].
  - destruct (read_aois W (aoi_path FLAGS)) as [aoi | msg]; simpl.
    + eexists. split; [apply two_events |].
      constructor; [now apply Haoi | constructor; [| constructor]].
      right; left. eauto.
    + eexists. split; [reflexivity |]. constructor; [now apply Haoi | constructor].
  - destruct (read_aois W (aoi_path FLAGS)) as [aoi | msg]; simpl.
    + eexists. split; [apply two_events |].
      constructor; [now apply Haoi | constructor; [| constructor]].
      right; right. eauto.
    + eexists. split; [reflexivity |]. constructor; [now apply Haoi | constructor].
Qed.

Lemma labeled_coordinates_events (t : list event) :
  exists evs, snd (main_labeled_coordinates FLAGS W t) = (t ++ evs)%list /\
              Forall (labels_event FLAGS) evs.
Proof.
  unfold main_labeled_coordinates, _read_labels_file, bind, call, lift, ret, labels_event.
  destruct (labels_file FLAGS) as [[| c path] |] eqn:Hl; simpl; try no_events.
  exists [EvReadLabelsFile (String c path)].
  split; [| constructor; [eauto | constructor]].
  destruct (gpd_read_file_to_crs W (String c path)); [| reflexivity].
  now destruct (labels_loop _ _ _ _).
Qed.

Lemma labeling_task_events (t : list event) :
  exists evs, snd (main_labeling_task FLAGS W t) = (t ++ evs)%list /\
              Forall (fun ev => pool_event FLAGS W ev \/ job_event FLAGS W ev) evs.
Proof.
  unfold main_labeling_task, main_labeler_pool, bind, call, lift, ret, raise,
    pool_event, job_event, timestamped.
  destruct (create_cloud_labeling_task FLAGS) eqn:Hc; simpl; [| no_events].
  destruct (truthy_str (dataset_name FLAGS)) eqn:Hn; simpl; [| no_events].
  destruct (cloud_labeler_pool FLAGS) as [pool |] eqn:Hp.
  - destruct (cloud_region FLAGS) as [region |] eqn:Hr; simpl; [| no_events].
    eexists. split; [reflexivity |]. constructor; [| constructor]. right. eauto 10.
  - destruct (cloud_labeler_emails FLAGS) as [[| email emails] |] eqn:He; simpl;
      try no_events.
    assert (Hpool : forall ev,
              ev = EvCreateSpecialistPool (cloud_project FLAGS) (cloud_region FLAGS)
                     ((format_opt (dataset_name FLAGS) +:+ "_" +:+
                       strftime_Ymd_HMS (localtime W)) +:+ "_pool")
                     [email] (email :: emails) ->
              exists l,
                ev = EvCreateSpecialistPool (cloud_project FLAGS) (cloud_region FLAGS)
                       ((format_opt (dataset_name FLAGS) +:+ "_" +:+
                         strftime_Ymd_HMS (localtime W)) +:+ "_pool")
                       (firstn 1 l) l /\
                None = (None : option string) /\ Some (email :: emails) = Some l /\ l <> []).
    { intros ev ->. exists (email :: emails). repeat split. discriminate. }
    destruct (create_specialist_pool W _ _ _ _ _) as [pool | msg]; simpl.
    + destruct (cloud_region FLAGS) as [region |] eqn:Hr; simpl.
      * eexists. split; [apply two_events |].
        constructor; [left; now apply Hpool | constructor; [| constructor]].
        right. eauto 10.
      * eexists. split; [reflexivity |].
        constructor; [left; now apply Hpool | constructor].
    + eexists. split; [reflexivity |].
      constructor; [left; now apply Hpool | constructor].
Qed.

Lemma main_events (ev : event) :
  ev ∈ snd (run (main FLAGS W)) ->
  building_event FLAGS ev \/ labels_event FLAGS ev \/ pipeline_event ev \/
  pool_event FLAGS W ev \/ job_event FLAGS W ev.
Proof.
  rewrite main_run.
  destruct (main_dataflow_container_image FLAGS W) as [image | e];
    [| intros Hin; now apply elem_of_nil in Hin].
  destruct (main_check_sources FLAGS) as [[] | e];
    [| intros Hin; now apply elem_of_nil in Hin].
  destruct (building_centroids_events []) as (evs1 & H1 & F1).
  destruct (main_building_centroids FLAGS W []) as [[bc | e] t1];
    simpl in H1; subst t1; rewrite Forall_forall in F1; [| now left; apply F1].
  destruct (labeled_coordinates_events evs1) as (evs2 & H2 & F2).
  destruct (main_labeled_coordinates FLAGS W evs1) as [[lc | e] t2];
    simpl in H2; subst t2; rewrite Forall_forall in F2; simpl;
    [| rewrite elem_of_app; intros [Hin | Hin]; [left | right; left]; auto].
  destruct (_get_gdal_env FLAGS) as [env | e]; simpl;
    [| rewrite elem_of_app; intros [Hin | Hin]; [left | right; left]; auto].
  set (req := generation_request FLAGS bc lc env image).
  destruct (labeling_task_events ((evs1 ++ evs2) ++ [EvGenerateExamplesPipeline req]))
    as (evs4 & H4 & F4).
  rewrite Forall_forall in F4.
  assert (Hbefore : forall ev', ev' ∈ ((evs1 ++ evs2) ++ [EvGenerateExamplesPipeline req])%list ->
            building_event FLAGS ev' \/ labels_event FLAGS ev' \/ pipeline_event ev').
  { intros ev'. rewrite !elem_of_app, list_elem_of_singleton.
    intros [[Hin | Hin] | ->]; [left | right; left | right; right]; auto.
    now exists req. }
  destruct (generate_examples_pipeline W req) as [[] | msg]; simpl.
  - rewrite H4, elem_of_app. intros [Hin | Hin].
    + destruct (Hbefore _ Hin) as [? | [? | ?]]; tauto.
    + destruct (F4 _ Hin); tauto.
  - intros Hin. destruct (Hbefore _ Hin) as [? | [? | ?]]; tauto.
Qed.

(** Which exceptions each stage can raise. *)

Lemma dataflow_image_raise (e : exn) :
  main_dataflow_container_image FLAGS W = Raise e ->
  e = ValueError msg_dataflow_container_image.
Proof.
  unfold main_dataflow_container_image. repeat step; congruence.
Qed.

Lemma check_sources_raise (e : exn) :
  main_check_sources FLAGS = Raise e ->
  e = ValueError msg_no_sources /\
  truthy_str (labels_file FLAGS) = false /\ buildings_method FLAGS = BM_none.
Proof.
  unfold main_check_sources.
  destruct (truthy_str (labels_file FLAGS)); simpl; [discriminate |].
  destruct (buildings_method FLAGS); simpl; try discriminate.
  intros [= <-]. auto.
Qed.

Lemma building_centroids_raise (t t' : list event) (e : exn) :
  main_building_centroids FLAGS W t = (Raise e, t') -> exists msg, e = CollaboratorError msg.
Proof.
  unfold main_building_centroids, get_building_centroids, bind, call, ret, raise.
  destruct (buildings_method FLAGS); simpl; repeat step; intros [= <- <-];
    simplify_eq; eauto.
Qed.

Lemma labels_row_raise (label_property : option string) (class_names : list string)
    (row : Row) (e : exn) :
  labels_row label_property class_names row = Raise e ->
  e = KeyError \/ e = OverflowError \/ e = AttributeError \/
  exists label, e = ValueError (msg_unrecognized_label label).
Proof.
  assert (Hfloat : forall z e', float_of_int z = Raise e' -> e' = OverflowError).
  { intros z e'. unfold float_of_int. destruct (Zfloat z); congruence. }
  assert (Hindex : forall s e', list_index s class_names = Raise e' ->
                                exists msg, e' = ValueError msg).
  { intros s. induction class_names as [| y l IH]; intros e'; simpl.
    - intros [= <-]. eauto.
    - destruct (String.eqb y s); [discriminate |].
      destruct (list_index s l); [discriminate | intros [= <-]; eauto]. }
  unfold labels_row, row_centroid.
  destruct (geometry row) as [g |]; [| intros [= <-]; auto].
  destruct (row_getitem row label_property) as [label | e'] eqn:Hget.
  - destruct (as_str label) as [s |].
    + destruct (list_index s class_names) as [i | e1] eqn:Hi.
      * destruct (float_of_int i) as [f | e2] eqn:Hf; [discriminate |].
        apply Hfloat in Hf as ->. intros [= <-]. auto.
      * destruct (Hindex s e1 Hi) as [msg ->]. discriminate.
    + destruct (isinstance_int_float label) eqn:Hnum; [| intros [= <-]; eauto 6].
      destruct label; simpl in *; try discriminate.
      * destruct (float_of_int z) eqn:Hf; [discriminate |].
        apply Hfloat in Hf as ->. intros [= <-]. auto.
      * destruct (float_of_int _) eqn:Hf; [discriminate |].
        apply Hfloat in Hf as ->. intros [= <-]. auto.
  - intros [= <-]. left. unfold row_getitem in Hget.
    destruct label_property as [k |]; [destruct (fields row !! k) |]; congruence.
Qed.

Lemma labels_loop_raise_kind (label_property : option string) (class_names : list string)
    (rows : list Row) (e : exn) :
  forall acc, labels_loop label_property class_names rows acc = Raise e ->
  e = KeyError \/ e = OverflowError \/ e = AttributeError \/
  exists label, e = ValueError (msg_unrecognized_label label).
Proof.
  induction rows as [| row rows IH]; intros acc; simpl; [discriminate |].
  destruct (labels_row label_property class_names row) as [[c |] | e'] eqn:Hrow.
  - apply IH.
  - apply IH.
  - intros [= <-]. now apply labels_row_raise in Hrow.
Qed.

Lemma labeled_coordinates_raise (t t' : list event) (e : exn) :
  main_labeled_coordinates FLAGS W t = (Raise e, t') ->
  (exists msg, e = CollaboratorError msg) \/ e = KeyError \/ e = OverflowError \/
  e = AttributeError \/ exists label, e = ValueError (msg_unrecognized_label label).
Proof.
  unfold main_labeled_coordinates, _read_labels_file, bind, call, lift, ret.
  destruct (labels_file FLAGS) as [[| c path] |]; simpl; try discriminate.
  destruct (gpd_read_file_to_crs W (String c path)) as [rows | msg];
    [| intros [= <- <-]; eauto].
  destruct (labels_loop _ _ rows []) as [coords | e'] eqn:Hloop; [discriminate |].
  intros [= <- <-]. right. now apply labels_loop_raise_kind in Hloop.
Qed.

Lemma labels_loop_attribute_error (label_property : option string)
    (class_names : list string) (rows : list Row) :
  forall acc, labels_loop label_property class_names rows acc = Raise AttributeError ->
  exists row, row ∈ rows /\ geometry row = None.
Proof.
  induction rows as [| row rows IH]; intros acc; simpl; [discriminate |].
  destruct (labels_row label_property class_names row) as [[c |] | e'] eqn:Hrow.
  - intros H. destruct (IH _ H) as (r & Hin & Hr). exists r. split; [now right | exact Hr].
  - intros H. destruct (IH _ H) as (r & Hin & Hr). exists r. split; [now right | exact Hr].
  - intros [= ->]. exists row. split; [now left |].
    revert Hrow. unfold labels_row, row_centroid.
    destruct (geometry row) as [g |] eqn:Hg; [| reflexivity].
    intros Hrow. exfalso.
    assert (Hsome : labels_row label_property class_names
                      {| geometry := Some g; fields := fields row |} = Raise AttributeError).
    { unfold labels_row, row_centroid, row_getitem in *. simpl. exact Hrow. }
    clear Hrow. revert Hsome. unfold labels_row, row_centroid, row_getitem. simpl.
    destruct label_property as [k |]; [| discriminate].
    destruct (fields row !! k) as [label |]; [| discriminate].
    destruct (as_str label) as [s |].
    + destruct (list_index s class_names) as [i | e1] eqn:Hi.
      * unfold float_of_int. destruct (Zfloat i); discriminate.
      * assert (Hindex : exists msg, e1 = ValueError msg).
        { clear -Hi. revert e1 Hi.
          induction class_names as [| y l IHl]; intros e1; simpl.
          - intros [= <-]. eauto.
          - destruct (String.eqb y s); [discriminate |].
            destruct (list_index s l); [discriminate | intros [= <-]; eauto]. }
        destruct Hindex as [msg ->]. discriminate.
    + destruct (isinstance_int_float label); [| discriminate].
      destruct label; simpl; try discriminate;
        unfold float_of_int; destruct (Zfloat _); discriminate.
Qed.

Lemma labeled_coordinates_attribute_error (t t' : list event) :
  main_labeled_coordinates FLAGS W t = (Raise AttributeError, t') ->
  exists path rows row,
    labels_file FLAGS = Some path /\
    gpd_read_file_to_crs W path = Returns rows /\
    row ∈ rows /\ geometry row = None /\
    t' = (t ++ [EvReadLabelsFile path])%list.
Proof.
  unfold main_labeled_coordinates, _read_labels_file, bind, call, lift, ret.
  destruct (labels_file FLAGS) as [[| c path] |]; simpl; try discriminate.
  destruct (gpd_read_file_to_crs W (String c path)) as [rows | msg] eqn:Hread;
    [| discriminate].
  destruct (labels_loop _ _ rows []) as [coords | e'] eqn:Hloop; [discriminate |].
  intros [= -> <-]. apply labels_loop_attribute_error in Hloop as (row & Hin & Hrow).
  exists (String c path), rows, row. auto.
Qed.

Lemma get_gdal_env_raise (e : exn) :
  _get_gdal_env FLAGS = Raise e -> e = ValueError msg_gdal_env.
Proof.
  unfold _get_gdal_env. generalize (∅ : gmap string string).
  induction (gdal_env FLAGS) as [| setting settings IH]; intros env; simpl;
    [discriminate |].
  destruct (contains_char "=" setting); simpl; [| congruence].
  destruct (partition_char "=" setting) as [[var found] value]. apply IH.
Qed.

Lemma labeling_task_raise (t t' : list event) (e : exn) :
  main_labeling_task FLAGS W t = (Raise e, t') ->
  (e = ValueError msg_dataset_name /\ t' = t /\
   create_cloud_labeling_task FLAGS = true /\ truthy_str (dataset_name FLAGS) = false) \/
  e = ValueError msg_labeler_email \/ e = AttributeError \/
  exists msg, e = CollaboratorError msg.
Proof.
  unfold main_labeling_task, main_labeler_pool, bind, call, lift, ret, raise.
  destruct (create_cloud_labeling_task FLAGS); [| discriminate].
  destruct (truthy_str (dataset_name FLAGS)); simpl; [| intros [= <- <-]; auto].
  repeat step; intros [= <- <-]; simplify_eq; eauto 6.
Qed.

End Orchestrator.

Ltac diff_msg H :=
  apply (f_equal (String.get 0)) in H; vm_compute in H; discriminate.

(** ** Building discovery mode [none] *)

Lemma building_centroids_none (FLAGS : GenerateExamplesMain.Flags) (W : World)
    (t : list event) :
  GenerateExamplesMain.buildings_method FLAGS = GenerateExamplesMain.BM_none ->
  GenerateExamplesMain.main_building_centroids FLAGS W t = (Ok [], t).
Proof.
  intros Hnone. unfold GenerateExamplesMain.main_building_centroids. now rewrite Hnone.
Qed.

(** C3, as the code has it.  Under mode [none],
    [get_building_centroids] raises [ValueError] for every list of
    regions, without calling a collaborator; the empty sequence of
    building centroids comes from [main], which under that mode does not
    call [get_building_centroids] and calls no collaborator either. *)
Theorem C3_mode_none (FLAGS : GenerateExamplesMain.Flags) (W : World)
    (regions : list Polygon) (t : list event) :
  GenerateExamplesMain.buildings_method FLAGS = GenerateExamplesMain.BM_none ->
  GenerateExamplesMain.get_building_centroids FLAGS W regions t =
    (Raise (ValueError msg_invalid_buildings_method), t) /\
  GenerateExamplesMain.main_building_centroids FLAGS W t = (Ok [], t).
Proof.
  intros Hnone. split.
  - unfold GenerateExamplesMain.get_building_centroids. now rewrite Hnone.
  - now apply building_centroids_none.
Qed.

Lemma C3_mode_none_sample :
  let FLAGS := Samples.flags GenerateExamplesMain.BM_none (Some "labels.geojson") None
                 false None [] false None None None in
  let W := Samples.world "3.8.10" Samples.now Samples.five_rows in
  GenerateExamplesMain.get_building_centroids FLAGS W [] [] =
    (Raise (ValueError msg_invalid_buildings_method), []) /\
  GenerateExamplesMain.main_building_centroids FLAGS W [] = (Ok [], []).
Proof.
  exact (C3_mode_none
           (Samples.flags GenerateExamplesMain.BM_none (Some "labels.geojson") None
              false None [] false None None None)
           (Samples.world "3.8.10" Samples.now Samples.five_rows) [] [] eq_refl).
Defined.

(** C3 as stated fails: under mode [none] the function raises instead of
    returning the empty sequence. *)
Lemma C3_get_building_centroids_raises :
  let FLAGS := Samples.flags GenerateExamplesMain.BM_none (Some "labels.geojson") None
                 false None [] false None None None in
  let W := Samples.world "3.8.10" Samples.now Samples.five_rows in
  GenerateExamplesMain.buildings_method FLAGS = GenerateExamplesMain.BM_none /\
  fst (run (GenerateExamplesMain.get_building_centroids FLAGS W [])) =
    Raise (ValueError msg_invalid_buildings_method) /\
  fst (run (GenerateExamplesMain.get_building_centroids FLAGS W [])) <> Ok [].
Proof.
  cbv zeta. repeat apply conj; [reflexivity | reflexivity | discriminate].
Qed.

(** ** Nothing to work on *)

(** C4, as the code has it.  [main] raises its "At least labels_file
    ... should be specified" error exactly when the Dataflow image check
    has passed, no labels file is given and the mode is [none]; with no
    labels file and mode [none] it always ends in an exception before
    any collaborator is called.  Under mode [none] the area-of-interest
    file is never read.  Under mode [none] with a labels file and the
    image check passed, the first call is the read of that file, and
    when the labels and the GDAL settings parse, the next is the
    pipeline, whose request holds no building centroid and, as labeled
    coordinates, those of the file.  When the image check fails, [main]
    raises the image error before any call, whatever the mode and the
    labels file are. *)
Theorem C4_no_sources (FLAGS : GenerateExamplesMain.Flags) (W : World) :
  let mode := GenerateExamplesMain.buildings_method FLAGS in
  let labels := GenerateExamplesMain.labels_file FLAGS in
  let image := GenerateExamplesMain.main_dataflow_container_image FLAGS W in
  let outcome := run (GenerateExamplesMain.main FLAGS W) in
  (fst outcome = Raise (ValueError msg_no_sources) <->
     is_ok image = true /\ truthy_str labels = false /\ mode = GenerateExamplesMain.BM_none) /\
  (truthy_str labels = false -> mode = GenerateExamplesMain.BM_none ->
     exists e, outcome = (Raise e, [])) /\
  (mode = GenerateExamplesMain.BM_none -> forall path, EvReadAois path ∉ snd outcome) /\
  (mode = GenerateExamplesMain.BM_none -> truthy_str labels = true ->
     forall img, image = Ok img ->
     exists path,
       labels = Some path /\
       (exists rest, snd outcome = EvReadLabelsFile path :: rest) /\
       forall coords env,
         fst (run (GenerateExamplesMain._read_labels_file FLAGS W path
                     (GenerateExamplesMain.label_property FLAGS)
                     (GenerateExamplesMain.label_classes FLAGS))) = Ok coords ->
         GenerateExamplesMain._get_gdal_env FLAGS = Ok env ->
         exists req rest,
           snd outcome = EvReadLabelsFile path :: EvGenerateExamplesPipeline req :: rest /\
           req_building_centroids req = [] /\
           req_labeled_coordinates req = coords /\
           req_gdal_env req = env /\
           req_dataflow_container_image req = img) /\
  (forall e, image = Raise e ->
     e = ValueError msg_dataflow_container_image /\ outcome = (Raise e, [])).
Proof.
  cbv zeta. rewrite main_run. split; [| split; [| split; [| split]]].
  - split.
    + destruct (GenerateExamplesMain.main_dataflow_container_image FLAGS W)
        as [img | e] eqn:Himg.
      * destruct (GenerateExamplesMain.main_check_sources FLAGS) as [[] | e] eqn:Hcheck.
        -- destruct (GenerateExamplesMain.main_building_centroids FLAGS W [])
             as [[bc | e] t1] eqn:Hbc.
           ++ destruct (GenerateExamplesMain.main_labeled_coordinates FLAGS W t1)
                as [[lc | e] t2] eqn:Hlc.
              ** destruct (GenerateExamplesMain._get_gdal_env FLAGS) as [env | e] eqn:Henv.
                 --- cbv zeta.
                     destruct (generate_examples_pipeline W _) as [[] | msg];
                       [| discriminate].
                     destruct (GenerateExamplesMain.main_labeling_task FLAGS W _)
                       as [[[] | e] t4] eqn:Htask; [discriminate |].
                     apply labeling_task_raise in Htask
                       as [(-> & _) | [-> | [-> | [msg ->]]]];
                       simpl; intros [= H]; try discriminate; diff_msg H.
                 --- apply get_gdal_env_raise in Henv as ->.
                     simpl; intros [= H]; diff_msg H.
              ** apply labeled_coordinates_raise in Hlc
                   as [[msg ->] | [-> | [-> | [-> | [label ->]]]]];
                   simpl; intros [= H]; try discriminate; diff_msg H.
           ++ apply building_centroids_raise in Hbc as [msg ->]. discriminate.
        -- apply check_sources_raise in Hcheck as (-> & Hl & Hm). auto.
      * apply dataflow_image_raise in Himg as ->. simpl; intros [= H]; diff_msg H.
    + intros (Himg & Hl & Hm).
      destruct (GenerateExamplesMain.main_dataflow_container_image FLAGS W);
        [| discriminate].
      unfold GenerateExamplesMain.main_check_sources. now rewrite Hl, Hm.
  - intros Hl Hm.
    destruct (GenerateExamplesMain.main_dataflow_container_image FLAGS W); [| eauto].
    unfold GenerateExamplesMain.main_check_sources. rewrite Hl, Hm. simpl. eauto.
  - intros Hm path Hin. rewrite <- main_run in Hin.
    apply main_events in Hin as [Hb | [Hl | [Hp | [Hq | Hj]]]].
    + destruct Hb as [[_ Hne] | [(r & _ & He) | (r & _ & He)]]; congruence.
    + destruct Hl as (p & H & _). discriminate.
    + destruct Hp as (r & H). discriminate.
    + destruct Hq as (l & H & _). discriminate.
    + destruct Hj as (r & p & H & _). discriminate.
  - intros Hm Hl img ->.
    unfold GenerateExamplesMain.main_check_sources. rewrite Hl. simpl.
    rewrite (building_centroids_none FLAGS W [] Hm).
    unfold GenerateExamplesMain.main_labeled_coordinates.
    destruct (GenerateExamplesMain.labels_file FLAGS) as [path |]; [| discriminate].
    rewrite Hl. exists path. split; [reflexivity |].
    unfold run.
    set (read := GenerateExamplesMain._read_labels_file FLAGS W path _ _).
    assert (Hread : snd (read []) = [EvReadLabelsFile path]).
    { subst read.
      unfold GenerateExamplesMain._read_labels_file, bind, call, lift, ret. simpl.
      repeat step; reflexivity. }
    destruct (read []) as [[lc | e] t2]; simpl in Hread; subst t2.
    + split.
      * destruct (GenerateExamplesMain._get_gdal_env FLAGS) as [env |]; [| simpl; eauto].
        cbv zeta. destruct (generate_examples_pipeline W _) as [[] | msg]; [| simpl; eauto].
        destruct (labeling_task_events FLAGS W
                    ([EvReadLabelsFile path] ++
                     [EvGenerateExamplesPipeline
                        (GenerateExamplesMain.generation_request FLAGS [] lc env img)]))
          as (evs & -> & _).
        simpl. eauto.
      * intros coords env [= <-] ->. cbv zeta.
        exists (GenerateExamplesMain.generation_request FLAGS [] lc env img).
        destruct (generate_examples_pipeline W _) as [[] | msg].
        -- destruct (labeling_task_events FLAGS W
                       ([EvReadLabelsFile path] ++
                        [EvGenerateExamplesPipeline
                           (GenerateExamplesMain.generation_request FLAGS [] lc env img)]))
             as (evs & -> & _).
           exists evs. repeat split.
        -- exists []. repeat split.
    + split; [simpl; eauto | discriminate].
  - intros e He. rewrite He. split; [| reflexivity].
    now apply dataflow_image_raise in He.
Qed.

(** Mode [none] end to end: without a labels file [main] raises before
    any call; with the file of five rows it reads the labels and runs the
    pipeline with no building centroids and the five labeled
    coordinates, and nothing else. *)
Lemma C4_mode_none_runs :
  let W := Samples.world "3.8.10" Samples.now Samples.five_rows in
  let without := Samples.flags GenerateExamplesMain.BM_none None (Some 1000)
                   false None [] false None None None in
  let with_labels := Samples.flags GenerateExamplesMain.BM_none (Some "labels.geojson")
                       (Some 1000) false None [] false None None None in
  fst (run (GenerateExamplesMain.main without W)) = Raise (ValueError msg_no_sources) /\
  snd (run (GenerateExamplesMain.main without W)) = [] /\
  fst (run (GenerateExamplesMain.main with_labels W)) = Ok tt /\
  length (snd (run (GenerateExamplesMain.main with_labels W))) = 2%nat /\
  exists req rest,
    snd (run (GenerateExamplesMain.main with_labels W)) =
      EvReadLabelsFile "labels.geojson" :: EvGenerateExamplesPipeline req :: rest /\
    req_building_centroids req = [] /\
    req_labeled_coordinates req =
      [(Zfloat 1, Zfloat 1, float_1_0); (Zfloat 2, Zfloat 2, Zfloat 0);
       (Zfloat 3, Zfloat 3, float_2_0); (Zfloat 4, Zfloat 4, float_1_0);
       (Zfloat 5, Zfloat 5, Zfloat 0)] /\
    req_gdal_env req = ∅ /\
    req_dataflow_container_image req = None.
Proof.
  cbv zeta. split; [| split; [| split; [| split]]].
  - apply (proj1 (C4_no_sources
                    (Samples.flags GenerateExamplesMain.BM_none None (Some 1000)
                       false None [] false None None None)
                    (Samples.world "3.8.10" Samples.now Samples.five_rows))).
    repeat split.
  - reflexivity.
  - vm_compute. reflexivity.
  - vm_compute. reflexivity.
  - destruct (C4_no_sources
                (Samples.flags GenerateExamplesMain.BM_none (Some "labels.geojson")
                   (Some 1000) false None [] false None None None)
                (Samples.world "3.8.10" Samples.now Samples.five_rows))
      as (_ & _ & _ & Hproceeds & _).
    destruct (Hproceeds eq_refl eq_refl None eq_refl) as (path & Hpath & _ & Hrequest).
    injection Hpath as <-.
    apply Hrequest; vm_compute; reflexivity.
Defined.

(** The image check comes before the check of the sources.  With
    Dataflow, no container image and Python 3.11, under mode [none]:
    with a labels file the run does not proceed, and nothing is read;
    without one the error is the image error, not the one about the
    sources. *)
Lemma C4_image_error_first :
  let W := Samples.world "3.11.2" Samples.now Samples.five_rows in
  let with_labels := Samples.flags GenerateExamplesMain.BM_none (Some "labels.geojson")
                       (Some 1000) true None [] false None None None in
  let without := Samples.flags GenerateExamplesMain.BM_none None (Some 1000)
                   true None [] false None None None in
  GenerateExamplesMain.buildings_method with_labels = GenerateExamplesMain.BM_none /\
  GenerateExamplesMain.labels_file with_labels = Some "labels.geojson" /\
  run (GenerateExamplesMain.main with_labels W) =
    (Raise (ValueError msg_dataflow_container_image), []) /\
  GenerateExamplesMain.buildings_method without = GenerateExamplesMain.BM_none /\
  GenerateExamplesMain.labels_file without = None /\
  run (GenerateExamplesMain.main without W) =
    (Raise (ValueError msg_dataflow_container_image), []) /\
  (fst (run (GenerateExamplesMain.main without W)) = Raise (ValueError msg_no_sources) ->
   False).
Proof.
  cbv zeta. repeat split; try (vm_compute; reflexivity).
  vm_compute. discriminate.
Qed.

(** ** The Dataflow container image *)

(** C5. Without Dataflow the configured image, set or not, is passed on
    and nothing is raised, whatever the interpreter version; a
    configured image is always passed on.  With Dataflow and no image,
    the first three characters of the interpreter version decide: for
    "3.7", "3.8" and "3.9" the image is the default tag built from them,
    and for anything else [main] raises [ValueError] before any
    collaborator is called.  Versions 3.7.12, 3.8.10 and 3.9.7 get a
    default; 3.6.9, 3.10.4, 3.11.2 and 2.7.18 raise. *)
Theorem C5_dataflow_image (FLAGS : GenerateExamplesMain.Flags) (W : World) :
  let configured := GenerateExamplesMain.dataflow_container_image FLAGS in
  let dataflow := GenerateExamplesMain.use_dataflow FLAGS in
  let py_version := str_take 3 (python_version W) in
  let resolved := GenerateExamplesMain.main_dataflow_container_image FLAGS W in
  let default v := "gcr.io/disaster-assessment/dataflow_" +:+ v +:+ "_image:latest" in
  let known := ["3.7"; "3.8"; "3.9"] in
  (dataflow = false -> resolved = Ok configured) /\
  (forall image, configured = Some image -> resolved = Ok (Some image)) /\
  (dataflow = true -> configured = None -> py_version ∈ known ->
     resolved = Ok (Some (default py_version))) /\
  (dataflow = true -> configured = None -> py_version ∉ known ->
     resolved = Raise (ValueError msg_dataflow_container_image)) /\
  ((exists e, resolved = Raise e) <->
     dataflow = true /\ configured = None /\ py_version ∉ known) /\
  (forall e, resolved = Raise e -> run (GenerateExamplesMain.main FLAGS W) = (Raise e, [])) /\
  (let on version :=
     GenerateExamplesMain.main_dataflow_container_image
       (Samples.flags GenerateExamplesMain.BM_file None None true None [] false None None None)
       (Samples.world version Samples.now []) in
   on "3.7.12" = Ok (Some "gcr.io/disaster-assessment/dataflow_3.7_image:latest") /\
   on "3.8.10" = Ok (Some "gcr.io/disaster-assessment/dataflow_3.8_image:latest") /\
   on "3.9.7" = Ok (Some "gcr.io/disaster-assessment/dataflow_3.9_image:latest") /\
   on "3.6.9" = Raise (ValueError msg_dataflow_container_image) /\
   on "3.10.4" = Raise (ValueError msg_dataflow_container_image) /\
   on "3.11.2" = Raise (ValueError msg_dataflow_container_image) /\
   on "2.7.18" = Raise (ValueError msg_dataflow_container_image)).
Proof.
  cbv zeta.
  assert (Hknown : forall v : string,
            v ∈ ["3.7"; "3.8"; "3.9"] <-> v = "3.7" \/ v = "3.8" \/ v = "3.9").
  { intros v. rewrite !elem_of_cons, elem_of_nil. tauto. }
  assert (Hcases :
            GenerateExamplesMain.use_dataflow FLAGS = true ->
            GenerateExamplesMain.dataflow_container_image FLAGS = None ->
            (str_take 3 (python_version W) ∈ ["3.7"; "3.8"; "3.9"] /\
             GenerateExamplesMain.main_dataflow_container_image FLAGS W =
               Ok (Some ("gcr.io/disaster-assessment/dataflow_" +:+
                         str_take 3 (python_version W) +:+ "_image:latest"))) \/
            ((str_take 3 (python_version W) ∉ ["3.7"; "3.8"; "3.9"]) /\
             GenerateExamplesMain.main_dataflow_container_image FLAGS W =
               Raise (ValueError msg_dataflow_container_image))).
  { intros Hd Hc. unfold GenerateExamplesMain.main_dataflow_container_image.
    rewrite Hd, Hc. simpl. rewrite Hknown.
    destruct (String.eqb_spec (str_take 3 (python_version W)) "3.7") as [-> | H7];
      [left; split; [tauto | reflexivity] |].
    destruct (String.eqb_spec (str_take 3 (python_version W)) "3.8") as [-> | H8];
      [left; split; [tauto | reflexivity] |].
    destruct (String.eqb_spec (str_take 3 (python_version W)) "3.9") as [-> | H9];
      [left; split; [tauto | reflexivity] |].
    right. split; [tauto | reflexivity]. }
  split; [| split; [| split; [| split; [| split; [| split]]]]].
  - intros Hd. unfold GenerateExamplesMain.main_dataflow_container_image. now rewrite Hd.
  - intros image Hc. unfold GenerateExamplesMain.main_dataflow_container_image.
    rewrite Hc. simpl. now rewrite andb_false_r.
  - intros Hd Hc Hin. destruct (Hcases Hd Hc) as [[_ H] | [Hnot _]]; tauto.
  - intros Hd Hc Hnot. destruct (Hcases Hd Hc) as [[Hin _] | [_ H]]; tauto.
  - split.
    + intros [e He].
      destruct (GenerateExamplesMain.use_dataflow FLAGS) eqn:Hd.
      * destruct (GenerateExamplesMain.dataflow_container_image FLAGS) as [image |] eqn:Hc.
        -- unfold GenerateExamplesMain.main_dataflow_container_image in He.
           rewrite Hd, Hc in He. discriminate.
        -- destruct (Hcases eq_refl eq_refl) as [[_ H] | [Hnot _]]; [congruence | auto].
      * unfold GenerateExamplesMain.main_dataflow_container_image in He.
        rewrite Hd in He. discriminate.
    + intros (Hd & Hc & Hnot).
      destruct (Hcases Hd Hc) as [[Hin _] | [_ H]]; [tauto | eauto].
  - intros e He. rewrite main_run, He. reflexivity.
  - repeat split; vm_compute; reflexivity.
Qed.

(** ** The labeler pool *)

Ltac members H :=
  repeat match type of H with
         | _ ∈ [] => apply elem_of_nil in H; destruct H
         | _ ∈ _ :: _ => apply elem_of_cons in H as [H | H]
         end.

Lemma task_main_events (FLAGS : CreateCloudLabelingTask.Flags) (W : World) (ev : event) :
  ev ∈ snd (run (CreateCloudLabelingTask.main FLAGS W)) ->
  task_images_event FLAGS ev \/ task_pool_event FLAGS W ev \/ task_job_event FLAGS W ev.
Proof.
  unfold run, CreateCloudLabelingTask.main, CreateCloudLabelingTask.main_labeler_pool,
    bind, call, ret, raise, task_images_event, task_pool_event, task_job_event, timestamped.
  destruct (create_labeling_images W _ _ _) as [images | msg]; simpl;
    [| intros Hin; members Hin; auto].
  destruct (CreateCloudLabelingTask.cloud_labeler_pool FLAGS) as [pool |] eqn:Hp; simpl.
  - intros Hin; members Hin; eauto 10.
  - destruct (CreateCloudLabelingTask.cloud_labeler_emails FLAGS)
      as [[| email emails] |] eqn:He; simpl;
      try (intros Hin; members Hin; now auto).
    assert (Hpool : forall l : list string, l = email :: emails ->
              exists l',
                EvCreateSpecialistPool (Some (CreateCloudLabelingTask.cloud_project FLAGS))
                  (Some (CreateCloudLabelingTask.cloud_location FLAGS))
                  ((format_opt (CreateCloudLabelingTask.dataset_name FLAGS) +:+ "_" +:+
                    strftime_Ymd_HMS (localtime W)) +:+ "_pool") [email] l =
                EvCreateSpecialistPool (Some (CreateCloudLabelingTask.cloud_project FLAGS))
                  (Some (CreateCloudLabelingTask.cloud_location FLAGS))
                  ((format_opt (CreateCloudLabelingTask.dataset_name FLAGS) +:+ "_" +:+
                    strftime_Ymd_HMS (localtime W)) +:+ "_pool") (firstn 1 l') l' /\
                None = (None : option string) /\ Some (email :: emails) = Some l' /\ l' <> []).
    { intros l ->. exists (email :: emails). repeat split. discriminate. }
    destruct (create_specialist_pool W _ _ _ _ _) as [pool | msg]; simpl;
      intros Hin; members Hin; subst ev; eauto 10.
Qed.

(** C8. In both drivers: an existing pool identifier is returned as it
    is and nothing is called; without one, an unset or empty email list
    raises [ValueError]; with emails [first :: others] the pool is
    created with the dataset name followed by [_pool] as display name,
    [[first]] as manager and the whole list as members.  In a run of
    either [main], the display name of every pool that is created is the
    dataset name of every labeling job that is created, plus [_pool].
    With emails ["a@x.com"; "b@x.com"] the manager is "a@x.com" and the
    members are both. *)
Theorem C8_labeler_pool (W : World) (timestamped_dataset : string) (t : list event) :
  (forall FLAGS : GenerateExamplesMain.Flags,
     let provision := GenerateExamplesMain.main_labeler_pool FLAGS W timestamped_dataset t in
     let project := GenerateExamplesMain.cloud_project FLAGS in
     let region := GenerateExamplesMain.cloud_region FLAGS in
     (forall pool, GenerateExamplesMain.cloud_labeler_pool FLAGS = Some pool ->
        provision = (Ok pool, t)) /\
     (GenerateExamplesMain.cloud_labeler_pool FLAGS = None ->
      GenerateExamplesMain.cloud_labeler_emails FLAGS = None \/
      GenerateExamplesMain.cloud_labeler_emails FLAGS = Some [] ->
        provision = (Raise (ValueError msg_labeler_email), t)) /\
     (forall first others,
        GenerateExamplesMain.cloud_labeler_pool FLAGS = None ->
        GenerateExamplesMain.cloud_labeler_emails FLAGS = Some (first :: others) ->
        provision =
          (answered (create_specialist_pool W project region
                       (timestamped_dataset +:+ "_pool") [first] (first :: others)),
           (t ++ [EvCreateSpecialistPool project region (timestamped_dataset +:+ "_pool")
                    [first] (first :: others)])%list))) /\
  (forall FLAGS : CreateCloudLabelingTask.Flags,
     let provision := CreateCloudLabelingTask.main_labeler_pool FLAGS W timestamped_dataset t in
     let project := Some (CreateCloudLabelingTask.cloud_project FLAGS) in
     let region := Some (CreateCloudLabelingTask.cloud_location FLAGS) in
     (forall pool, CreateCloudLabelingTask.cloud_labeler_pool FLAGS = Some pool ->
        provision = (Ok pool, t)) /\
     (CreateCloudLabelingTask.cloud_labeler_pool FLAGS = None ->
      CreateCloudLabelingTask.cloud_labeler_emails FLAGS = None \/
      CreateCloudLabelingTask.cloud_labeler_emails FLAGS = Some [] ->
        provision = (Raise (ValueError msg_labeler_email), t)) /\
     (forall first others,
        CreateCloudLabelingTask.cloud_labeler_pool FLAGS = None ->
        CreateCloudLabelingTask.cloud_labeler_emails FLAGS = Some (first :: others) ->
        provision =
          (answered (create_specialist_pool W project region
                       (timestamped_dataset +:+ "_pool") [first] (first :: others)),
           (t ++ [EvCreateSpecialistPool project region (timestamped_dataset +:+ "_pool")
                    [first] (first :: others)])%list))) /\
  (forall (FLAGS : GenerateExamplesMain.Flags) p r display managers members
          p' r' dataset pool uri instructions schema,
     EvCreateSpecialistPool p r display managers members
       ∈ snd (run (GenerateExamplesMain.main FLAGS W)) ->
     EvCreateCloudLabelingJob p' r' dataset pool uri instructions schema
       ∈ snd (run (GenerateExamplesMain.main FLAGS W)) ->
     display = dataset +:+ "_pool") /\
  (forall (FLAGS : CreateCloudLabelingTask.Flags) p r display managers members
          p' r' dataset pool uri instructions schema,
     EvCreateSpecialistPool p r display managers members
       ∈ snd (run (CreateCloudLabelingTask.main FLAGS W)) ->
     EvCreateCloudLabelingJob p' r' dataset pool uri instructions schema
       ∈ snd (run (CreateCloudLabelingTask.main FLAGS W)) ->
     display = dataset +:+ "_pool") /\
  run (CreateCloudLabelingTask.main
         (Samples.task_flags (Some "harvey") None (Some ["a@x.com"; "b@x.com"]))
         (Samples.world "3.8.10" Samples.now [])) =
    (Ok tt,
     [EvCreateLabelingImages "gs://bucket/examples/*.tfrecord" 1000
        "gs://bucket/labeling-images";
      EvCreateSpecialistPool (Some "disaster-assessment") (Some "us-central1")
        "harvey_20211103_090559_pool" ["a@x.com"] ["a@x.com"; "b@x.com"];
      EvCreateCloudLabelingJob (Some "disaster-assessment") "us-central1"
        "harvey_20211103_090559" "projects/p/locations/l/specialistPools/1"
        "gs://bucket/labeling-images/import_file.csv"
        "gs://skai-public/labeling_instructions.pdf"
        ("gs://google-cloud-aiplatform/schema/datalabelingjob/inputs/" +:+
         "image_classification_1.0.0.yaml")]) /\
  fst (run (CreateCloudLabelingTask.main
              (Samples.task_flags (Some "harvey") None (Some []))
              (Samples.world "3.8.10" Samples.now []))) =
    Raise (ValueError msg_labeler_email).
Proof.
  split; [| split; [| split; [| split; [| split]]]].
  - intros FLAGS. cbv zeta.
    unfold GenerateExamplesMain.main_labeler_pool, ret, raise, call, answered.
    split; [| split].
    + now intros pool ->.
    + now intros -> [-> | ->].
    + now intros first others -> ->.
  - intros FLAGS. cbv zeta.
    unfold CreateCloudLabelingTask.main_labeler_pool, ret, raise, call, answered.
    split; [| split].
    + now intros pool ->.
    + now intros -> [-> | ->].
    + now intros first others -> ->.
  - intros FLAGS p r display managers members p' r' dataset pool uri instructions schema
      Hpool Hjob.
    apply main_events in Hpool as [Hb | [Hl | [Hp | [Hq | Hj]]]].
    + destruct Hb as [[H _] | [(x & H & _) | (x & H & _)]]; discriminate.
    + destruct Hl as (x & H & _). discriminate.
    + destruct Hp as (x & H). discriminate.
    + destruct Hq as (l & [= -> -> -> -> ->] & _).
      apply main_events in Hjob as [Hb | [Hl | [Hp | [Hq | Hj]]]].
      * destruct Hb as [[H _] | [(x & H & _) | (x & H & _)]]; discriminate.
      * destruct Hl as (x & H & _). discriminate.
      * destruct Hp as (x & H). discriminate.
      * destruct Hq as (x & H & _). discriminate.
      * destruct Hj as (x & y & [= -> -> -> -> -> -> ->] & _). reflexivity.
    + destruct Hj as (x & y & H & _). discriminate.
  - intros FLAGS p r display managers members p' r' dataset pool uri instructions schema
      Hpool Hjob.
    apply task_main_events in Hpool as [Hi | [Hq | Hj]].
    + discriminate.
    + destruct Hq as (l & [= -> -> -> -> ->] & _).
      apply task_main_events in Hjob as [Hi | [Hq | Hj]].
      * discriminate.
      * destruct Hq as (x & H & _). discriminate.
      * destruct Hj as (x & y & [= -> -> -> -> -> -> ->]). reflexivity.
    + destruct Hj as (x & y & H). discriminate.
  - vm_compute. reflexivity.
  - vm_compute. reflexivity.
Qed.

(** ** The time-stamped dataset name *)

Lemma append_string (c : ascii) (a b : string) : String c a +:+ b = String c (a +:+ b).
Proof. reflexivity. Qed.

Lemma append_inj_l (a b c : string) : a +:+ b = a +:+ c -> b = c.
Proof.
  induction a as [| x a IH]; [trivial |].
  rewrite !append_string. intros [= H]. auto.
Qed.

Lemma append_length (a b : string) :
  String.length (a +:+ b) = (String.length a + String.length b)%nat.
Proof.
  induction a as [| x a IH]; [reflexivity |].
  rewrite append_string. simpl. now rewrite IH.
Qed.

Lemma append_inj_length (a c b d : string) :
  String.length b = String.length d -> a +:+ b = c +:+ d -> a = c /\ b = d.
Proof.
  intros Hlen. revert c. induction a as [| x a IH]; intros [| y c] Heq.
  - now split.
  - apply (f_equal String.length) in Heq.
    change (EmptyString +:+ b) with b in Heq. rewrite append_length in Heq. simpl in Heq. lia.
  - apply (f_equal String.length) in Heq.
    change (EmptyString +:+ d) with d in Heq. rewrite append_length in Heq. simpl in Heq. lia.
  - rewrite !append_string in Heq. injection Heq as -> Heq.
    destruct (IH c Heq) as [-> ->]. now split.
Qed.

Lemma digit_char_inj (d e : nat) : (d < 10)%nat -> (e < 10)%nat ->
  digit_char d = digit_char e -> d = e.
Proof.
  intros Hd He Heq. unfold digit_char in Heq.
  apply (f_equal nat_of_ascii) in Heq.
  rewrite !nat_ascii_embedding in Heq by lia. lia.
Qed.

Lemma two_digits_inj (n m : nat) : (n < 100)%nat -> (m < 100)%nat ->
  two_digits n = two_digits m -> n = m.
Proof.
  intros Hn Hm. unfold two_digits. intros Heq.
  assert (Hq : digit_char (n / 10) = digit_char (m / 10)) by congruence.
  assert (Hr : digit_char (n mod 10) = digit_char (m mod 10)) by congruence.
  apply digit_char_inj in Hq;
    [| apply Nat.Div0.div_lt_upper_bound; lia | apply Nat.Div0.div_lt_upper_bound; lia].
  apply digit_char_inj in Hr; [| apply Nat.mod_upper_bound; lia..].
  rewrite (Nat.div_mod_eq n 10), (Nat.div_mod_eq m 10). congruence.
Qed.

Lemma two_digits_append (n : nat) (rest : string) :
  two_digits n +:+ rest =
  String (digit_char (n / 10)) (String (digit_char (n mod 10)) rest).
Proof. reflexivity. Qed.

Lemma decimal_inj (n m : nat) : decimal n = decimal m -> n = m.
Proof.
  unfold decimal. intros Heq.
  apply (f_equal NilEmpty.uint_of_string) in Heq.
  rewrite !NilEmpty.usu in Heq. injection Heq as Heq.
  apply (f_equal Nat.of_uint) in Heq.
  now rewrite !DecimalNat.Unsigned.of_to in Heq.
Qed.

Lemma strftime_inj (t1 t2 : struct_time) :
  valid_time t1 -> valid_time t2 ->
  strftime_Ymd_HMS t1 = strftime_Ymd_HMS t2 -> t1 = t2.
Proof.
  intros (Hmon1 & Hday1 & Hhour1 & Hmin1 & Hsec1) (Hmon2 & Hday2 & Hhour2 & Hmin2 & Hsec2).
  unfold strftime_Ymd_HMS. intros Heq.
  apply append_inj_length in Heq as [Hyear Heq]; [| reflexivity].
  apply decimal_inj in Hyear.
  change ("_" +:+ ?x) with (String "_" x) in Heq.
  rewrite !two_digits_append in Heq.
  assert (Hmon : two_digits (tm_mon t1) = two_digits (tm_mon t2))
    by (unfold two_digits; congruence).
  assert (Hday : two_digits (tm_mday t1) = two_digits (tm_mday t2))
    by (unfold two_digits; congruence).
  assert (Hhour : two_digits (tm_hour t1) = two_digits (tm_hour t2))
    by (unfold two_digits; congruence).
  assert (Hmin : two_digits (tm_min t1) = two_digits (tm_min t2))
    by (unfold two_digits; congruence).
  assert (Hsec : two_digits (tm_sec t1) = two_digits (tm_sec t2)) by congruence.
  apply two_digits_inj in Hmon, Hday, Hhour, Hmin, Hsec; try lia.
  destruct t1, t2; simpl in *; congruence.
Qed.

(** A run of [main] that returns with the labeling task enabled has
    created the labeling job, as its last call, under the time-stamped
    name. *)
Lemma main_ok_job (FLAGS : GenerateExamplesMain.Flags) (W : World) :
  GenerateExamplesMain.create_cloud_labeling_task FLAGS = true ->
  fst (run (GenerateExamplesMain.main FLAGS W)) = Ok tt ->
  exists before project region pool uri instructions schema,
    snd (run (GenerateExamplesMain.main FLAGS W)) =
      (before ++ [EvCreateCloudLabelingJob project region
                    (timestamped (GenerateExamplesMain.dataset_name FLAGS) W)
                    pool uri instructions schema])%list.
Proof.
  intros Hc. rewrite main_run.
  destruct (GenerateExamplesMain.main_dataflow_container_image FLAGS W); [| discriminate].
  destruct (GenerateExamplesMain.main_check_sources FLAGS); [| discriminate].
  destruct (GenerateExamplesMain.main_building_centroids FLAGS W []) as [[bc | e] t1];
    [| discriminate].
  destruct (GenerateExamplesMain.main_labeled_coordinates FLAGS W t1) as [[lc | e] t2];
    [| discriminate].
  destruct (GenerateExamplesMain._get_gdal_env FLAGS) as [env | e]; [| discriminate].
  cbv zeta. destruct (generate_examples_pipeline W _); [| discriminate].
  generalize (t2 ++ [EvGenerateExamplesPipeline
                       (GenerateExamplesMain.generation_request FLAGS bc lc env a)])%list.
  intros t.
  unfold GenerateExamplesMain.main_labeling_task, GenerateExamplesMain.main_labeler_pool,
    bind, call, raise, ret, timestamped.
  rewrite Hc.
  destruct (truthy_str (GenerateExamplesMain.dataset_name FLAGS)); simpl; [| discriminate].
  destruct (GenerateExamplesMain.cloud_labeler_pool FLAGS) as [pool |]; simpl.
  - destruct (GenerateExamplesMain.cloud_region FLAGS) as [region |]; simpl;
      [| discriminate].
    destruct (create_cloud_labeling_job W _ _ _ _ _ _ _); simpl; [| discriminate].
    intros _. eauto 10.
  - destruct (truthy_list (GenerateExamplesMain.cloud_labeler_emails FLAGS)); simpl;
      [| discriminate].
    destruct (create_specialist_pool W _ _ _ _ _) as [pool | msg]; simpl; [| discriminate].
    destruct (GenerateExamplesMain.cloud_region FLAGS) as [region |]; simpl;
      [| discriminate].
    destruct (create_cloud_labeling_job W _ _ _ _ _ _ _); simpl; [| discriminate].
    intros _. eauto 10.
Qed.

(** The same for the [main] of [create_cloud_labeling_task.py]. *)
Lemma task_main_ok_job (FLAGS : CreateCloudLabelingTask.Flags) (W : World) :
  fst (run (CreateCloudLabelingTask.main FLAGS W)) = Ok tt ->
  exists before project region pool uri instructions schema,
    snd (run (CreateCloudLabelingTask.main FLAGS W)) =
      (before ++ [EvCreateCloudLabelingJob project region
                    (timestamped (CreateCloudLabelingTask.dataset_name FLAGS) W)
                    pool uri instructions schema])%list.
Proof.
  unfold run, CreateCloudLabelingTask.main, CreateCloudLabelingTask.main_labeler_pool,
    bind, call, raise, ret, timestamped.
  destruct (create_labeling_images W _ _ _) as [images | msg]; simpl; [| discriminate].
  destruct (CreateCloudLabelingTask.cloud_labeler_pool FLAGS) as [pool |]; simpl.
  - destruct (create_cloud_labeling_job W _ _ _ _ _ _ _); simpl; [| discriminate].
    intros _. eexists [_]. eauto 10.
  - destruct (truthy_list (CreateCloudLabelingTask.cloud_labeler_emails FLAGS)); simpl;
      [| discriminate].
    destruct (create_specialist_pool W _ _ _ _ _) as [pool | msg]; simpl; [| discriminate].
    destruct (create_cloud_labeling_job W _ _ _ _ _ _ _); simpl; [| discriminate].
    intros _. eexists [_; _]. eauto 10.
Qed.

(** C9. In either driver every labeling job that is created gets as
    dataset name the configured name, an underscore and the local time
    of the run formatted to the second ([%Y%m%d_%H%M%S]); and a run that
    returns (with the labeling task enabled, for
    [generate_examples_main.py]) has created the job under that name, as
    its last call.  For two runs with the same configured name, the
    dataset names of their jobs are equal exactly when the two local
    times are equal to the second, and differ exactly when they
    differ. *)
Theorem C9_dataset_name (name : option string) (W1 W2 : World) :
  valid_time (localtime W1) -> valid_time (localtime W2) ->
  (timestamped name W1 = timestamped name W2 <-> localtime W1 = localtime W2) /\
  (timestamped name W1 <> timestamped name W2 <-> localtime W1 <> localtime W2) /\
  (forall (FLAGS : GenerateExamplesMain.Flags) p r dataset pool uri instructions schema,
     GenerateExamplesMain.dataset_name FLAGS = name ->
     EvCreateCloudLabelingJob p r dataset pool uri instructions schema
       ∈ snd (run (GenerateExamplesMain.main FLAGS W1)) ->
     exists configured,
       name = Some configured /\
       dataset = configured +:+ "_" +:+ strftime_Ymd_HMS (localtime W1) /\
       dataset = timestamped name W1) /\
  (forall (FLAGS : CreateCloudLabelingTask.Flags) p r dataset pool uri instructions schema,
     CreateCloudLabelingTask.dataset_name FLAGS = name ->
     EvCreateCloudLabelingJob p r dataset pool uri instructions schema
       ∈ snd (run (CreateCloudLabelingTask.main FLAGS W1)) ->
     dataset = format_opt name +:+ "_" +:+ strftime_Ymd_HMS (localtime W1) /\
     dataset = timestamped name W1) /\
  (forall FLAGS : GenerateExamplesMain.Flags,
     GenerateExamplesMain.dataset_name FLAGS = name ->
     GenerateExamplesMain.create_cloud_labeling_task FLAGS = true ->
     fst (run (GenerateExamplesMain.main FLAGS W1)) = Ok tt ->
     exists before project region pool uri instructions schema,
       snd (run (GenerateExamplesMain.main FLAGS W1)) =
         (before ++ [EvCreateCloudLabelingJob project region (timestamped name W1)
                       pool uri instructions schema])%list) /\
  (forall FLAGS : CreateCloudLabelingTask.Flags,
     CreateCloudLabelingTask.dataset_name FLAGS = name ->
     fst (run (CreateCloudLabelingTask.main FLAGS W1)) = Ok tt ->
     exists before project region pool uri instructions schema,
       snd (run (CreateCloudLabelingTask.main FLAGS W1)) =
         (before ++ [EvCreateCloudLabelingJob project region (timestamped name W1)
                       pool uri instructions schema])%list) /\
  (forall d1 d2 : string,
     names_job W1 name d1 -> names_job W2 name d2 ->
     (d1 = d2 <-> localtime W1 = localtime W2) /\
     (d1 <> d2 <-> localtime W1 <> localtime W2)).
Proof.
  intros Hv1 Hv2.
  assert (Hiff : timestamped name W1 = timestamped name W2 <-> localtime W1 = localtime W2).
  { unfold timestamped. split.
    - intros Heq. apply append_inj_l, append_inj_l in Heq. now apply strftime_inj.
    - now intros ->. }
  assert (Hgen : forall (W : World) (FLAGS : GenerateExamplesMain.Flags)
                        p r dataset pool uri instructions schema,
            GenerateExamplesMain.dataset_name FLAGS = name ->
            EvCreateCloudLabelingJob p r dataset pool uri instructions schema
              ∈ snd (run (GenerateExamplesMain.main FLAGS W)) ->
            exists configured,
              name = Some configured /\
              dataset = configured +:+ "_" +:+ strftime_Ymd_HMS (localtime W) /\
              dataset = timestamped name W).
  { intros W FLAGS p r dataset pool uri instructions schema Hname Hjob.
    apply main_events in Hjob as [Hb | [Hl | [Hp | [Hq | Hj]]]].
    + destruct Hb as [[H _] | [(x & H & _) | (x & H & _)]]; discriminate.
    + destruct Hl as (x & H & _). discriminate.
    + destruct Hp as (x & H). discriminate.
    + destruct Hq as (x & H & _). discriminate.
    + destruct Hj as (x & y & [= -> -> -> -> -> -> ->] & _ & _ & Htruthy).
      rewrite Hname in *. destruct name as [configured |]; [| discriminate].
      exists configured. repeat split. }
  assert (Htask : forall (W : World) (FLAGS : CreateCloudLabelingTask.Flags)
                         p r dataset pool uri instructions schema,
            CreateCloudLabelingTask.dataset_name FLAGS = name ->
            EvCreateCloudLabelingJob p r dataset pool uri instructions schema
              ∈ snd (run (CreateCloudLabelingTask.main FLAGS W)) ->
            dataset = format_opt name +:+ "_" +:+ strftime_Ymd_HMS (localtime W) /\
            dataset = timestamped name W).
  { intros W FLAGS p r dataset pool uri instructions schema Hname Hjob.
    apply task_main_events in Hjob as [Hi | [Hq | Hj]].
    + discriminate.
    + destruct Hq as (x & H & _). discriminate.
    + destruct Hj as (x & y & [= -> -> -> -> -> -> ->]). rewrite Hname. now split. }
  assert (Hname : forall W d, names_job W name d -> d = timestamped name W).
  { intros W d [(FLAGS & p & r & pool & uri & ins & sch & Hn & Hin)
               | (FLAGS & p & r & pool & uri & ins & sch & Hn & Hin)].
    - destruct (Hgen W FLAGS _ _ _ _ _ _ _ Hn Hin) as (c & _ & _ & H). exact H.
    - destruct (Htask W FLAGS _ _ _ _ _ _ _ Hn Hin) as (_ & H). exact H. }
  split; [exact Hiff |]. split; [now rewrite Hiff |].
  split; [exact (Hgen W1) |]. split; [exact (Htask W1) |].
  split; [| split].
  - intros FLAGS <- Hc Hok. now apply main_ok_job.
  - intros FLAGS <- Hok. now apply task_main_ok_job.
  - intros d1 d2 H1 H2. apply Hname in H1 as ->. apply Hname in H2 as ->.
    split; [exact Hiff | now rewrite Hiff].
Qed.

(** Two runs named "harvey", one second apart, of either driver: each
    returns with the labeling job created as its last call, the first
    as "harvey_20211103_090559" and the second as
    "harvey_20211103_090600", and no job of the first run has the name
    of a job of the second. *)
Lemma C9_one_second_apart :
  let FLAGS := Samples.flags GenerateExamplesMain.BM_none (Some "labels.geojson")
                 (Some 1000) false None [] true (Some "harvey") (Some "pool-7") None in
  let TASK := Samples.task_flags (Some "harvey") (Some "pool-7") None in
  let W1 := Samples.world "3.8.10" Samples.now Samples.five_rows in
  let W2 := Samples.world "3.8.10" Samples.one_second_later Samples.five_rows in
  (exists before project region pool uri instructions schema,
     snd (run (GenerateExamplesMain.main FLAGS W1)) =
       (before ++ [EvCreateCloudLabelingJob project region "harvey_20211103_090559"
                     pool uri instructions schema])%list) /\
  (exists before project region pool uri instructions schema,
     snd (run (CreateCloudLabelingTask.main TASK W1)) =
       (before ++ [EvCreateCloudLabelingJob project region "harvey_20211103_090559"
                     pool uri instructions schema])%list) /\
  (exists before project region pool uri instructions schema,
     snd (run (GenerateExamplesMain.main FLAGS W2)) =
       (before ++ [EvCreateCloudLabelingJob project region "harvey_20211103_090600"
                     pool uri instructions schema])%list) /\
  (forall d1 d2 : string,
     names_job W1 (Some "harvey") d1 -> names_job W2 (Some "harvey") d2 -> d1 <> d2).
Proof.
  cbv zeta.
  assert (Hv1 : valid_time (localtime (Samples.world "3.8.10" Samples.now Samples.five_rows)))
    by (unfold valid_time; simpl; lia).
  assert (Hv2 : valid_time
                  (localtime (Samples.world "3.8.10" Samples.one_second_later
                                Samples.five_rows)))
    by (unfold valid_time; simpl; lia).
  destruct (C9_dataset_name (Some "harvey")
              (Samples.world "3.8.10" Samples.now Samples.five_rows)
              (Samples.world "3.8.10" Samples.one_second_later Samples.five_rows) Hv1 Hv2)
    as (_ & _ & _ & _ & Hgen1 & Htask1 & Htwo).
  destruct (C9_dataset_name (Some "harvey")
              (Samples.world "3.8.10" Samples.one_second_later Samples.five_rows)
              (Samples.world "3.8.10" Samples.now Samples.five_rows) Hv2 Hv1)
    as (_ & _ & _ & _ & Hgen2 & _).
  split; [| split; [| split]].
  - apply (Hgen1 (Samples.flags GenerateExamplesMain.BM_none (Some "labels.geojson")
                    (Some 1000) false None [] true (Some "harvey") (Some "pool-7") None));
      vm_compute; reflexivity.
  - apply (Htask1 (Samples.task_flags (Some "harvey") (Some "pool-7") None));
      vm_compute; reflexivity.
  - apply (Hgen2 (Samples.flags GenerateExamplesMain.BM_none (Some "labels.geojson")
                    (Some 1000) false None [] true (Some "harvey") (Some "pool-7") None));
      vm_compute; reflexivity.
  - intros d1 d2 H1 H2. apply (Htwo d1 d2 H1 H2). discriminate.
Defined.

(** ** The dataset name is checked after the pipeline has run *)

(** C10. When [main] raises its "Dataset name must be specified" error,
    the labeling task is enabled, the dataset name is unset or empty,
    and the last call logged is the example-generation pipeline, which
    returned.  Conversely, with the task enabled and no dataset name,
    whenever the stages before the pipeline succeed and the pipeline
    returns, [main] raises that error right after the pipeline call. *)
Theorem C10_dataset_name_after_pipeline (FLAGS : GenerateExamplesMain.Flags) (W : World) :
  let outcome := run (GenerateExamplesMain.main FLAGS W) in
  (fst outcome = Raise (ValueError msg_dataset_name) ->
     GenerateExamplesMain.create_cloud_labeling_task FLAGS = true /\
     truthy_str (GenerateExamplesMain.dataset_name FLAGS) = false /\
     exists before req,
       snd outcome = (before ++ [EvGenerateExamplesPipeline req])%list /\
       generate_examples_pipeline W req = Returns tt) /\
  (GenerateExamplesMain.create_cloud_labeling_task FLAGS = true ->
   truthy_str (GenerateExamplesMain.dataset_name FLAGS) = false ->
   forall image building_centroids t1 labeled_coordinates t2 env,
     GenerateExamplesMain.main_dataflow_container_image FLAGS W = Ok image ->
     GenerateExamplesMain.main_check_sources FLAGS = Ok tt ->
     GenerateExamplesMain.main_building_centroids FLAGS W [] = (Ok building_centroids, t1) ->
     GenerateExamplesMain.main_labeled_coordinates FLAGS W t1 =
       (Ok labeled_coordinates, t2) ->
     GenerateExamplesMain._get_gdal_env FLAGS = Ok env ->
     let req := GenerateExamplesMain.generation_request FLAGS building_centroids
                  labeled_coordinates env image in
     generate_examples_pipeline W req = Returns tt ->
     outcome = (Raise (ValueError msg_dataset_name),
                (t2 ++ [EvGenerateExamplesPipeline req])%list)).
Proof.
  cbv zeta. rewrite main_run. split.
  - destruct (GenerateExamplesMain.main_dataflow_container_image FLAGS W)
      as [img | e] eqn:Himg.
    + destruct (GenerateExamplesMain.main_check_sources FLAGS) as [[] | e] eqn:Hcheck.
      * destruct (GenerateExamplesMain.main_building_centroids FLAGS W [])
          as [[bc | e] t1] eqn:Hbc.
        -- destruct (GenerateExamplesMain.main_labeled_coordinates FLAGS W t1)
             as [[lc | e] t2] eqn:Hlc.
           ++ destruct (GenerateExamplesMain._get_gdal_env FLAGS) as [env | e] eqn:Henv.
              ** cbv zeta.
                 destruct (generate_examples_pipeline W _) as [[] | msg] eqn:Hpipe;
                   [| discriminate].
                 destruct (GenerateExamplesMain.main_labeling_task FLAGS W _)
                   as [[[] | e] t4] eqn:Htask; [discriminate |].
                 apply labeling_task_raise in Htask as [(-> & -> & Hc & Hn) | Hother];
                   [intros _; simpl; eauto 10 |].
                 destruct Hother as [-> | [-> | [msg ->]]];
                   simpl; intros [= H]; try discriminate; diff_msg H.
              ** apply get_gdal_env_raise in Henv as ->.
                 simpl; intros [= H]; diff_msg H.
           ++ apply labeled_coordinates_raise in Hlc
                as [[msg ->] | [-> | [-> | [-> | [label ->]]]]];
                simpl; intros [= H]; try discriminate; diff_msg H.
        -- apply building_centroids_raise in Hbc as [msg ->]. discriminate.
      * apply check_sources_raise in Hcheck as (-> & _). simpl; intros [= H]; diff_msg H.
    + apply dataflow_image_raise in Himg as ->. simpl; intros [= H]; diff_msg H.
  - intros Hc Hn image bc t1 lc t2 env -> -> -> -> -> Hpipe.
    cbv zeta. rewrite Hpipe.
    unfold GenerateExamplesMain.main_labeling_task, raise. now rewrite Hc, Hn.
Qed.

(** The labeling task enabled without a dataset name, on the file of
    five rows: the labels are read and the pipeline is run, and then
    [main] raises. *)
Lemma C10_sample_run :
  let FLAGS := Samples.flags GenerateExamplesMain.BM_none (Some "labels.geojson")
                 (Some 1000) false None [] true None None (Some ["a@x.com"]) in
  let W := Samples.world "3.8.10" Samples.now Samples.five_rows in
  run (GenerateExamplesMain.main FLAGS W) =
    (Raise (ValueError msg_dataset_name),
     [EvReadLabelsFile "labels.geojson";
      EvGenerateExamplesPipeline
        (GenerateExamplesMain.generation_request FLAGS []
           (valid_coordinates (Some "Main_Damag") ["undamaged"; "damaged"]
              Samples.five_rows) ∅ None)]).
Proof.
  cbv zeta.
  exact (proj2 (C10_dataset_name_after_pipeline
                  (Samples.flags GenerateExamplesMain.BM_none (Some "labels.geojson")
                     (Some 1000) false None [] true None None (Some ["a@x.com"]))
                  (Samples.world "3.8.10" Samples.now Samples.five_rows))
           eq_refl eq_refl None [] []
           (valid_coordinates (Some "Main_Damag") ["undamaged"; "damaged"]
              Samples.five_rows)
           [EvReadLabelsFile "labels.geojson"] ∅
           eq_refl eq_refl eq_refl eq_refl eq_refl eq_refl).
Defined.

(** * Further properties *)

(** ** No call follows a failed call *)

Section FailStop.

Variable W : World.

Lemma fits_own {A} (r : result A) (evs : list event) :
  (forall e, r = Raise e -> own_exception e) -> quiet W evs -> fits W r evs.
Proof.
  intros Hown Hq. destruct r as [a | e]; [exact Hq |].
  specialize (Hown e eq_refl). destruct e; simpl in *; tauto.
Qed.

Lemma fail_stop_ret {A} (a : A) : fail_stop W (ret a).
Proof. intros t. exists []. rewrite app_nil_r. split; [reflexivity | constructor]. Qed.

Lemma fail_stop_raise {A} (e : exn) : own_exception e -> fail_stop W (@raise A e).
Proof.
  intros He t. exists []. rewrite app_nil_r. split; [reflexivity |].
  apply fits_own; [now intros e' [= <-] | constructor].
Qed.

Lemma fail_stop_lift {A} (r : result A) :
  (forall e, r = Raise e -> own_exception e) -> fail_stop W (lift r).
Proof.
  intros Hown t. exists []. rewrite app_nil_r. split; [reflexivity |].
  apply fits_own; [exact Hown | constructor].
Qed.

Lemma fail_stop_call {A} (ev : event) (a : answer A) :
  call_failure W ev = failure_of a -> fail_stop W (call ev a).
Proof.
  intros Hev t. exists [ev]. split; [reflexivity |].
  unfold call; simpl. destruct a as [v | msg]; simpl in *.
  - constructor; [exact Hev | constructor].
  - exists [], ev. repeat split; [constructor | exact Hev].
Qed.

Lemma fail_stop_bind {A B} (m : M A) (k : A -> M B) :
  fail_stop W m -> (forall a, fail_stop W (k a)) -> fail_stop W (bind m k).
Proof.
  intros Hm Hk t. unfold bind.
  destruct (Hm t) as (evs1 & Ht1 & Hfit1).
  destruct (m t) as [[a | e] t1]; simpl in *; subst t1.
  - destruct (Hk a (t ++ evs1)%list) as (evs2 & Ht2 & Hfit2).
    exists (evs1 ++ evs2)%list. rewrite Ht2, app_assoc. split; [reflexivity |].
    destruct (fst (k a (t ++ evs1)%list)) as [b | e]; simpl in *.
    + now apply Forall_app.
    + destruct e; simpl in *; try now apply Forall_app.
      destruct Hfit2 as (before & ev & -> & Hq & Hev).
      exists (evs1 ++ before)%list, ev. rewrite app_assoc.
      repeat split; [now apply Forall_app | exact Hev].
  - exists evs1. split; [reflexivity | exact Hfit1].
Qed.

End FailStop.

Lemma fits_last (W : World) {A} (r : result A) (evs : list event) :
  fits W r evs ->
  (forall before ev after,
     evs = (before ++ ev :: after)%list -> is_Some (call_failure W ev) -> after = []) /\
  (forall msg,
     r = Raise (CollaboratorError msg) <->
     exists before ev, evs = (before ++ [ev])%list /\ call_failure W ev = Some msg).
Proof.
  intros Hfit.
  assert (Hquiet : forall l before ev after,
            quiet W l -> l = (before ++ ev :: after)%list ->
            is_Some (call_failure W ev) -> False).
  { intros l before ev after Hq -> [msg Hmsg].
    apply Forall_app in Hq as [_ Hq]. apply Forall_cons in Hq as [Hq _]. congruence. }
  assert (Hcollab : forall msg,
            (exists before ev, evs = (before ++ [ev])%list /\ quiet W before /\
                               call_failure W ev = Some msg) ->
            (forall before ev after,
               evs = (before ++ ev :: after)%list -> is_Some (call_failure W ev) ->
               after = []) /\
            (forall msg', (exists before ev, evs = (before ++ [ev])%list /\
                                             call_failure W ev = Some msg') -> msg' = msg)).
  { intros msg (pre & last & -> & Hq & Hlast). split.
    - intros before ev after Heq Hev.
      destruct after as [| x after _] using rev_ind; [reflexivity | exfalso].
      rewrite app_comm_cons, app_assoc in Heq.
      apply app_inj_tail in Heq as [-> _]. eapply Hquiet; eauto.
    - intros msg' (before & ev & Heq & Hev).
      apply app_inj_tail in Heq as [_ ->]. congruence. }
  destruct r as [a | e]; [| destruct e]; simpl in Hfit;
    try (split;
         [ intros before ev after Heq Hev; exfalso; eapply Hquiet; eauto
         | intros msg'; split;
           [ discriminate
           | intros (before & ev & Heq & Hev); exfalso;
             eapply (Hquiet evs before ev []); eauto ] ]).
  destruct (Hcollab msg Hfit) as [Hafter Hmsg]. split; [exact Hafter |].
  intros msg'. split.
  - intros [= ->]. destruct Hfit as (before & ev & Heq & _ & Hev). eauto.
  - intros Hex. now rewrite (Hmsg msg' Hex).
Qed.

Section FailStopDrivers.

Variable W : World.

Lemma fail_stop_generate_main (FLAGS : GenerateExamplesMain.Flags) :
  fail_stop W (GenerateExamplesMain.main FLAGS W).
Proof.
  unfold GenerateExamplesMain.main.
  apply fail_stop_bind.
  { apply fail_stop_lift. intros e He. now apply dataflow_image_raise in He as ->. }
  intros image. apply fail_stop_bind.
  { apply fail_stop_lift. intros e He. now apply check_sources_raise in He as (-> & _). }
  intros _. apply fail_stop_bind.
  { unfold GenerateExamplesMain.main_building_centroids,
      GenerateExamplesMain.get_building_centroids.
    destruct (GenerateExamplesMain.buildings_method FLAGS); simpl;
      [| | apply fail_stop_ret];
      (apply fail_stop_bind; [now apply fail_stop_call |]);
      intros aoi; now apply fail_stop_call. }
  intros building_centroids. apply fail_stop_bind.
  { unfold GenerateExamplesMain.main_labeled_coordinates,
      GenerateExamplesMain._read_labels_file.
    destruct (GenerateExamplesMain.labels_file FLAGS) as [path |];
      [destruct (truthy_str (Some path)) |]; try apply fail_stop_ret.
    apply fail_stop_bind; [now apply fail_stop_call |].
    intros df. apply fail_stop_bind; [| intros coordinates; apply fail_stop_ret].
    apply fail_stop_lift. intros e He.
    apply labels_loop_raise_kind in He as [-> | [-> | [-> | [label ->]]]]; exact I. }
  intros labeled_coordinates. apply fail_stop_bind.
  { apply fail_stop_lift. intros e He. now apply get_gdal_env_raise in He as ->. }
  intros env. apply fail_stop_bind; [now apply fail_stop_call |].
  intros _. unfold GenerateExamplesMain.main_labeling_task.
  destruct (GenerateExamplesMain.create_cloud_labeling_task FLAGS); [| apply fail_stop_ret].
  destruct (truthy_str (GenerateExamplesMain.dataset_name FLAGS)); simpl;
    [| now apply fail_stop_raise].
  apply fail_stop_bind.
  { unfold GenerateExamplesMain.main_labeler_pool.
    destruct (GenerateExamplesMain.cloud_labeler_pool FLAGS); [apply fail_stop_ret |].
    destruct (truthy_list (GenerateExamplesMain.cloud_labeler_emails FLAGS)); simpl;
      [now apply fail_stop_call | now apply fail_stop_raise]. }
  intros pool.
  destruct (GenerateExamplesMain.cloud_region FLAGS);
    [now apply fail_stop_call | now apply fail_stop_raise].
Qed.

Lemma fail_stop_task_main (FLAGS : CreateCloudLabelingTask.Flags) :
  fail_stop W (CreateCloudLabelingTask.main FLAGS W).
Proof.
  unfold CreateCloudLabelingTask.main.
  apply fail_stop_bind; [now apply fail_stop_call |].
  intros images. apply fail_stop_bind; [| intros pool; now apply fail_stop_call].
  unfold CreateCloudLabelingTask.main_labeler_pool.
  destruct (CreateCloudLabelingTask.cloud_labeler_pool FLAGS); [apply fail_stop_ret |].
  destruct (truthy_list (CreateCloudLabelingTask.cloud_labeler_emails FLAGS)); simpl;
    [now apply fail_stop_call | now apply fail_stop_raise].
Qed.

End FailStopDrivers.

(** X1. In a run of either driver no collaborator is called after a
    call that failed (no retry, no clean-up), and the driver raises a
    collaborator's exception exactly when its last call failed, with
    that call's message. *)
Theorem X1_no_call_after_failure (W : World) :
  (forall FLAGS : GenerateExamplesMain.Flags,
     let outcome := run (GenerateExamplesMain.main FLAGS W) in
     (forall before ev after,
        snd outcome = (before ++ ev :: after)%list -> is_Some (call_failure W ev) ->
        after = []) /\
     (forall msg,
        fst outcome = Raise (CollaboratorError msg) <->
        exists before ev, snd outcome = (before ++ [ev])%list /\
                          call_failure W ev = Some msg)) /\
  (forall FLAGS : CreateCloudLabelingTask.Flags,
     let outcome := run (CreateCloudLabelingTask.main FLAGS W) in
     (forall before ev after,
        snd outcome = (before ++ ev :: after)%list -> is_Some (call_failure W ev) ->
        after = []) /\
     (forall msg,
        fst outcome = Raise (CollaboratorError msg) <->
        exists before ev, snd outcome = (before ++ [ev])%list /\
                          call_failure W ev = Some msg)).
Proof.
  split; intros FLAGS; cbv zeta; unfold run.
  - destruct (fail_stop_generate_main W FLAGS []) as (evs & Ht & Hfit).
    simpl in Ht. rewrite Ht. now apply fits_last.
  - destruct (fail_stop_task_main W FLAGS []) as (evs & Ht & Hfit).
    simpl in Ht. rewrite Ht. now apply fits_last.
Qed.

(** ** How a run of [main] ends *)

Section MainEnds.

Import GenerateExamplesMain.

Variable FLAGS : Flags.
Variable W : World.

Lemma main_ends_run : main_ends FLAGS W (run (main FLAGS W)).
Proof.
  rewrite main_run.
  destruct (main_dataflow_container_image FLAGS W) as [image | e] eqn:Himage;
    [| now apply ends_image].
  destruct (main_check_sources FLAGS) as [[] | e] eqn:Hcheck;
    [| now apply (ends_sources FLAGS W image)].
  destruct (main_building_centroids FLAGS W []) as [[bc | e] t1] eqn:Hbc;
    [| now apply (ends_buildings FLAGS W image)].
  destruct (main_labeled_coordinates FLAGS W t1) as [[lc | e] t2] eqn:Hlc;
    [| now apply (ends_labels FLAGS W image bc t1)].
  destruct (_get_gdal_env FLAGS) as [env | e] eqn:Henv;
    [| now apply (ends_gdal_env FLAGS W image bc t1 lc)].
  cbv zeta.
  destruct (generate_examples_pipeline W (generation_request FLAGS bc lc env image))
    as [[] | msg] eqn:Hpipe.
  - now apply (ends_task FLAGS W image bc t1 lc t2 env).
  - now apply (ends_pipeline FLAGS W image bc t1 lc t2 env).
Qed.

Lemma building_centroids_ok (t t1 : list event) (bc : list Coordinate) :
  main_building_centroids FLAGS W t = (Ok bc, t1) ->
  (buildings_method FLAGS = BM_none /\ bc = [] /\ t1 = t) \/
  (exists aoi,
     buildings_method FLAGS = BM_file /\
     read_aois W (aoi_path FLAGS) = Returns aoi /\
     read_buildings_file W (buildings_file FLAGS) aoi = Returns bc /\
     t1 = (t ++ [EvReadAois (aoi_path FLAGS);
                 EvReadBuildingsFile (buildings_file FLAGS) aoi])%list) \/
  (exists aoi,
     buildings_method FLAGS = BM_open_street_map /\
     read_aois W (aoi_path FLAGS) = Returns aoi /\
     get_building_centroids_in_regions W aoi (overpass_url FLAGS) = Returns bc /\
     t1 = (t ++ [EvReadAois (aoi_path FLAGS);
                 EvOverpassQuery aoi (overpass_url FLAGS)])%list).
Proof.
  unfold main_building_centroids, get_building_centroids, bind, call, ret, raise.
  destruct (buildings_method FLAGS) eqn:Hm; simpl.
  - destruct (read_aois W (aoi_path FLAGS)) as [aoi | msg] eqn:Haoi; [| discriminate].
    destruct (read_buildings_file W (buildings_file FLAGS) aoi) as [bc' | msg] eqn:Hb;
      intros [= <- <-]. right; left. exists aoi. repeat split; auto using two_events.
  - destruct (read_aois W (aoi_path FLAGS)) as [aoi | msg] eqn:Haoi; [| discriminate].
    destruct (get_building_centroids_in_regions W aoi (overpass_url FLAGS))
      as [bc' | msg] eqn:Hb; intros [= <- <-]. right; right. exists aoi.
    repeat split; auto using two_events.
  - intros [= <- <-]. now left.
Qed.

Lemma read_labels_file_trace (path : string) (label_property : option string)
    (class_names : list string) (t : list event) :
  _read_labels_file FLAGS W path label_property class_names t =
  (fst (run (_read_labels_file FLAGS W path label_property class_names)),
   (t ++ [EvReadLabelsFile path])%list).
Proof.
  unfold run, _read_labels_file, bind, call, lift, ret.
  destruct (gpd_read_file_to_crs W path) as [rows | msg]; [| reflexivity].
  now destruct (labels_loop label_property class_names rows []).
Qed.

Lemma labeled_coordinates_ok (t t2 : list event) (lc : list LabeledCoordinate) :
  main_labeled_coordinates FLAGS W t = (Ok lc, t2) ->
  (truthy_str (labels_file FLAGS) = false /\ lc = [] /\ t2 = t) \/
  (exists path,
     labels_file FLAGS = Some path /\ truthy_str (labels_file FLAGS) = true /\
     fst (run (_read_labels_file FLAGS W path (label_property FLAGS)
                 (label_classes FLAGS))) = Ok lc /\
     t2 = (t ++ [EvReadLabelsFile path])%list).
Proof.
  unfold main_labeled_coordinates.
  destruct (labels_file FLAGS) as [[| c path] |] eqn:Hl; simpl;
    try (intros [= <- <-]; now left).
  rewrite read_labels_file_trace. intros [= Hrun <-].
  right. exists (String c path). now repeat split.
Qed.

End MainEnds.

(** ** The order of the calls *)

Lemma within_nothing {A} (lo hi : nat) (m : M A) :
  (forall t, snd (m t) = t) -> within lo hi m.
Proof.
  intros Hm t. exists []. rewrite app_nil_r, Hm. repeat split; constructor.
Qed.

Lemma within_call {A} (lo hi : nat) (ev : event) (a : answer A) :
  (lo <= call_rank ev < hi)%nat -> within lo hi (call ev a).
Proof.
  intros Hev t. exists [ev]. split; [reflexivity |]. split.
  - repeat constructor.
  - now repeat constructor.
Qed.

Lemma within_bind {A B} (lo mid hi : nat) (m : M A) (k : A -> M B) :
  (lo <= mid <= hi)%nat ->
  within lo mid m -> (forall a, within mid hi (k a)) -> within lo hi (bind m k).
Proof.
  intros Hmid Hm Hk t. unfold bind.
  destruct (Hm t) as (evs1 & Ht1 & Ho1 & Hr1).
  assert (Hr1' : Forall (fun ev => (lo <= call_rank ev < hi)%nat) evs1).
  { eapply Forall_impl; [exact Hr1 |]. simpl; intros ev ?; lia. }
  destruct (m t) as [[a | e] t1]; simpl in *; subst t1; [| now exists evs1].
  destruct (Hk a (t ++ evs1)%list) as (evs2 & Ht2 & Ho2 & Hr2).
  exists (evs1 ++ evs2)%list. rewrite Ht2, app_assoc. split; [reflexivity |]. split.
  - unfold in_order in *. clear Ht2 Hr1'.
    induction Ho1 as [| ev evs1 Ho1 IH Hlt]; simpl; [exact Ho2 |].
    apply Forall_cons in Hr1 as [Hev Hr1]. constructor; [now apply IH |].
    apply Forall_app. split; [exact Hlt |].
    eapply Forall_impl; [exact Hr2 |]. simpl; intros ev2 ?; lia.
  - apply Forall_app. split; [exact Hr1' |].
    eapply Forall_impl; [exact Hr2 |]. simpl; intros ev ?; lia.
Qed.

Lemma within_generate_main (FLAGS : GenerateExamplesMain.Flags) (W : World) :
  within 0 6 (GenerateExamplesMain.main FLAGS W).
Proof.
  unfold GenerateExamplesMain.main.
  apply (within_bind 0 0 6); [lia | now apply within_nothing |]. intros image.
  apply (within_bind 0 0 6); [lia | now apply within_nothing |]. intros _.
  apply (within_bind 0 2 6); [lia | |].
  { unfold GenerateExamplesMain.main_building_centroids,
      GenerateExamplesMain.get_building_centroids.
    destruct (GenerateExamplesMain.buildings_method FLAGS); simpl;
      [| | now apply within_nothing];
      (apply (within_bind 0 1 2); [lia | apply within_call; simpl; lia |]);
      intros aoi; apply within_call; simpl; lia. }
  intros building_centroids. apply (within_bind 2 3 6); [lia | |].
  { unfold GenerateExamplesMain.main_labeled_coordinates,
      GenerateExamplesMain._read_labels_file.
    destruct (GenerateExamplesMain.labels_file FLAGS) as [path |];
      [destruct (truthy_str (Some path)) |]; try now apply within_nothing.
    apply (within_bind 2 3 3); [lia | apply within_call; simpl; lia |].
    intros df. apply (within_bind 3 3 3); [lia | now apply within_nothing |].
    intros coordinates. now apply within_nothing. }
  intros labeled_coordinates.
  apply (within_bind 3 3 6); [lia | now apply within_nothing |]. intros env.
  apply (within_bind 3 4 6); [lia | apply within_call; simpl; lia |]. intros _.
  unfold GenerateExamplesMain.main_labeling_task.
  destruct (GenerateExamplesMain.create_cloud_labeling_task FLAGS);
    [| now apply within_nothing].
  destruct (truthy_str (GenerateExamplesMain.dataset_name FLAGS)); simpl;
    [| now apply within_nothing].
  apply (within_bind 4 5 6); [lia | |].
  { unfold GenerateExamplesMain.main_labeler_pool.
    destruct (GenerateExamplesMain.cloud_labeler_pool FLAGS); [now apply within_nothing |].
    destruct (truthy_list (GenerateExamplesMain.cloud_labeler_emails FLAGS)); simpl;
      [apply within_call; simpl; lia | now apply within_nothing]. }
  intros pool.
  destruct (GenerateExamplesMain.cloud_region FLAGS);
    [apply within_call; simpl; lia | now apply within_nothing].
Qed.

Lemma within_task_main (FLAGS : CreateCloudLabelingTask.Flags) (W : World) :
  within 3 6 (CreateCloudLabelingTask.main FLAGS W).
Proof.
  unfold CreateCloudLabelingTask.main.
  apply (within_bind 3 4 6); [lia | apply within_call; simpl; lia |]. intros images.
  apply (within_bind 4 5 6); [lia | | intros pool; apply within_call; simpl; lia].
  unfold CreateCloudLabelingTask.main_labeler_pool.
  destruct (CreateCloudLabelingTask.cloud_labeler_pool FLAGS); [now apply within_nothing |].
  destruct (truthy_list (CreateCloudLabelingTask.cloud_labeler_emails FLAGS)); simpl;
    [apply within_call; simpl; lia | now apply within_nothing].
Qed.

Lemma main_in_order (FLAGS : GenerateExamplesMain.Flags) (W : World) :
  in_order (snd (run (GenerateExamplesMain.main FLAGS W))).
Proof.
  destruct (within_generate_main FLAGS W []) as (evs & Ht & Ho & _).
  unfold run. now rewrite Ht.
Qed.

Lemma task_main_in_order (FLAGS : CreateCloudLabelingTask.Flags) (W : World) :
  in_order (snd (run (CreateCloudLabelingTask.main FLAGS W))).
Proof.
  destruct (within_task_main FLAGS W []) as (evs & Ht & Ho & _).
  unfold run. now rewrite Ht.
Qed.

(** X2. In a run of either driver the calls come in the order of the
    steps: area of interest, buildings, labels, pipeline (or, in
    [create_cloud_labeling_task.py], the labeling images), labeler pool,
    labeling job.  No step is called twice, and none after a later one:
    for two calls of a run, the earlier one is of a strictly earlier
    step. *)
Theorem X2_calls_in_order (W : World) :
  (forall (FLAGS : GenerateExamplesMain.Flags) before ev between ev' after,
     snd (run (GenerateExamplesMain.main FLAGS W)) =
       (before ++ ev :: between ++ ev' :: after)%list ->
     (call_rank ev < call_rank ev')%nat) /\
  (forall (FLAGS : CreateCloudLabelingTask.Flags) before ev between ev' after,
     snd (run (CreateCloudLabelingTask.main FLAGS W)) =
       (before ++ ev :: between ++ ev' :: after)%list ->
     (call_rank ev < call_rank ev')%nat).
Proof.
  assert (Hsorted : forall evs before ev between ev' after,
            in_order evs -> evs = (before ++ ev :: between ++ ev' :: after)%list ->
            (call_rank ev < call_rank ev')%nat).
  { intros evs before ev between ev' after Ho ->. unfold in_order in Ho.
    apply StronglySorted_app in Ho as (_ & _ & Ho).
    apply StronglySorted_cons in Ho as [Hall _].
    apply Forall_app in Hall as [_ Hall]. now apply Forall_cons in Hall as [Hlt _]. }
  split; intros FLAGS before ev between ev' after Heq.
  - exact (Hsorted _ before ev between ev' after (main_in_order FLAGS W) Heq).
  - exact (Hsorted _ before ev between ev' after (task_main_in_order FLAGS W) Heq).
Qed.

(** ** What the pipeline is given *)

Section PipelineRequest.

Import GenerateExamplesMain.

Variable FLAGS : Flags.
Variable W : World.

Lemma building_event_rank (ev : event) : building_event FLAGS ev -> (call_rank ev < 2)%nat.
Proof. intros [[-> _] | [(r & -> & _) | (r & -> & _)]]; simpl; lia. Qed.

Lemma labels_event_rank (ev : event) : labels_event FLAGS ev -> call_rank ev = 2%nat.
Proof. now intros (p & -> & _). Qed.

Lemma task_event_rank (ev : event) :
  pool_event FLAGS W ev \/ job_event FLAGS W ev -> (4 <= call_rank ev)%nat.
Proof. intros [(l & -> & _) | (r & p & -> & _)]; simpl; lia. Qed.

Lemma buildings_trace_rank (r : result (list Coordinate)) (t1 : list event) :
  main_building_centroids FLAGS W [] = (r, t1) ->
  Forall (fun ev => (call_rank ev < 3)%nat) t1.
Proof.
  intros H. destruct (building_centroids_events FLAGS W []) as (evs & Ht & F).
  rewrite H in Ht. simpl in Ht. subst t1.
  eapply Forall_impl; [exact F |]. intros ev Hev. apply building_event_rank in Hev. lia.
Qed.

Lemma labels_trace_rank (r : result (list LabeledCoordinate)) (t1 t2 : list event) :
  Forall (fun ev => (call_rank ev < 3)%nat) t1 ->
  main_labeled_coordinates FLAGS W t1 = (r, t2) ->
  Forall (fun ev => (call_rank ev < 3)%nat) t2.
Proof.
  intros F1 H. destruct (labeled_coordinates_events FLAGS W t1) as (evs & Ht & F).
  rewrite H in Ht. simpl in Ht. subst t2. apply Forall_app. split; [exact F1 |].
  eapply Forall_impl; [exact F |]. intros ev Hev. apply labels_event_rank in Hev. lia.
Qed.

Lemma not_in_low_ranks (t : list event) (ev : event) :
  Forall (fun ev' => (call_rank ev' < 3)%nat) t -> (3 <= call_rank ev)%nat -> ev ∉ t.
Proof.
  intros F Hev Hin. rewrite Forall_forall in F. specialize (F ev Hin). lia.
Qed.

(** A pipeline call in the trace is the one of [main]'s seventh step,
    reached after the six steps before it succeeded. *)
Lemma main_pipeline_event (req : GenerationRequest) :
  EvGenerateExamplesPipeline req ∈ snd (run (main FLAGS W)) ->
  exists image building_centroids t1 labeled_coordinates t2 env,
    main_dataflow_container_image FLAGS W = Ok image /\
    main_check_sources FLAGS = Ok tt /\
    main_building_centroids FLAGS W [] = (Ok building_centroids, t1) /\
    main_labeled_coordinates FLAGS W t1 = (Ok labeled_coordinates, t2) /\
    _get_gdal_env FLAGS = Ok env /\
    req = generation_request FLAGS building_centroids labeled_coordinates env image.
Proof.
  assert (Hrank : (3 <= call_rank (EvGenerateExamplesPipeline req))%nat) by (simpl; lia).
  destruct (main_ends_run FLAGS W)
    as [e He | image e Hi He | image e t1 Hi Hc Hb | image bc t1 e t2 Hi Hc Hb Hl
       | image bc t1 lc t2 e Hi Hc Hb Hl He | image bc t1 lc t2 env msg Hi Hc Hb Hl He Hp
       | image bc t1 lc t2 env Hi Hc Hb Hl He Hp]; simpl.
  - intros Hin. now apply elem_of_nil in Hin.
  - intros Hin. now apply elem_of_nil in Hin.
  - intros Hin. exfalso. revert Hin. apply not_in_low_ranks; [| exact Hrank].
    eapply buildings_trace_rank; eauto.
  - intros Hin. exfalso. revert Hin. apply not_in_low_ranks; [| exact Hrank].
    eapply labels_trace_rank; [| eauto]. eapply buildings_trace_rank; eauto.
  - intros Hin. exfalso. revert Hin. apply not_in_low_ranks; [| exact Hrank].
    eapply labels_trace_rank; [| eauto]. eapply buildings_trace_rank; eauto.
  - rewrite elem_of_app, list_elem_of_singleton. intros [Hin | [= ->]].
    + exfalso. revert Hin. apply not_in_low_ranks; [| exact Hrank].
      eapply labels_trace_rank; [| eauto]. eapply buildings_trace_rank; eauto.
    + exists image, bc, t1, lc, t2, env. now repeat split.
  - destruct (labeling_task_events FLAGS W
                (t2 ++ [EvGenerateExamplesPipeline
                          (generation_request FLAGS bc lc env image)]))
      as (evs & -> & F).
    rewrite !elem_of_app, list_elem_of_singleton. intros [[Hin | [= ->]] | Hin].
    + exfalso. revert Hin. apply not_in_low_ranks; [| exact Hrank].
      eapply labels_trace_rank; [| eauto]. eapply buildings_trace_rank; eauto.
    + exists image, bc, t1, lc, t2, env. now repeat split.
    + rewrite Forall_forall in F. specialize (F _ Hin).
      destruct F as [(l & H & _) | (r & p & H & _)]; discriminate.
Qed.

End PipelineRequest.

(** X3. Whenever the pipeline is called, its arguments are the flags,
    the image that the Dataflow check resolved, the parsed GDAL
    settings, the building centroids that the reader of the configured
    mode returned for the polygons of the area of interest (none under
    mode [none]), and the coordinates that [_read_labels_file] returned
    for the labels file (none without a labels file). *)
Theorem X3_pipeline_request (FLAGS : GenerateExamplesMain.Flags) (W : World)
    (req : GenerationRequest) :
  EvGenerateExamplesPipeline req ∈ snd (run (GenerateExamplesMain.main FLAGS W)) ->
  let centroids := req_building_centroids req in
  let labeled := req_labeled_coordinates req in
  req = GenerateExamplesMain.generation_request FLAGS centroids labeled
          (req_gdal_env req) (req_dataflow_container_image req) /\
  GenerateExamplesMain.main_dataflow_container_image FLAGS W =
    Ok (req_dataflow_container_image req) /\
  GenerateExamplesMain._get_gdal_env FLAGS = Ok (req_gdal_env req) /\
  ((GenerateExamplesMain.buildings_method FLAGS = GenerateExamplesMain.BM_none /\
    centroids = []) \/
   (exists aoi,
      GenerateExamplesMain.buildings_method FLAGS = GenerateExamplesMain.BM_file /\
      read_aois W (GenerateExamplesMain.aoi_path FLAGS) = Returns aoi /\
      read_buildings_file W (GenerateExamplesMain.buildings_file FLAGS) aoi =
        Returns centroids) \/
   (exists aoi,
      GenerateExamplesMain.buildings_method FLAGS =
        GenerateExamplesMain.BM_open_street_map /\
      read_aois W (GenerateExamplesMain.aoi_path FLAGS) = Returns aoi /\
      get_building_centroids_in_regions W aoi (GenerateExamplesMain.overpass_url FLAGS) =
        Returns centroids)) /\
  ((truthy_str (GenerateExamplesMain.labels_file FLAGS) = false /\ labeled = []) \/
   (exists path,
      GenerateExamplesMain.labels_file FLAGS = Some path /\
      fst (run (GenerateExamplesMain._read_labels_file FLAGS W path
                  (GenerateExamplesMain.label_property FLAGS)
                  (GenerateExamplesMain.label_classes FLAGS))) = Ok labeled)).
Proof.
  intros Hin.
  apply main_pipeline_event in Hin
    as (image & bc & t1 & lc & t2 & env & Hi & Hc & Hb & Hl & He & ->).
  cbv zeta. simpl. repeat split; try assumption.
  - apply building_centroids_ok in Hb
      as [(Hm & -> & _) | [(aoi & Hm & Ha & Hr & _) | (aoi & Hm & Ha & Hr & _)]];
      eauto 10.
  - apply labeled_coordinates_ok in Hl as [(Ht & -> & _) | (path & Hp & _ & Hr & _)];
      eauto 10.
Qed.

(** A run on Python 3.8 with Dataflow and no image: the pipeline gets
    the default image of 3.8; the GDAL settings arrive parsed, mode
    [none] gives no centroids, and the five rows give five labeled
    coordinates. *)
Lemma X3_sample_request :
  let FLAGS := Samples.flags GenerateExamplesMain.BM_none (Some "labels.geojson")
                 (Some 1000) true None ["GDAL_CACHEMAX=512"] false None None None in
  let W := Samples.world "3.8.10" Samples.now Samples.five_rows in
  let req := GenerateExamplesMain.generation_request FLAGS []
               (valid_coordinates (Some "Main_Damag") ["undamaged"; "damaged"]
                  Samples.five_rows)
               {["GDAL_CACHEMAX" := "512"]}
               (Some "gcr.io/disaster-assessment/dataflow_3.8_image:latest") in
  EvGenerateExamplesPipeline req ∈ snd (run (GenerateExamplesMain.main FLAGS W)) /\
  GenerateExamplesMain.main_dataflow_container_image FLAGS W =
    Ok (req_dataflow_container_image req).
Proof.
  cbv zeta.
  assert (Hin : EvGenerateExamplesPipeline
                  (GenerateExamplesMain.generation_request
                     (Samples.flags GenerateExamplesMain.BM_none (Some "labels.geojson")
                        (Some 1000) true None ["GDAL_CACHEMAX=512"] false None None None)
                     []
                     (valid_coordinates (Some "Main_Damag") ["undamaged"; "damaged"]
                        Samples.five_rows)
                     {["GDAL_CACHEMAX" := "512"]}
                     (Some "gcr.io/disaster-assessment/dataflow_3.8_image:latest"))
                ∈ snd (run (GenerateExamplesMain.main
                              (Samples.flags GenerateExamplesMain.BM_none
                                 (Some "labels.geojson") (Some 1000) true None
                                 ["GDAL_CACHEMAX=512"] false None None None)
                              (Samples.world "3.8.10" Samples.now Samples.five_rows)))).
  { vm_compute. right. left. }
  split; [exact Hin |].
  exact (proj1 (proj2 (X3_pipeline_request _ _ _ Hin))).
Defined.

(** ** More on label ingestion *)

Lemma labels_loop_first_raise (label_property : option string) (class_names : list string)
    (pre post : list Row) (row : Row) (e : exn) :
  Forall (fun r => is_ok (GenerateExamplesMain.labels_row label_property class_names r)
                   = true) pre ->
  GenerateExamplesMain.labels_row label_property class_names row = Raise e ->
  forall acc,
    GenerateExamplesMain.labels_loop label_property class_names (pre ++ row :: post) acc =
    Raise e.
Proof.
  intros Hpre Hrow. induction Hpre as [| r pre Hr _ IH]; intros acc; simpl.
  - now rewrite Hrow.
  - destruct (GenerateExamplesMain.labels_row label_property class_names r) as [[c |] | e'];
      [apply IH | apply IH | discriminate].
Qed.

Lemma labels_loop_ok_inv (label_property : option string) (class_names : list string)
    (rows : list Row) :
  forall acc out,
    GenerateExamplesMain.labels_loop label_property class_names rows acc = Ok out ->
    Forall (fun r => is_ok (GenerateExamplesMain.labels_row label_property class_names r)
                     = true) rows /\
    out = (acc ++ valid_coordinates label_property class_names rows)%list.
Proof.
  unfold valid_coordinates.
  induction rows as [| row rows IH]; intros acc out; simpl.
  - intros [= <-]. rewrite app_nil_r. split; [constructor | reflexivity].
  - unfold valid_coordinate at 1.
    destruct (GenerateExamplesMain.labels_row label_property class_names row)
      as [[c |] | e] eqn:Hrow; simpl; [| | discriminate]; intros Hloop;
      destruct (IH _ _ Hloop) as [Hall ->]; split;
      try (constructor; [now rewrite Hrow | exact Hall]).
    + now rewrite <- app_assoc.
    + reflexivity.
Qed.

Lemma valid_coordinates_from_rows (label_property : option string)
    (class_names : list string) (rows : list Row) (c : LabeledCoordinate) :
  c ∈ valid_coordinates label_property class_names rows ->
  exists row, row ∈ rows /\
              GenerateExamplesMain.labels_row label_property class_names row = Ok (Some c).
Proof.
  unfold valid_coordinates. rewrite list_elem_of_omap.
  intros (row & Hin & Hrow). exists row. split; [exact Hin |].
  unfold valid_coordinate in Hrow.
  destruct (GenerateExamplesMain.labels_row label_property class_names row)
    as [[c' |] | e]; congruence.
Qed.

Lemma valid_coordinates_length (label_property : option string)
    (class_names : list string) (rows : list Row) :
  (length (valid_coordinates label_property class_names rows) <= length rows)%nat.
Proof.
  unfold valid_coordinates. induction rows as [| row rows IH]; [simpl; lia |].
  change (omap (valid_coordinate label_property class_names) (row :: rows))
    with (match valid_coordinate label_property class_names row with
          | Some c => c :: omap (valid_coordinate label_property class_names) rows
          | None => omap (valid_coordinate label_property class_names) rows
          end).
  destruct (valid_coordinate label_property class_names row); simpl length; lia.
Qed.

Lemma labels_row_centroid (label_property : option string) (class_names : list string)
    (row : Row) (x y l : float) :
  GenerateExamplesMain.labels_row label_property class_names row = Ok (Some (x, y, l)) ->
  GenerateExamplesMain.row_centroid row = Ok (x, y).
Proof.
  unfold GenerateExamplesMain.labels_row.
  destruct (GenerateExamplesMain.row_centroid row) as [[cx cy] | e]; [| discriminate].
  repeat step; intros [= <- <- <-]; auto; discriminate.
Qed.

(** X4. The first row whose label cannot be resolved decides: when the
    rows before it resolve (to a coordinate or to a skip) and it raises
    [e], [_read_labels_file] raises [e] after the one read of the file,
    whatever rows follow and whatever the keep count; nothing of the
    rows before it is returned. *)
Theorem X4_first_bad_row (FLAGS : GenerateExamplesMain.Flags) (W : World) (path : string)
    (label_property : option string) (class_names : list string)
    (pre post : list Row) (row : Row) (e : exn) :
  gpd_read_file_to_crs W path = Returns (pre ++ row :: post)%list ->
  Forall (fun r => is_ok (GenerateExamplesMain.labels_row label_property class_names r)
                   = true) pre ->
  GenerateExamplesMain.labels_row label_property class_names row = Raise e ->
  run (GenerateExamplesMain._read_labels_file FLAGS W path label_property class_names) =
    (Raise e, [EvReadLabelsFile path]).
Proof.
  intros Hread Hpre Hrow.
  unfold run, GenerateExamplesMain._read_labels_file, bind, call, lift, ret.
  rewrite Hread. simpl.
  now rewrite (labels_loop_first_raise _ _ pre post row e Hpre Hrow).
Qed.

(** A file whose second row has no label and whose third has a list:
    the type of the second row is the one reported. *)
Lemma X4_sample_bad_rows :
  let FLAGS := Samples.flags GenerateExamplesMain.BM_none (Some "labels.geojson")
                 (Some 1000) false None [] false None None None in
  let rows := [Samples.point 1 1 (PyStr "damaged"); Samples.point 2 2 PyNone;
               Samples.point 3 3 (PyOther "list")] in
  run (GenerateExamplesMain._read_labels_file FLAGS
         (Samples.world "3.8.10" Samples.now rows) "labels.geojson"
         (Some "Main_Damag") ["undamaged"; "damaged"]) =
    (Raise (ValueError (msg_unrecognized_label PyNone)), [EvReadLabelsFile "labels.geojson"]).
Proof.
  cbv zeta.
  apply (X4_first_bad_row _ _ "labels.geojson" (Some "Main_Damag") ["undamaged"; "damaged"]
           [Samples.point 1 1 (PyStr "damaged")] [Samples.point 3 3 (PyOther "list")]
           (Samples.point 2 2 PyNone)).
  - reflexivity.
  - repeat constructor.
  - reflexivity.
Defined.

(** X5. When [_read_labels_file] returns, no row of the file raised;
    its output is no longer than the file; and every coordinate of the
    output is the centroid of a row of the file together with the label
    that the row resolves to. *)
Theorem X5_output_from_rows (FLAGS : GenerateExamplesMain.Flags) (W : World) (path : string)
    (label_property : option string) (class_names : list string)
    (rows : list Row) (out : list LabeledCoordinate) :
  gpd_read_file_to_crs W path = Returns rows ->
  fst (run (GenerateExamplesMain._read_labels_file FLAGS W path label_property class_names))
    = Ok out ->
  Forall (fun r => is_ok (GenerateExamplesMain.labels_row label_property class_names r)
                   = true) rows /\
  (length out <= length rows)%nat /\
  out `prefix_of` valid_coordinates label_property class_names rows /\
  (forall x y l, (x, y, l) ∈ out ->
     exists row, row ∈ rows /\ GenerateExamplesMain.row_centroid row = Ok (x, y) /\
                 GenerateExamplesMain.labels_row label_property class_names row =
                   Ok (Some (x, y, l))).
Proof.
  intros Hread Hout.
  unfold run, GenerateExamplesMain._read_labels_file, bind, call, lift, ret in Hout.
  rewrite Hread in Hout. simpl in Hout.
  destruct (GenerateExamplesMain.labels_loop label_property class_names rows [])
    as [all | e] eqn:Hloop; [| discriminate].
  apply labels_loop_ok_inv in Hloop as [Hall ->]. simpl in Hout.
  injection Hout as <-.
  set (all := valid_coordinates label_property class_names rows).
  assert (Hprefix :
            (if truthy_int (GenerateExamplesMain.num_keep_labeled_examples FLAGS)
             then match GenerateExamplesMain.num_keep_labeled_examples FLAGS with
                  | Some n => py_slice_to all n
                  | None => all
                  end
             else all) `prefix_of` all).
  { destruct (truthy_int _); [| reflexivity].
    destruct (GenerateExamplesMain.num_keep_labeled_examples FLAGS);
      [apply py_slice_to_prefix | reflexivity]. }
  split; [exact Hall |]. split; [| split; [exact Hprefix |]].
  - apply prefix_length in Hprefix. etransitivity; [exact Hprefix |].
    subst all. apply valid_coordinates_length.
  - intros x y l Hin.
    destruct Hprefix as [rest Hrest].
    assert (Hin' : (x, y, l) ∈ all) by (rewrite Hrest; apply elem_of_app; now left).
    apply valid_coordinates_from_rows in Hin' as (row & Hrow & Hres).
    pose proof (labels_row_centroid _ _ _ _ _ _ Hres) as Hcentroid. eauto.
Qed.

Lemma X5_sample_output :
  let FLAGS := Samples.flags GenerateExamplesMain.BM_none (Some "labels.geojson")
                 (Some 2) false None [] false None None None in
  let W := Samples.world "3.8.10" Samples.now Samples.five_rows in
  (length [(Zfloat 1, Zfloat 1, float_1_0); (Zfloat 2, Zfloat 2, Zfloat 0)]
     <= length Samples.five_rows)%nat.
Proof.
  cbv zeta.
  exact (proj1 (proj2
    (X5_output_from_rows
       (Samples.flags GenerateExamplesMain.BM_none (Some "labels.geojson")
          (Some 2) false None [] false None None None)
       (Samples.world "3.8.10" Samples.now Samples.five_rows)
       "labels.geojson" (Some "Main_Damag") ["undamaged"; "damaged"] Samples.five_rows
       [(Zfloat 1, Zfloat 1, float_1_0); (Zfloat 2, Zfloat 2, Zfloat 0)]
       eq_refl ltac:(vm_compute; reflexivity)))).
Defined.

(** X6. A negative keep count [n] does not mean "keep nothing" or "keep
    all": the output is the valid coordinates without their last [-n]
    ones, and is empty when there are at most [-n] of them. *)
Theorem X6_negative_keep_count (FLAGS : GenerateExamplesMain.Flags) (W : World)
    (path : string) (label_property : option string) (class_names : list string)
    (rows : list Row) (n : Z) :
  gpd_read_file_to_crs W path = Returns rows ->
  Forall (fun r => is_ok (GenerateExamplesMain.labels_row label_property class_names r)
                   = true) rows ->
  GenerateExamplesMain.num_keep_labeled_examples FLAGS = Some n -> n < 0 ->
  let all := valid_coordinates label_property class_names rows in
  let out := fst (run (GenerateExamplesMain._read_labels_file
                         FLAGS W path label_property class_names)) in
  out = Ok (take (length all - Z.to_nat (- n)) all) /\
  (forall kept, out = Ok kept ->
     length kept = (length all - Z.to_nat (- n))%nat /\
     (Z.of_nat (length all) <= - n -> kept = [])).
Proof.
  intros Hread Hrows Hkeep Hn all out. subst out.
  rewrite (read_labels_file_run FLAGS W path label_property class_names rows Hread Hrows).
  cbv zeta. fold all. rewrite Hkeep. cbn [fst].
  destruct (Z.eqb_spec n 0); [lia |].
  unfold py_slice_to. destruct (Z.ltb_spec n 0); [| lia].
  replace (Z.to_nat (Z.of_nat (length all) + n)) with (length all - Z.to_nat (- n))%nat
    by lia.
  split; [reflexivity |]. intros kept [= <-]. split.
  - rewrite length_take. lia.
  - intros Hfew. replace (length all - Z.to_nat (- n))%nat with 0%nat by lia. reflexivity.
Qed.

Lemma X6_sample_negative :
  let FLAGS := Samples.flags GenerateExamplesMain.BM_none (Some "labels.geojson")
                 (Some (-2)) false None [] false None None None in
  let W := Samples.world "3.8.10" Samples.now Samples.five_rows in
  fst (run (GenerateExamplesMain._read_labels_file FLAGS W "labels.geojson"
              (Some "Main_Damag") ["undamaged"; "damaged"])) =
    Ok (take 3 (valid_coordinates (Some "Main_Damag") ["undamaged"; "damaged"]
                  Samples.five_rows)).
Proof.
  cbv zeta.
  exact (proj1 (X6_negative_keep_count
                  (Samples.flags GenerateExamplesMain.BM_none (Some "labels.geojson")
                     (Some (-2)) false None [] false None None None)
                  (Samples.world "3.8.10" Samples.now Samples.five_rows)
                  "labels.geojson" (Some "Main_Damag") ["undamaged"; "damaged"]
                  Samples.five_rows (-2) eq_refl ltac:(repeat constructor) eq_refl
                  ltac:(lia))).
Defined.

(** ** More on the GDAL settings *)

Lemma partition_char_first (c : ascii) (s : string) :
  contains_char c s = true ->
  exists k v, partition_char c s = (k, true, v) /\ s = k +:+ String c v /\
              contains_char c k = false.
Proof.
  induction s as [| d s IH]; simpl; [discriminate |].
  destruct (Ascii.eqb_spec d c) as [-> | Hne].
  - intros _. exists EmptyString, s. now repeat split.
  - intros Hs. destruct (IH Hs) as (k & v & Hp & -> & Hk). rewrite Hp.
    exists (String d k), v. repeat split. simpl.
    destruct (Ascii.eqb_spec d c); [contradiction | exact Hk].
Qed.

(** X7. A setting that holds [=] is split at its first [=]: the
    variable holds no [=], the value is everything after that first [=]
    (further [=] included), and variable, [=] and value put together
    give the setting back. *)
Theorem X7_setting_split (setting : string) :
  contains_char "=" setting = true ->
  setting = setting_key setting +:+ "=" +:+ setting_value setting /\
  contains_char "=" (setting_key setting) = false /\
  (forall k v, contains_char "=" k = false -> setting = k +:+ "=" +:+ v ->
     k = setting_key setting /\ v = setting_value setting).
Proof.
  intros Hs. unfold setting_key, setting_value.
  destruct (partition_char_first "=" setting Hs) as (k & v & Hp & Heq & Hk).
  rewrite Hp. simpl. split; [exact Heq | split; [exact Hk |]].
  intros k' v' Hk' Hsplit. rewrite Hsplit in Hp.
  change ("=" +:+ v') with (String "=" v') in Hp.
  rewrite (partition_char_setting k' v' Hk') in Hp.
  injection Hp as -> ->. now split.
Qed.

Lemma X7_sample_split :
  setting_key "CPL_VSIL_CURL_ALLOWED_EXTENSIONS=a=b" = "CPL_VSIL_CURL_ALLOWED_EXTENSIONS" /\
  setting_value "CPL_VSIL_CURL_ALLOWED_EXTENSIONS=a=b" = "a=b" /\
  contains_char "=" (setting_key "CPL_VSIL_CURL_ALLOWED_EXTENSIONS=a=b") = false.
Proof.
  split; [reflexivity | split; [reflexivity |]].
  exact (proj1 (proj2 (X7_setting_split "CPL_VSIL_CURL_ALLOWED_EXTENSIONS=a=b" eq_refl))).
Defined.

Lemma assign_settings_size (settings : list string) :
  forall env : gmap string string,
    (size (assign_settings env settings) <= size env + length settings)%nat /\
    (NoDup (setting_key <$> settings) ->
     (forall setting, setting ∈ settings -> env !! setting_key setting = None) ->
     size (assign_settings env settings) = (size env + length settings)%nat).
Proof.
  unfold assign_settings.
  induction settings as [| setting settings IH]; intros env; simpl.
  - split; [lia | intros _ _; lia].
  - destruct (IH (<[setting_key setting := setting_value setting]> env)) as [Hle Heq].
    assert (Hins : (size (<[setting_key setting := setting_value setting]> env)
                    <= S (size env))%nat).
    { destruct (env !! setting_key setting) as [v |] eqn:Hk.
      - rewrite map_size_insert_Some by eauto. lia.
      - rewrite map_size_insert_None by exact Hk. lia. }
    split; [lia |].
    intros Hnodup Hfresh.
    apply NoDup_cons in Hnodup as [Hnot Hnodup].
    rewrite Heq.
    + rewrite map_size_insert_None; [lia |]. apply Hfresh. now left.
    + exact Hnodup.
    + intros s Hs. rewrite lookup_insert_ne.
      * apply Hfresh. now right.
      * intros Hk. apply Hnot. rewrite Hk. apply list_elem_of_fmap. eauto.
Qed.

(** X8. The dictionary that [_get_gdal_env] returns never has more
    bindings than the flag has settings.  When the variables of the
    settings are pairwise different it has exactly as many, and every
    setting's variable is bound to that setting's value. *)
Theorem X8_gdal_env_size (FLAGS : GenerateExamplesMain.Flags) (env : gmap string string) :
  GenerateExamplesMain._get_gdal_env FLAGS = Ok env ->
  let settings := GenerateExamplesMain.gdal_env FLAGS in
  (size env <= length settings)%nat /\
  (NoDup (setting_key <$> settings) ->
   size env = length settings /\
   forall setting, setting ∈ settings ->
                   env !! setting_key setting = Some (setting_value setting)).
Proof.
  intros Henv settings. subst settings.
  unfold GenerateExamplesMain._get_gdal_env in Henv.
  assert (Hassign : env = assign_settings ∅ (GenerateExamplesMain.gdal_env FLAGS)).
  { destruct (settings_all_or_some (GenerateExamplesMain.gdal_env FLAGS)) as [Hall | Hsome].
    - rewrite (gdal_env_loop_ok _ Hall) in Henv. congruence.
    - destruct (gdal_env_loop_raise _ Hsome ∅) as [msg Hmsg]. congruence. }
  subst env.
  destruct (assign_settings_size (GenerateExamplesMain.gdal_env FLAGS) ∅) as [Hle Heq].
  rewrite map_size_empty in Hle, Heq. split; [lia |].
  intros Hnodup. split.
  - rewrite Heq; [lia | exact Hnodup | intros s _; apply lookup_empty].
  - intros setting Hin.
    apply list_elem_of_split in Hin as (pre & post & Hsplit). rewrite Hsplit.
    apply assign_settings_last.
    intros later Hlater Hkey. rewrite Hsplit, fmap_app, fmap_cons in Hnodup.
    apply NoDup_app in Hnodup as (_ & _ & Hnodup).
    apply NoDup_cons in Hnodup as [Hnot _].
    apply Hnot. rewrite <- Hkey. apply list_elem_of_fmap. eauto.
Qed.

Lemma X8_sample_sizes :
  let repeated := Samples.flags GenerateExamplesMain.BM_file None None false None
                    ["A=1"; "B=2"; "A=3"] false None None None in
  GenerateExamplesMain._get_gdal_env repeated = Ok (<["B" := "2"]> {["A" := "3"]}) /\
  (size (<["B" := "2"]> ({["A" := "3"]} : gmap string string)) <= 3)%nat.
Proof.
  cbv zeta.
  assert (Henv : GenerateExamplesMain._get_gdal_env
                   (Samples.flags GenerateExamplesMain.BM_file None None false None
                      ["A=1"; "B=2"; "A=3"] false None None None) =
                 Ok (<["B" := "2"]> {["A" := "3"]})) by (vm_compute; reflexivity).
  split; [exact Henv |].
  exact (proj1 (X8_gdal_env_size _ _ Henv)).
Defined.

(** ** Where in the run the later checks happen *)

Lemma gdal_env_malformed (FLAGS : GenerateExamplesMain.Flags) :
  (exists setting, setting ∈ GenerateExamplesMain.gdal_env FLAGS /\
                   contains_char "=" setting = false) ->
  GenerateExamplesMain._get_gdal_env FLAGS = Raise (ValueError msg_gdal_env).
Proof.
  intros (setting & Hin & Hno).
  destruct (gdal_env_loop_raise (GenerateExamplesMain.gdal_env FLAGS)) with (env := (∅ : gmap string string))
    as [msg Hmsg]; [apply Exists_exists; eauto |].
  unfold GenerateExamplesMain._get_gdal_env. rewrite Hmsg.
  apply get_gdal_env_raise in Hmsg. congruence.
Qed.

(** X9. A GDAL setting without [=] is found only after the area of
    interest, the buildings and the labels have been read: when those
    steps succeed, [main] then raises the GDAL error with their calls
    made.  With such a setting [main] always ends in an exception, and
    the pipeline, the labeler pool and the labeling job are never
    reached. *)
Theorem X9_malformed_setting (FLAGS : GenerateExamplesMain.Flags) (W : World) :
  (exists setting, setting ∈ GenerateExamplesMain.gdal_env FLAGS /\
                   contains_char "=" setting = false) ->
  let outcome := run (GenerateExamplesMain.main FLAGS W) in
  (exists e, fst outcome = Raise e) /\
  Forall (fun ev => (call_rank ev < 3)%nat) (snd outcome) /\
  (forall image building_centroids t1 labeled_coordinates t2,
     GenerateExamplesMain.main_dataflow_container_image FLAGS W = Ok image ->
     GenerateExamplesMain.main_check_sources FLAGS = Ok tt ->
     GenerateExamplesMain.main_building_centroids FLAGS W [] = (Ok building_centroids, t1) ->
     GenerateExamplesMain.main_labeled_coordinates FLAGS W t1 =
       (Ok labeled_coordinates, t2) ->
     outcome = (Raise (ValueError msg_gdal_env), t2)).
Proof.
  intros Hbad. apply gdal_env_malformed in Hbad. cbv zeta.
  split; [| split].
  - destruct (main_ends_run FLAGS W)
      as [e He | image e Hi He | image e t1 Hi Hc Hb | image bc t1 e t2 Hi Hc Hb Hl
         | image bc t1 lc t2 e Hi Hc Hb Hl He | image bc t1 lc t2 env msg Hi Hc Hb Hl He Hp
         | image bc t1 lc t2 env Hi Hc Hb Hl He Hp]; simpl; eauto; congruence.
  - destruct (main_ends_run FLAGS W)
      as [e He | image e Hi He | image e t1 Hi Hc Hb | image bc t1 e t2 Hi Hc Hb Hl
         | image bc t1 lc t2 e Hi Hc Hb Hl He | image bc t1 lc t2 env msg Hi Hc Hb Hl He Hp
         | image bc t1 lc t2 env Hi Hc Hb Hl He Hp]; simpl; try constructor;
      try congruence.
    + eapply buildings_trace_rank; eauto.
    + eapply labels_trace_rank; [| eauto]. eapply buildings_trace_rank; eauto.
    + eapply labels_trace_rank; [| eauto]. eapply buildings_trace_rank; eauto.
  - intros image bc t1 lc t2 Hi Hc Hb Hl.
    rewrite main_run, Hi, Hc, Hb, Hl, Hbad. reflexivity.
Qed.

Lemma X9_sample_bad_setting :
  let FLAGS := Samples.flags GenerateExamplesMain.BM_file (Some "labels.geojson")
                 (Some 1000) false None ["GDAL_CACHEMAX"] false None None None in
  let W := Samples.world "3.8.10" Samples.now Samples.five_rows in
  run (GenerateExamplesMain.main FLAGS W) =
    (Raise (ValueError msg_gdal_env),
     [EvReadAois (Some "aoi.geojson"); EvReadBuildingsFile (Some "buildings.csv") [];
      EvReadLabelsFile "labels.geojson"]).
Proof.
  cbv zeta.
  refine (proj2 (proj2 (X9_malformed_setting
                          (Samples.flags GenerateExamplesMain.BM_file
                             (Some "labels.geojson") (Some 1000) false None
                             ["GDAL_CACHEMAX"] false None None None)
                          (Samples.world "3.8.10" Samples.now Samples.five_rows) _))
            None [] _
            (valid_coordinates (Some "Main_Damag") ["undamaged"; "damaged"]
               Samples.five_rows) _ eq_refl eq_refl eq_refl _).
  - exists "GDAL_CACHEMAX". split; [now left | reflexivity].
  - vm_compute. reflexivity.
Defined.

(** ** The run of [create_cloud_labeling_task.py] *)

(** X10. In every run of the [main] of [create_cloud_labeling_task.py]
    the labeling images are created first, before the labeler pool is
    looked at.  The only exceptions the driver raises are the missing
    email error and the failures of its collaborators; the email error
    is raised exactly when the images were created, no pool is
    configured and the email list is unset or empty, and then the images
    are the only call made.  Every labeling job is created with the
    import file the image step returned and with the configured pool,
    or, without one, with the pool the pool creation returned. *)
Theorem X10_task_main_data_flow (FLAGS : CreateCloudLabelingTask.Flags) (W : World) :
  let outcome := run (CreateCloudLabelingTask.main FLAGS W) in
  let images :=
    create_labeling_images W (CreateCloudLabelingTask.examples_pattern FLAGS)
      (CreateCloudLabelingTask.max_images FLAGS) (CreateCloudLabelingTask.images_dir FLAGS) in
  (exists rest,
     snd outcome =
       EvCreateLabelingImages (CreateCloudLabelingTask.examples_pattern FLAGS)
         (CreateCloudLabelingTask.max_images FLAGS)
         (CreateCloudLabelingTask.images_dir FLAGS) :: rest) /\
  (forall e, fst outcome = Raise e ->
     e = ValueError msg_labeler_email \/ exists msg, e = CollaboratorError msg) /\
  (fst outcome = Raise (ValueError msg_labeler_email) <->
     (exists result, images = Returns result) /\
     CreateCloudLabelingTask.cloud_labeler_pool FLAGS = None /\
     truthy_list (CreateCloudLabelingTask.cloud_labeler_emails FLAGS) = false) /\
  (fst outcome = Raise (ValueError msg_labeler_email) ->
     snd outcome =
       [EvCreateLabelingImages (CreateCloudLabelingTask.examples_pattern FLAGS)
          (CreateCloudLabelingTask.max_images FLAGS)
          (CreateCloudLabelingTask.images_dir FLAGS)]) /\
  (forall project region dataset pool import_file instructions schema,
     EvCreateCloudLabelingJob project region dataset pool import_file instructions schema
       ∈ snd outcome ->
     (exists count, images = Returns (count, import_file)) /\
     (CreateCloudLabelingTask.cloud_labeler_pool FLAGS = Some pool \/
      CreateCloudLabelingTask.cloud_labeler_pool FLAGS = None /\
      exists emails,
        CreateCloudLabelingTask.cloud_labeler_emails FLAGS = Some emails /\
        create_specialist_pool W (Some (CreateCloudLabelingTask.cloud_project FLAGS))
          (Some (CreateCloudLabelingTask.cloud_location FLAGS)) (dataset +:+ "_pool")
          (firstn 1 emails) emails = Returns pool)).
Proof.
  cbv zeta.
  unfold run, CreateCloudLabelingTask.main, CreateCloudLabelingTask.main_labeler_pool,
    bind, call, ret, raise.
  destruct (create_labeling_images W _ _ _) as [[count path] | msg] eqn:Himages; simpl.
  - destruct (CreateCloudLabelingTask.cloud_labeler_pool FLAGS) as [pool |] eqn:Hp; simpl.
    + split; [eauto |]. split; [| split; [| split]].
      * intros e. destruct (create_cloud_labeling_job W _ _ _ _ _ _ _); [discriminate |].
        intros [= <-]. eauto.
      * split; [| intros (_ & [=] & _)].
        destruct (create_cloud_labeling_job W _ _ _ _ _ _ _); discriminate.
      * destruct (create_cloud_labeling_job W _ _ _ _ _ _ _); discriminate.
      * intros p r d q i ins sch Hin. members Hin; try discriminate; injection Hin as ? ? ? ? ? ? ?; subst. eauto.
    + destruct (CreateCloudLabelingTask.cloud_labeler_emails FLAGS)
        as [[| email emails] |] eqn:He; simpl.
      * split; [eauto |]. split; [intros e [= <-]; auto |].
        split; [split; [intros _; repeat split; eauto | reflexivity] |].
        split; [reflexivity |].
        intros p r d q i ins sch Hin. members Hin; discriminate.
      * destruct (create_specialist_pool W _ _ _ _ _) as [pool | msg] eqn:Hpool; simpl.
        -- split; [eauto |]. split; [| split; [| split]].
           ++ intros e. destruct (create_cloud_labeling_job W _ _ _ _ _ _ _); [discriminate |].
              intros [= <-]. eauto.
           ++ split; [| intros (_ & _ & [=])].
              destruct (create_cloud_labeling_job W _ _ _ _ _ _ _); discriminate.
           ++ destruct (create_cloud_labeling_job W _ _ _ _ _ _ _); discriminate.
           ++ intros p r d q i ins sch Hin. members Hin; try discriminate; injection Hin as ? ? ? ? ? ? ?; subst.
              split; [eauto |]. right. split; [reflexivity |].
              exists (email :: emails). split; [reflexivity | exact Hpool].
        -- split; [eauto |]. split; [intros e [= <-]; eauto |].
           split; [split; [discriminate | intros (_ & _ & [=])] |].
           split; [discriminate |].
           intros p r d q i ins sch Hin. members Hin; try discriminate; injection Hin as ? ? ? ? ? ? ?; subst.
      * split; [eauto |]. split; [intros e [= <-]; auto |].
        split; [split; [intros _; repeat split; eauto | reflexivity] |].
        split; [reflexivity |].
        intros p r d q i ins sch Hin. members Hin; discriminate.
  - split; [eauto |]. split; [intros e [= <-]; eauto |].
    split; [split; [discriminate | intros ([result [=]] & _)] |].
    split; [discriminate |].
    intros p r d q i ins sch Hin. members Hin; try discriminate; injection Hin as ? ? ? ? ? ? ?; subst.
Qed.

(** X11. The [main] of [create_cloud_labeling_task.py] does not check
    the dataset name.  When the flag is unset the run never raises the
    dataset-name error of the other driver; every labeling job is named
    [None_] followed by the time stamp and every pool that name followed
    by [_pool]; and with a configured pool and the images created, the
    job with that name is requested. *)
Theorem X11_task_unset_name (FLAGS : CreateCloudLabelingTask.Flags) (W : World) :
  CreateCloudLabelingTask.dataset_name FLAGS = None ->
  let outcome := run (CreateCloudLabelingTask.main FLAGS W) in
  let name := "None_" +:+ strftime_Ymd_HMS (localtime W) in
  (fst outcome = Raise (ValueError msg_dataset_name) -> False) /\
  (forall project region dataset pool import_file instructions schema,
     EvCreateCloudLabelingJob project region dataset pool import_file instructions schema
       ∈ snd outcome -> dataset = name) /\
  (forall project region display managers members,
     EvCreateSpecialistPool project region display managers members ∈ snd outcome ->
     display = name +:+ "_pool") /\
  (forall pool count import_file,
     CreateCloudLabelingTask.cloud_labeler_pool FLAGS = Some pool ->
     create_labeling_images W (CreateCloudLabelingTask.examples_pattern FLAGS)
       (CreateCloudLabelingTask.max_images FLAGS)
       (CreateCloudLabelingTask.images_dir FLAGS) = Returns (count, import_file) ->
     EvCreateCloudLabelingJob (Some (CreateCloudLabelingTask.cloud_project FLAGS))
       (CreateCloudLabelingTask._get_labeling_dataset_region
          (CreateCloudLabelingTask.cloud_location FLAGS))
       name pool import_file (CreateCloudLabelingTask.labeler_instructions_uri FLAGS)
       (CreateCloudLabelingTask.label_inputs_schema_uri FLAGS) ∈ snd outcome).
Proof.
  intros Hname. cbv zeta.
  assert (Hstamp : timestamped (CreateCloudLabelingTask.dataset_name FLAGS) W =
                   "None_" +:+ strftime_Ymd_HMS (localtime W)).
  { unfold timestamped. rewrite Hname. reflexivity. }
  split; [| split; [| split]].
  - unfold run, CreateCloudLabelingTask.main, CreateCloudLabelingTask.main_labeler_pool,
      bind, call, ret, raise.
    destruct (create_labeling_images W _ _ _) as [[count path] | msg]; simpl;
      [| discriminate].
    destruct (CreateCloudLabelingTask.cloud_labeler_pool FLAGS); simpl.
    + destruct (create_cloud_labeling_job W _ _ _ _ _ _ _); discriminate.
    + destruct (CreateCloudLabelingTask.cloud_labeler_emails FLAGS)
        as [[| email emails] |]; simpl; try (intros [= H]; diff_msg H).
      destruct (create_specialist_pool W _ _ _ _ _); simpl; [| discriminate].
      destruct (create_cloud_labeling_job W _ _ _ _ _ _ _); discriminate.
  - intros p r d q i ins sch Hin.
    apply task_main_events in Hin as [Hev | [(emails & Hev & _) | (q' & i' & Hev)]];
      try discriminate.
    injection Hev as _ _ -> _ _ _ _. exact Hstamp.
  - intros p r d ms mb Hin.
    apply task_main_events in Hin as [Hev | [(emails & Hev & _) | (q' & i' & Hev)]];
      try discriminate.
    injection Hev as _ _ -> _ _. now rewrite Hstamp.
  - intros pool count import_file Hp Himages.
    unfold run, CreateCloudLabelingTask.main, CreateCloudLabelingTask.main_labeler_pool,
      bind, call, ret, raise.
    rewrite Himages, Hp, Hname. simpl.
    apply elem_of_cons; right. apply elem_of_cons; left. reflexivity.
Qed.

Lemma X11_sample_unset_name :
  let FLAGS := Samples.task_flags None (Some "pool-7") None in
  let W := Samples.world "3.8.10" Samples.now [] in
  CreateCloudLabelingTask.dataset_name FLAGS = None /\
  forall project region dataset pool import_file instructions schema,
    EvCreateCloudLabelingJob project region dataset pool import_file instructions schema
      ∈ snd (run (CreateCloudLabelingTask.main FLAGS W)) ->
    dataset = "None_" +:+ strftime_Ymd_HMS (localtime W).
Proof.
  cbv zeta. split; [reflexivity |].
  exact (proj1 (proj2 (X11_task_unset_name (Samples.task_flags None (Some "pool-7") None)
                         (Samples.world "3.8.10" Samples.now []) eq_refl))).
Defined.

(** ** After the pipeline *)

Section AfterPipeline.

Import GenerateExamplesMain.

Variable FLAGS : Flags.
Variable W : World.

Lemma reads_rank (bc : result (list Coordinate)) (lc : result (list LabeledCoordinate))
    (t1 t2 : list event) :
  main_building_centroids FLAGS W [] = (bc, t1) ->
  main_labeled_coordinates FLAGS W t1 = (lc, t2) ->
  Forall (fun ev => (call_rank ev < 3)%nat) t2.
Proof.
  intros Hb Hl. eapply labels_trace_rank; [| exact Hl].
  eapply buildings_trace_rank; exact Hb.
Qed.

(** A pipeline call in the trace decides how the run goes on. *)
Lemma main_after_pipeline (req : GenerationRequest) :
  EvGenerateExamplesPipeline req ∈ snd (run (main FLAGS W)) ->
  exists before,
    Forall (fun ev => (call_rank ev < 3)%nat) before /\
    run (main FLAGS W) =
      match generate_examples_pipeline W req with
      | Returns _ =>
          main_labeling_task FLAGS W (before ++ [EvGenerateExamplesPipeline req])%list
      | Fails msg =>
          (Raise (CollaboratorError msg), (before ++ [EvGenerateExamplesPipeline req])%list)
      end.
Proof.
  intros Hin.
  apply main_pipeline_event in Hin
    as (image & bc & t1 & lc & t2 & env & Hi & Hc & Hb & Hl & He & ->).
  exists t2. split; [eapply reads_rank; eauto |].
  rewrite main_run, Hi, Hc, Hb, Hl, He. reflexivity.
Qed.

(** A run either reaches the labeling task, after a pipeline call that
    returned, or ends before it in an exception that is not the missing
    email error; an [AttributeError] before the labeling task is that of
    a feature without geometry. *)
Lemma main_reaches_task :
  (exists before req,
     Forall (fun ev => (call_rank ev < 3)%nat) before /\
     generate_examples_pipeline W req = Returns tt /\
     run (main FLAGS W) =
       main_labeling_task FLAGS W (before ++ [EvGenerateExamplesPipeline req])%list) \/
  (exists e,
     fst (run (main FLAGS W)) = Raise e /\
     e <> ValueError msg_labeler_email /\
     Forall (fun ev => (call_rank ev <= 3)%nat) (snd (run (main FLAGS W))) /\
     (e = AttributeError ->
      feature_without_geometry FLAGS W (snd (run (main FLAGS W))) /\
      Forall (fun ev => (call_rank ev < 3)%nat) (snd (run (main FLAGS W))))).
Proof.
  assert (Hlow : forall t, Forall (fun ev => (call_rank ev < 3)%nat) t ->
                           Forall (fun ev => (call_rank ev <= 3)%nat) t).
  { intros t F. eapply Forall_impl; [exact F |]. intros ev. simpl. lia. }
  destruct (main_ends_run FLAGS W)
    as [e He | image e Hi He | image e t1 Hi Hc Hb | image bc t1 e t2 Hi Hc Hb Hl
       | image bc t1 lc t2 e Hi Hc Hb Hl He | image bc t1 lc t2 env msg Hi Hc Hb Hl He Hp
       | image bc t1 lc t2 env Hi Hc Hb Hl He Hp].
  - right. exists e. apply dataflow_image_raise in He as ->. simpl.
    split; [reflexivity |]. split; [intros [= H]; diff_msg H |].
    split; [constructor | discriminate].
  - right. exists e. apply check_sources_raise in He as (-> & _). simpl.
    split; [reflexivity |]. split; [intros [= H]; diff_msg H |].
    split; [constructor | discriminate].
  - right. exists e. pose proof (buildings_trace_rank FLAGS W _ _ Hb) as Hrank.
    apply building_centroids_raise in Hb as [msg ->]. simpl.
    split; [reflexivity |]. split; [discriminate |].
    split; [now apply Hlow | discriminate].
  - right. exists e. pose proof (reads_rank _ _ _ _ Hb Hl) as Hrank. simpl.
    split; [reflexivity |]. split; [| split; [now apply Hlow |]].
    + apply labeled_coordinates_raise in Hl
        as [[msg ->] | [-> | [-> | [-> | [label ->]]]]]; discriminate.
    + intros ->. split; [| exact Hrank].
      apply labeled_coordinates_attribute_error in Hl
        as (path & rows & row & Hfile & Hread & Hin & Hgeo & ->).
      exists path, rows, row, t1. auto.
  - right. exists e. pose proof (reads_rank _ _ _ _ Hb Hl) as Hrank.
    apply get_gdal_env_raise in He as ->. simpl.
    split; [reflexivity |]. split; [intros [= H]; diff_msg H |].
    split; [now apply Hlow | discriminate].
  - right. exists (CollaboratorError msg). pose proof (reads_rank _ _ _ _ Hb Hl) as Hrank.
    simpl. split; [reflexivity |]. split; [discriminate |].
    split; [| discriminate].
    apply Forall_app. split; [now apply Hlow |]. constructor; [simpl; lia | constructor].
  - left. exists t2, (generation_request FLAGS bc lc env image).
    split; [eapply reads_rank; eauto |]. split; [exact Hp | reflexivity].
Qed.

(** How the labeling task returns normally. *)
Lemma labeling_task_ok (t : list event) :
  fst (main_labeling_task FLAGS W t) = Ok tt ->
  (create_cloud_labeling_task FLAGS = false /\ snd (main_labeling_task FLAGS W t) = t) \/
  (create_cloud_labeling_task FLAGS = true /\
   truthy_str (dataset_name FLAGS) = true /\
   exists pools job,
     snd (main_labeling_task FLAGS W t) = (t ++ pools ++ [job])%list /\
     Forall (pool_event FLAGS W) pools /\ quiet W pools /\
     job_event FLAGS W job /\ call_failure W job = None).
Proof.
  unfold main_labeling_task, main_labeler_pool, bind, call, lift, ret, raise,
    pool_event, job_event, timestamped, quiet.
  destruct (create_cloud_labeling_task FLAGS) eqn:Hc; simpl; [| now left].
  destruct (truthy_str (dataset_name FLAGS)) eqn:Hn; simpl; [| discriminate].
  intros Hok. right. split; [reflexivity |]. split; [reflexivity |]. revert Hok.
  destruct (cloud_labeler_pool FLAGS) as [pool |] eqn:Hp.
  - destruct (cloud_region FLAGS) as [region |] eqn:Hr; simpl; [| discriminate].
    destruct (create_cloud_labeling_job W _ _ _ _ _ _ _) eqn:Hjob; [| discriminate].
    intros _. exists []. eexists. split; [reflexivity |].
    split; [constructor |]. split; [constructor |].
    split; [eauto 10 | simpl; now rewrite Hjob].
  - destruct (cloud_labeler_emails FLAGS) as [[| email emails] |] eqn:He; simpl;
      try discriminate.
    destruct (create_specialist_pool W _ _ _ _ _) as [pool | msg] eqn:Hpool; simpl;
      [| discriminate].
    destruct (cloud_region FLAGS) as [region |] eqn:Hr; simpl; [| discriminate].
    destruct (create_cloud_labeling_job W _ _ _ _ _ _ _) eqn:Hjob; [| discriminate].
    intros _. eexists [_]. eexists. split; [apply two_events |].
    split; [constructor; [| constructor] |].
    { exists (email :: emails). repeat split. discriminate. }
    split; [constructor; [simpl; now rewrite Hpool | constructor] |].
    split; [eauto 10 | simpl; now rewrite Hjob].
Qed.

End AfterPipeline.

(** X12. With the labeling task enabled and named but the region flag
    unset, [main] always ends in an exception and never requests a
    labeling job: the region is only looked at when the job's arguments
    are computed, after the pipeline and the labeler pool.  Once the
    pipeline has returned, a configured pool makes the run end in
    [AttributeError] right after the pipeline, and without one the pool
    is first created, without a region, and the run then ends in
    [AttributeError] with the pool creation as its last call. *)
Theorem X12_region_unset (FLAGS : GenerateExamplesMain.Flags) (W : World) :
  GenerateExamplesMain.cloud_region FLAGS = None ->
  GenerateExamplesMain.create_cloud_labeling_task FLAGS = true ->
  truthy_str (GenerateExamplesMain.dataset_name FLAGS) = true ->
  let outcome := run (GenerateExamplesMain.main FLAGS W) in
  let display := timestamped (GenerateExamplesMain.dataset_name FLAGS) W +:+ "_pool" in
  (exists e, fst outcome = Raise e) /\
  (forall project region dataset pool import_file instructions schema,
     EvCreateCloudLabelingJob project region dataset pool import_file instructions schema
       ∈ snd outcome -> False) /\
  (forall req,
     EvGenerateExamplesPipeline req ∈ snd outcome ->
     generate_examples_pipeline W req = Returns tt ->
     (forall pool,
        GenerateExamplesMain.cloud_labeler_pool FLAGS = Some pool ->
        fst outcome = Raise AttributeError /\
        exists before, snd outcome = (before ++ [EvGenerateExamplesPipeline req])%list) /\
     (forall first others pool,
        GenerateExamplesMain.cloud_labeler_pool FLAGS = None ->
        GenerateExamplesMain.cloud_labeler_emails FLAGS = Some (first :: others) ->
        create_specialist_pool W (GenerateExamplesMain.cloud_project FLAGS) None display
          [first] (first :: others) = Returns pool ->
        fst outcome = Raise AttributeError /\
        exists before,
          snd outcome =
            (before ++ [EvGenerateExamplesPipeline req;
                        EvCreateSpecialistPool (GenerateExamplesMain.cloud_project FLAGS)
                          None display [first] (first :: others)])%list)).
Proof.
  intros Hr Hc Hn. cbv zeta. split; [| split].
  - destruct (main_reaches_task FLAGS W)
      as [(before & req & _ & _ & ->) | (e & He & _)]; [| eauto].
    unfold GenerateExamplesMain.main_labeling_task, GenerateExamplesMain.main_labeler_pool,
      bind, call, raise, ret.
    rewrite Hc, Hn, Hr. simpl.
    destruct (GenerateExamplesMain.cloud_labeler_pool FLAGS); simpl; [eauto |].
    destruct (truthy_list _); simpl; [| eauto].
    destruct (create_specialist_pool W _ _ _ _ _); simpl; eauto.
  - intros p r d q i ins sch Hin.
    apply main_events in Hin
      as [[[H _] | [(x & H & _) | (x & H & _)]]
         | [(x & H & _) | [(x & H) | [(x & H & _) | (x & y & _ & H & _)]]]];
      congruence.
  - intros req Hin Hpipe.
    apply main_after_pipeline in Hin as (before & _ & Hrun).
    rewrite Hpipe in Hrun. rewrite Hrun. split.
    + intros pool Hp.
      unfold GenerateExamplesMain.main_labeling_task,
        GenerateExamplesMain.main_labeler_pool, bind, call, raise, ret.
      rewrite Hc, Hn, Hp, Hr. simpl. eauto.
    + intros first others pool Hp He Hpool.
      unfold GenerateExamplesMain.main_labeling_task,
        GenerateExamplesMain.main_labeler_pool, bind, call, raise, ret.
      unfold timestamped in Hpool.
      rewrite Hc, Hn, Hp, He, Hr. simpl.
      change (take 0 others) with (@nil string). rewrite Hpool. simpl.
      split; [reflexivity |]. exists before. apply two_events.
Qed.

Lemma X12_sample_without_region :
  let FLAGS := with_region None
                 (Samples.flags GenerateExamplesMain.BM_none (Some "labels.geojson")
                    (Some 1000) false None [] true (Some "flood") None
                    (Some ["a@x.com"])) in
  let W := Samples.world "3.8.10" Samples.now Samples.five_rows in
  (exists e, fst (run (GenerateExamplesMain.main FLAGS W)) = Raise e) /\
  forall project region dataset pool import_file instructions schema,
    EvCreateCloudLabelingJob project region dataset pool import_file instructions schema
      ∈ snd (run (GenerateExamplesMain.main FLAGS W)) -> False.
Proof.
  cbv zeta.
  destruct (X12_region_unset
              (with_region None
                 (Samples.flags GenerateExamplesMain.BM_none (Some "labels.geojson")
                    (Some 1000) false None [] true (Some "flood") None
                    (Some ["a@x.com"])))
              (Samples.world "3.8.10" Samples.now Samples.five_rows)
              eq_refl eq_refl eq_refl) as (Hraise & Hjob & _).
  split; [exact Hraise | exact Hjob].
Defined.

(** X13. [main] returns normally only after the pipeline was called and
    returned.  With the labeling task disabled the pipeline is then the
    last call; with it enabled the dataset has a name, any pool that was
    created returned, and the last call is the creation of the labeling
    job, which returned. *)
Theorem X13_normal_return (FLAGS : GenerateExamplesMain.Flags) (W : World) :
  fst (run (GenerateExamplesMain.main FLAGS W)) = Ok tt ->
  exists before req,
    Forall (fun ev => (call_rank ev < 3)%nat) before /\
    generate_examples_pipeline W req = Returns tt /\
    ((GenerateExamplesMain.create_cloud_labeling_task FLAGS = false /\
      snd (run (GenerateExamplesMain.main FLAGS W)) =
        (before ++ [EvGenerateExamplesPipeline req])%list) \/
     (GenerateExamplesMain.create_cloud_labeling_task FLAGS = true /\
      truthy_str (GenerateExamplesMain.dataset_name FLAGS) = true /\
      exists pools job,
        snd (run (GenerateExamplesMain.main FLAGS W)) =
          (before ++ EvGenerateExamplesPipeline req :: pools ++ [job])%list /\
        Forall (pool_event FLAGS W) pools /\ quiet W pools /\
        job_event FLAGS W job /\ call_failure W job = None)).
Proof.
  intros Hok.
  destruct (main_reaches_task FLAGS W)
    as [(before & req & Hlow & Hpipe & Hrun) | (e & He & _)]; [| congruence].
  exists before, req. split; [exact Hlow |]. split; [exact Hpipe |].
  rewrite Hrun in Hok |- *.
  apply labeling_task_ok in Hok
    as [[Hc Ht] | (Hc & Hn & pools & job & Ht & Hp & Hq & Hj & Hf)].
  - left. now split.
  - right. split; [exact Hc |]. split; [exact Hn |]. exists pools, job.
    split; [| auto]. rewrite Ht. now rewrite <- app_assoc.
Qed.

Lemma X13_sample_return :
  let FLAGS := Samples.flags GenerateExamplesMain.BM_none (Some "labels.geojson")
                 (Some 1000) false None [] true (Some "flood") (Some "pool-7") None in
  let W := Samples.world "3.8.10" Samples.now Samples.five_rows in
  exists before req,
    Forall (fun ev => (call_rank ev < 3)%nat) before /\
    generate_examples_pipeline W req = Returns tt /\
    ((GenerateExamplesMain.create_cloud_labeling_task FLAGS = false /\
      snd (run (GenerateExamplesMain.main FLAGS W)) =
        (before ++ [EvGenerateExamplesPipeline req])%list) \/
     (GenerateExamplesMain.create_cloud_labeling_task FLAGS = true /\
      truthy_str (GenerateExamplesMain.dataset_name FLAGS) = true /\
      exists pools job,
        snd (run (GenerateExamplesMain.main FLAGS W)) =
          (before ++ EvGenerateExamplesPipeline req :: pools ++ [job])%list /\
        Forall (pool_event FLAGS W) pools /\ quiet W pools /\
        job_event FLAGS W job /\ call_failure W job = None)).
Proof.
  cbv zeta.
  apply (X13_normal_return
           (Samples.flags GenerateExamplesMain.BM_none (Some "labels.geojson")
              (Some 1000) false None [] true (Some "flood") (Some "pool-7") None)
           (Samples.world "3.8.10" Samples.now Samples.five_rows)).
  vm_compute. reflexivity.
Defined.

(** X14. With the labeling task disabled, [main] calls nothing after
    the pipeline, whatever the dataset name, the region, the pool and
    the emails are, and it returns normally exactly when the pipeline
    was called and returned. *)
Theorem X14_task_disabled (FLAGS : GenerateExamplesMain.Flags) (W : World) :
  GenerateExamplesMain.create_cloud_labeling_task FLAGS = false ->
  Forall (fun ev => (call_rank ev <= 3)%nat) (snd (run (GenerateExamplesMain.main FLAGS W))) /\
  (fst (run (GenerateExamplesMain.main FLAGS W)) = Ok tt <->
   exists req,
     EvGenerateExamplesPipeline req ∈ snd (run (GenerateExamplesMain.main FLAGS W)) /\
     generate_examples_pipeline W req = Returns tt).
Proof.
  intros Hc.
  assert (Htask : forall t, GenerateExamplesMain.main_labeling_task FLAGS W t = (Ok tt, t)).
  { intros t. unfold GenerateExamplesMain.main_labeling_task. now rewrite Hc. }
  split; [| split].
  - destruct (main_reaches_task FLAGS W)
      as [(before & req & Hlow & Hpipe & ->) | (e & _ & _ & F & _)]; [| exact F].
    rewrite Htask. simpl. apply Forall_app. split.
    + eapply Forall_impl; [exact Hlow |]. intros ev. simpl. lia.
    + constructor; [simpl; lia | constructor].
  - intros Hok.
    destruct (main_reaches_task FLAGS W)
      as [(before & req & Hlow & Hpipe & Hrun) | (e & He & _)]; [| congruence].
    exists req. split; [| exact Hpipe]. rewrite Hrun, Htask. simpl.
    apply elem_of_app. right. now apply list_elem_of_singleton.
  - intros (req & Hin & Hpipe).
    apply main_after_pipeline in Hin as (before & _ & Hrun).
    rewrite Hpipe in Hrun. rewrite Hrun, Htask. reflexivity.
Qed.

Lemma X14_sample_disabled :
  let FLAGS := Samples.flags GenerateExamplesMain.BM_file None None false None []
                 false None None None in
  let W := Samples.world "3.8.10" Samples.now [] in
  Forall (fun ev => (call_rank ev <= 3)%nat) (snd (run (GenerateExamplesMain.main FLAGS W))).
Proof.
  cbv zeta.
  exact (proj1 (X14_task_disabled
                  (Samples.flags GenerateExamplesMain.BM_file None None false None []
                     false None None None)
                  (Samples.world "3.8.10" Samples.now []) eq_refl)).
Defined.

(** X15. The missing-email error is raised only by the labeling task,
    after the pipeline has returned, with the task enabled and the
    dataset named: no pool is configured, the email list is unset or
    empty, and the pipeline is the last call.  [AttributeError] has two
    sources.  Before the pipeline it is that of a feature without
    geometry in the labels file, raised with the read of that file as
    the last call, whatever the region is.  After the pipeline it is
    that of an unset region, with the task enabled and the dataset
    named; the only calls after the pipeline are then pool creations,
    which returned. *)
Theorem X15_late_errors (FLAGS : GenerateExamplesMain.Flags) (W : World) (e : exn) :
  fst (run (GenerateExamplesMain.main FLAGS W)) = Raise e ->
  e = ValueError msg_labeler_email \/ e = AttributeError ->
  (e = AttributeError /\
   feature_without_geometry FLAGS W (snd (run (GenerateExamplesMain.main FLAGS W))) /\
   Forall (fun ev => (call_rank ev < 3)%nat)
     (snd (run (GenerateExamplesMain.main FLAGS W)))) \/
  (GenerateExamplesMain.create_cloud_labeling_task FLAGS = true /\
   truthy_str (GenerateExamplesMain.dataset_name FLAGS) = true /\
   exists before req,
     Forall (fun ev => (call_rank ev < 3)%nat) before /\
     generate_examples_pipeline W req = Returns tt /\
     ((e = ValueError msg_labeler_email /\
       GenerateExamplesMain.cloud_labeler_pool FLAGS = None /\
       truthy_list (GenerateExamplesMain.cloud_labeler_emails FLAGS) = false /\
       snd (run (GenerateExamplesMain.main FLAGS W)) =
         (before ++ [EvGenerateExamplesPipeline req])%list) \/
      (e = AttributeError /\
       GenerateExamplesMain.cloud_region FLAGS = None /\
       exists pools,
         snd (run (GenerateExamplesMain.main FLAGS W)) =
           (before ++ EvGenerateExamplesPipeline req :: pools)%list /\
         Forall (pool_event FLAGS W) pools /\ quiet W pools))).
Proof.
  intros He Hkind.
  destruct (main_reaches_task FLAGS W)
    as [(before & req & Hlow & Hpipe & Hrun) | (e' & He' & Hne & _ & Hattr)].
  2: { rewrite He in He'. injection He' as <-.
       destruct Hkind as [-> | ->]; [contradiction |].
       left. split; [reflexivity |]. now apply Hattr. }
  right. rewrite Hrun in He |- *. revert He.
  unfold GenerateExamplesMain.main_labeling_task, GenerateExamplesMain.main_labeler_pool,
    bind, call, raise, ret, pool_event, quiet, timestamped.
  destruct (GenerateExamplesMain.create_cloud_labeling_task FLAGS) eqn:Hc; simpl;
    [| discriminate].
  destruct (truthy_str (GenerateExamplesMain.dataset_name FLAGS)) eqn:Hn; simpl.
  2: { intros [= <-].
       destruct Hkind as [H | H]; first [discriminate H | injection H as H; diff_msg H]. }
  intros He. split; [reflexivity |]. split; [reflexivity |].
  exists before, req. split; [exact Hlow |]. split; [exact Hpipe |]. revert He.
  destruct (GenerateExamplesMain.cloud_labeler_pool FLAGS) as [pool |] eqn:Hp; simpl.
  - destruct (GenerateExamplesMain.cloud_region FLAGS) as [region |] eqn:Hr; simpl.
    + destruct (create_cloud_labeling_job W _ _ _ _ _ _ _); simpl; [discriminate |].
      intros [= <-]. destruct Hkind; discriminate.
    + intros [= <-]. right. split; [reflexivity |]. split; [reflexivity |].
      exists []. split; [reflexivity | split; constructor].
  - destruct (GenerateExamplesMain.cloud_labeler_emails FLAGS)
      as [[| email emails] |] eqn:Hemails; simpl.
    + intros [= <-]. left. repeat split.
    + destruct (create_specialist_pool W _ _ _ _ _) as [pool | msg] eqn:Hpool; simpl.
      * destruct (GenerateExamplesMain.cloud_region FLAGS) as [region |] eqn:Hr; simpl.
        -- destruct (create_cloud_labeling_job W _ _ _ _ _ _ _); simpl; [discriminate |].
           intros [= <-]. destruct Hkind; discriminate.
        -- intros [= <-]. right. split; [reflexivity |]. split; [reflexivity |].
           eexists [_]. split; [apply two_events |].
           split; [constructor; [| constructor] | constructor; [| constructor]].
           ++ exists (email :: emails). repeat split. discriminate.
           ++ simpl. now rewrite Hpool.
      * intros [= <-]. destruct Hkind; discriminate.
    + intros [= <-]. left. repeat split.
Qed.

(** A labels file whose second feature has no geometry, with the region
    set and the labeling task disabled: [main] raises [AttributeError]
    right after reading the file, and the pipeline is not called. *)
Lemma X15_sample_no_geometry :
  let FLAGS := Samples.flags GenerateExamplesMain.BM_none (Some "labels.geojson")
                 (Some 1000) false None [] false None None None in
  let W := Samples.world "3.8.10" Samples.now
             [Samples.point 1 1 (PyStr "damaged"); Samples.no_geometry (PyStr "damaged")] in
  run (GenerateExamplesMain.main FLAGS W) =
    (Raise AttributeError, [EvReadLabelsFile "labels.geojson"]) /\
  GenerateExamplesMain.cloud_region FLAGS = Some "europe-west1" /\
  ((AttributeError = AttributeError /\
    feature_without_geometry FLAGS W (snd (run (GenerateExamplesMain.main FLAGS W))) /\
    Forall (fun ev => (call_rank ev < 3)%nat)
      (snd (run (GenerateExamplesMain.main FLAGS W)))) \/
   (GenerateExamplesMain.create_cloud_labeling_task FLAGS = true /\
    truthy_str (GenerateExamplesMain.dataset_name FLAGS) = true /\
    exists before req,
      Forall (fun ev => (call_rank ev < 3)%nat) before /\
      generate_examples_pipeline W req = Returns tt /\
      ((AttributeError = ValueError msg_labeler_email /\
        GenerateExamplesMain.cloud_labeler_pool FLAGS = None /\
        truthy_list (GenerateExamplesMain.cloud_labeler_emails FLAGS) = false /\
        snd (run (GenerateExamplesMain.main FLAGS W)) =
          (before ++ [EvGenerateExamplesPipeline req])%list) \/
       (AttributeError = AttributeError /\
        GenerateExamplesMain.cloud_region FLAGS = None /\
        exists pools,
          snd (run (GenerateExamplesMain.main FLAGS W)) =
            (before ++ EvGenerateExamplesPipeline req :: pools)%list /\
          Forall (pool_event FLAGS W) pools /\ quiet W pools)))).
Proof.
  cbv zeta. split; [vm_compute; reflexivity |]. split; [reflexivity |].
  apply (X15_late_errors
           (Samples.flags GenerateExamplesMain.BM_none (Some "labels.geojson")
              (Some 1000) false None [] false None None None)
           (Samples.world "3.8.10" Samples.now
              [Samples.point 1 1 (PyStr "damaged"); Samples.no_geometry (PyStr "damaged")])
           AttributeError).
  - vm_compute. reflexivity.
  - right. reflexivity.
Defined.

(** ** The region and the import file of the labeling job *)

(** X16. Routing a region twice is routing it once: the only regions
    that [_get_labeling_dataset_region] leaves as they are are
    "europe-west4" and "us-central1", and every result is one of them.
    So every other project region, European or not, gets a labeling
    dataset outside itself. *)
Theorem X16_region_fixed_points (project_region : string) :
  let route := GenerateExamplesMain._get_labeling_dataset_region in
  route (route project_region) = route project_region /\
  CreateCloudLabelingTask._get_labeling_dataset_region
    (CreateCloudLabelingTask._get_labeling_dataset_region project_region) =
  CreateCloudLabelingTask._get_labeling_dataset_region project_region /\
  (route project_region = project_region <->
   project_region = "europe-west4" \/ project_region = "us-central1").
Proof.
  cbv zeta.
  unfold GenerateExamplesMain._get_labeling_dataset_region,
    CreateCloudLabelingTask._get_labeling_dataset_region.
  split; [| split; [| split]].
  - destruct (startswith project_region "europe-"); reflexivity.
  - destruct (startswith project_region "europe-"); reflexivity.
  - destruct (startswith project_region "europe-"); intros <-; auto.
  - intros [-> | ->]; reflexivity.
Qed.

Lemma append_assoc (a b c : string) : (a +:+ b) +:+ c = a +:+ b +:+ c.
Proof.
  induction a as [| x a IH]; [reflexivity |].
  rewrite !append_string. now rewrite IH.
Qed.

Lemma ends_with_slash_append (a : string) (c : ascii) (b : string) :
  ends_with_slash (a +:+ String c b) = ends_with_slash (String c b).
Proof.
  induction a as [| x a IH]; [reflexivity |].
  rewrite append_string, <- IH.
  destruct (a +:+ String c b) as [| y r] eqn:Heq; [| reflexivity].
  destruct a; discriminate.
Qed.

Lemma append_nonempty (a : string) (c : ascii) (b : string) :
  String.eqb (a +:+ String c b) EmptyString = false.
Proof. destruct a; reflexivity. Qed.

(** Joining a path that ends in a word with a relative component. *)
Lemma path_join_append (a : string) (c : ascii) (b component : string) :
  ends_with_slash (String c b) = false ->
  startswith component "/" = false ->
  path_join (a +:+ String c b) component = a +:+ String c b +:+ "/" +:+ component.
Proof.
  intros Hend Hstart. unfold path_join.
  rewrite Hstart, append_nonempty, ends_with_slash_append, Hend. simpl.
  apply append_assoc.
Qed.

(** X17. The import file of the labeling job of
    [generate_examples_main.py] is the output directory followed by
    [examples/labeling_images/import_file.csv], with one slash put
    between the two unless the output directory is empty or already
    ends in a slash; and every labeling job that a run requests is given
    that file. *)
Theorem X17_import_file_uri (FLAGS : GenerateExamplesMain.Flags) (W : World) :
  let output_dir := GenerateExamplesMain.output_dir FLAGS in
  let separator :=
    if orb (String.eqb output_dir EmptyString) (ends_with_slash output_dir)
    then EmptyString else "/" in
  let import_file_uri :=
    path_join (path_join (path_join output_dir "examples") "labeling_images")
              "import_file.csv" in
  import_file_uri =
    output_dir +:+ separator +:+ "examples/labeling_images/import_file.csv" /\
  forall project region dataset pool import_file instructions schema,
    EvCreateCloudLabelingJob project region dataset pool import_file instructions schema
      ∈ snd (run (GenerateExamplesMain.main FLAGS W)) ->
    import_file = import_file_uri.
Proof.
  cbv zeta. split.
  - generalize (GenerateExamplesMain.output_dir FLAGS). intros a.
    unfold path_join at 3. simpl startswith. cbv iota.
    destruct (orb (String.eqb a EmptyString) (ends_with_slash a)).
    + rewrite (path_join_append a "e" "xamples" "labeling_images" eq_refl eq_refl).
      change (a +:+ "examples" +:+ "/" +:+ "labeling_images")
        with (a +:+ "examples/labeling_images").
      rewrite (path_join_append a "e" "xamples/labeling_images" "import_file.csv"
                 eq_refl eq_refl).
      reflexivity.
    + change (a +:+ "/" +:+ "examples") with (a +:+ "/examples").
      rewrite (path_join_append a "/" "examples" "labeling_images" eq_refl eq_refl).
      change (a +:+ "/examples" +:+ "/" +:+ "labeling_images")
        with (a +:+ "/examples/labeling_images").
      rewrite (path_join_append a "/" "examples/labeling_images" "import_file.csv"
                 eq_refl eq_refl).
      reflexivity.
  - intros p r d q i ins sch Hin.
    apply main_events in Hin
      as [[[H _] | [(x & H & _) | (x & H & _)]]
         | [(x & H & _) | [(x & H) | [(x & H & _) | (x & y & H & _)]]]];
      try discriminate.
    now injection H as _ _ _ _ ->.
Qed.

(** ** Building discovery in [main] *)

Section BuildingDiscovery.

Import GenerateExamplesMain.

Variable FLAGS : Flags.
Variable W : World.

Lemma building_centroids_trace :
  snd (main_building_centroids FLAGS W []) = discovery_calls FLAGS W.
Proof.
  unfold main_building_centroids, get_building_centroids, discovery_calls,
    bind, call, ret, raise.
  destruct (buildings_method FLAGS); simpl; try reflexivity;
    destruct (read_aois W (aoi_path FLAGS)); reflexivity.
Qed.

(** The trace of a run is empty or starts with the calls of the
    building step, and the later calls are of later steps. *)
Lemma main_trace_split :
  snd (run (main FLAGS W)) = [] \/
  exists rest,
    snd (run (main FLAGS W)) = (discovery_calls FLAGS W ++ rest)%list /\
    Forall (fun ev => (2 <= call_rank ev)%nat) rest.
Proof.
  assert (Hlabels : forall t r t2,
            main_labeled_coordinates FLAGS W t = (r, t2) ->
            exists evs, t2 = (t ++ evs)%list /\
                        Forall (fun ev => (2 <= call_rank ev)%nat) evs).
  { intros t r t2 H. destruct (labeled_coordinates_events FLAGS W t) as (evs & Ht & F).
    rewrite H in Ht. simpl in Ht. exists evs. split; [exact Ht |].
    eapply Forall_impl; [exact F |]. intros ev Hev.
    apply labels_event_rank in Hev. simpl. lia. }
  rewrite <- building_centroids_trace.
  destruct (main_ends_run FLAGS W)
    as [e He | image e Hi He | image e t1 Hi Hc Hb | image bc t1 e t2 Hi Hc Hb Hl
       | image bc t1 lc t2 e Hi Hc Hb Hl He | image bc t1 lc t2 env msg Hi Hc Hb Hl He Hp
       | image bc t1 lc t2 env Hi Hc Hb Hl He Hp]; simpl; auto; right; rewrite Hb; simpl.
  - exists []. split; [now rewrite app_nil_r | constructor].
  - apply Hlabels in Hl as (evs & -> & F). eauto.
  - apply Hlabels in Hl as (evs & -> & F). eauto.
  - apply Hlabels in Hl as (evs & -> & F). eexists. rewrite <- app_assoc.
    split; [reflexivity |]. apply Forall_app. split; [exact F |].
    constructor; [simpl; lia | constructor].
  - apply Hlabels in Hl as (evs & -> & F).
    destruct (labeling_task_events FLAGS W
                ((t1 ++ evs) ++ [EvGenerateExamplesPipeline
                                   (generation_request FLAGS bc lc env image)]))
      as (evs' & -> & F').
    eexists. rewrite <- !app_assoc. split; [reflexivity |].
    apply Forall_app. split; [exact F |].
    constructor; [simpl; lia |].
    eapply Forall_impl; [exact F' |]. intros ev Hev.
    apply task_event_rank in Hev. simpl. lia.
Qed.

Lemma early_call (ev : event) :
  (call_rank ev < 2)%nat -> ev ∈ snd (run (main FLAGS W)) ->
  ev ∈ discovery_calls FLAGS W /\
  exists rest, snd (run (main FLAGS W)) = (discovery_calls FLAGS W ++ rest)%list.
Proof.
  intros Hrank Hin.
  destruct main_trace_split as [Hnil | (rest & Heq & F)].
  - rewrite Hnil in Hin. now apply elem_of_nil in Hin.
  - rewrite Heq in Hin. split; [| eauto].
    apply elem_of_app in Hin as [Hin | Hin]; [exact Hin |].
    rewrite Forall_forall in F. specialize (F _ Hin). simpl in F. lia.
Qed.

End BuildingDiscovery.

(** X18. In a run of [main] the area of interest is read only when
    building discovery is on, with the flag's path as it is, and as the
    first call of the run.  The buildings file and OpenStreetMap are
    queried only under their own mode, right after that read, and with
    the polygons that it returned.  [main] never raises the
    [ValueError] of [get_building_centroids] for an invalid method:
    under mode [none] it does not call the function. *)
Theorem X18_building_discovery (FLAGS : GenerateExamplesMain.Flags) (W : World) :
  let outcome := run (GenerateExamplesMain.main FLAGS W) in
  let aoi_path := GenerateExamplesMain.aoi_path FLAGS in
  (fst outcome = Raise (ValueError msg_invalid_buildings_method) -> False) /\
  (forall path,
     EvReadAois path ∈ snd outcome ->
     path = aoi_path /\
     GenerateExamplesMain.buildings_method FLAGS <> GenerateExamplesMain.BM_none /\
     exists rest, snd outcome = EvReadAois aoi_path :: rest) /\
  (forall path regions,
     EvReadBuildingsFile path regions ∈ snd outcome ->
     path = GenerateExamplesMain.buildings_file FLAGS /\
     GenerateExamplesMain.buildings_method FLAGS = GenerateExamplesMain.BM_file /\
     read_aois W aoi_path = Returns regions /\
     exists rest,
       snd outcome = EvReadAois aoi_path :: EvReadBuildingsFile path regions :: rest) /\
  (forall regions url,
     EvOverpassQuery regions url ∈ snd outcome ->
     url = GenerateExamplesMain.overpass_url FLAGS /\
     GenerateExamplesMain.buildings_method FLAGS =
       GenerateExamplesMain.BM_open_street_map /\
     read_aois W aoi_path = Returns regions /\
     exists rest,
       snd outcome = EvReadAois aoi_path :: EvOverpassQuery regions url :: rest).
Proof.
  cbv zeta. split; [| split; [| split]].
  - destruct (main_ends_run FLAGS W)
      as [e He | image e Hi He | image e t1 Hi Hc Hb | image bc t1 e t2 Hi Hc Hb Hl
         | image bc t1 lc t2 e Hi Hc Hb Hl He | image bc t1 lc t2 env msg Hi Hc Hb Hl He Hp
         | image bc t1 lc t2 env Hi Hc Hb Hl He Hp]; simpl.
    + apply dataflow_image_raise in He as ->. intros H; first [discriminate H | injection H as H; diff_msg H].
    + apply check_sources_raise in He as (-> & _). intros H; first [discriminate H | injection H as H; diff_msg H].
    + apply building_centroids_raise in Hb as [msg ->]. discriminate.
    + apply labeled_coordinates_raise in Hl as [[msg ->] | [-> | [-> | [-> | [label ->]]]]];
        discriminate.
    + apply get_gdal_env_raise in He as ->. intros H; first [discriminate H | injection H as H; diff_msg H].
    + discriminate.
    + destruct (GenerateExamplesMain.main_labeling_task FLAGS W _)
        as [[[] | e] t4] eqn:Htask; [discriminate |].
      apply labeling_task_raise in Htask
        as [(-> & _) | [-> | [-> | [msg ->]]]]; simpl;
        intros H; first [discriminate H | injection H as H; diff_msg H].
  - intros path Hin.
    apply early_call in Hin as (Hin & rest & ->); [| simpl; lia].
    revert Hin. unfold discovery_calls.
    destruct (GenerateExamplesMain.buildings_method FLAGS);
      try destruct (read_aois W (GenerateExamplesMain.aoi_path FLAGS));
      intros Hin; members Hin; try discriminate; injection Hin as ->;
      (split; [reflexivity |]; split; [discriminate |]); simpl; eauto.
  - intros path regions Hin.
    apply early_call in Hin as (Hin & rest & ->); [| simpl; lia].
    revert Hin. unfold discovery_calls.
    destruct (GenerateExamplesMain.buildings_method FLAGS);
      try destruct (read_aois W (GenerateExamplesMain.aoi_path FLAGS));
      intros Hin; members Hin; try discriminate; injection Hin as -> ->;
      (split; [reflexivity |]; split; [reflexivity |]; split; [reflexivity |]);
      simpl; eauto.
  - intros regions url Hin.
    apply early_call in Hin as (Hin & rest & ->); [| simpl; lia].
    revert Hin. unfold discovery_calls.
    destruct (GenerateExamplesMain.buildings_method FLAGS);
      try destruct (read_aois W (GenerateExamplesMain.aoi_path FLAGS));
      intros Hin; members Hin; try discriminate; injection Hin as -> ->;
      (split; [reflexivity |]; split; [reflexivity |]; split; [reflexivity |]);
      simpl; eauto.
Qed.

(** ** A labels file without a usable row *)

Lemma valid_coordinates_none (label_property : option string) (class_names : list string)
    (rows : list Row) :
  Forall (fun row => GenerateExamplesMain.labels_row label_property class_names row =
                     Ok None) rows ->
  valid_coordinates label_property class_names rows = [] /\
  Forall (fun row => is_ok (GenerateExamplesMain.labels_row label_property class_names row)
                     = true) rows.
Proof.
  induction 1 as [| row rows Hrow _ [IH1 IH2]]; [split; [reflexivity | constructor] |].
  split.
  - unfold valid_coordinates in *. simpl. unfold valid_coordinate at 1.
    now rewrite Hrow.
  - constructor; [now rewrite Hrow | exact IH2].
Qed.

Lemma py_slice_to_nil {A} (n : Z) : py_slice_to (@nil A) n = [].
Proof. unfold py_slice_to. destruct (n <? 0); apply firstn_nil. Qed.

(** X19. The check of the sources looks at the flags, not at the data.
    Under mode [none], with a labels file in which every row is skipped
    (none at all, or only rows whose label is not a known class), [main]
    passes the check, reads the file and calls the pipeline with no
    building centroid and no labeled coordinate. *)
Theorem X19_no_usable_row (FLAGS : GenerateExamplesMain.Flags) (W : World)
    (path : string) (rows : list Row) (image : option string) (env : gmap string string) :
  GenerateExamplesMain.buildings_method FLAGS = GenerateExamplesMain.BM_none ->
  GenerateExamplesMain.labels_file FLAGS = Some path ->
  truthy_str (Some path) = true ->
  gpd_read_file_to_crs W path = Returns rows ->
  Forall (fun row =>
            GenerateExamplesMain.labels_row (GenerateExamplesMain.label_property FLAGS)
              (GenerateExamplesMain.label_classes FLAGS) row = Ok None) rows ->
  GenerateExamplesMain.main_dataflow_container_image FLAGS W = Ok image ->
  GenerateExamplesMain._get_gdal_env FLAGS = Ok env ->
  exists rest,
    snd (run (GenerateExamplesMain.main FLAGS W)) =
      EvReadLabelsFile path ::
      EvGenerateExamplesPipeline
        (GenerateExamplesMain.generation_request FLAGS [] [] env image) :: rest.
Proof.
  intros Hmode Hfile Htruthy Hread Hrows Himage Henv.
  apply valid_coordinates_none in Hrows as [Hnone Hok].
  assert (Hcheck : GenerateExamplesMain.main_check_sources FLAGS = Ok tt).
  { unfold GenerateExamplesMain.main_check_sources. now rewrite Hfile, Htruthy. }
  assert (Hlabels : GenerateExamplesMain.main_labeled_coordinates FLAGS W [] =
                    (Ok [], [EvReadLabelsFile path])).
  { unfold GenerateExamplesMain.main_labeled_coordinates. rewrite Hfile, Htruthy.
    pose proof (read_labels_file_run FLAGS W path _ _ rows Hread Hok) as Hrun.
    unfold run in Hrun. rewrite Hrun, Hnone. cbv zeta.
    destruct (GenerateExamplesMain.num_keep_labeled_examples FLAGS) as [n |];
      [destruct (n =? 0) |]; try reflexivity. now rewrite py_slice_to_nil. }
  rewrite main_run, Himage, Hcheck, (building_centroids_none FLAGS W [] Hmode), Hlabels,
    Henv.
  cbv zeta.
  destruct (generate_examples_pipeline W _); simpl; [| eauto].
  destruct (labeling_task_events FLAGS W
              [EvReadLabelsFile path;
               EvGenerateExamplesPipeline
                 (GenerateExamplesMain.generation_request FLAGS [] [] env image)])
    as (evs & -> & _).
  simpl. eauto.
Qed.

Lemma X19_sample_unknown_labels :
  let FLAGS := Samples.flags GenerateExamplesMain.BM_none (Some "labels.geojson")
                 (Some 1000) false None [] false None None None in
  let W := Samples.world "3.8.10" Samples.now
             [Samples.point 1 1 (PyStr "destroyed"); Samples.point 2 2 (PyStr "unknown")] in
  exists rest,
    snd (run (GenerateExamplesMain.main FLAGS W)) =
      EvReadLabelsFile "labels.geojson" ::
      EvGenerateExamplesPipeline
        (GenerateExamplesMain.generation_request FLAGS [] [] ∅ None) :: rest.
Proof.
  cbv zeta.
  apply (X19_no_usable_row
           (Samples.flags GenerateExamplesMain.BM_none (Some "labels.geojson")
              (Some 1000) false None [] false None None None)
           (Samples.world "3.8.10" Samples.now
              [Samples.point 1 1 (PyStr "destroyed"); Samples.point 2 2 (PyStr "unknown")])
           "labels.geojson"
           [Samples.point 1 1 (PyStr "destroyed"); Samples.point 2 2 (PyStr "unknown")]).
  - reflexivity.
  - reflexivity.
  - reflexivity.
  - reflexivity.
  - repeat constructor.
  - reflexivity.
  - reflexivity.
Defined.
